(** * sunapi-node: the authenticated request pipeline, verified

    A shallow embedding of [SunapiClient] (client.ts), of the aggregate
    [Sunapi] (sunapi.ts), of the error classes of types.ts and of the
    normalisers of [EventModule] (modules/events.ts) and [SystemModule]
    (modules/system.ts).

    Conventions of the embedding.
    - Numbers are integers, those a JavaScript number holds exactly; the
      clock ([Date.now()], [new Date()]) reads milliseconds and is an instant
      a [Date] can hold. A [Date] built from a number is that instant, or
      Invalid Date when the number is beyond the range of [Date].
    - A reply body ([response.data], typed [any] in the source) is a record of
      the fields the client reads, each optional and of the type the source
      uses it at; [None] for the whole body is a null body.
    - Truthiness is written out: an absent field, the empty string and the
      number 0 are falsy.
    - An asynchronous method is a state transformer over the client object
      and the world (clock and wire); it may complete normally, throw, or
      (the interceptor being recursive) never settle, which is [None]. *)

From Stdlib Require Import ZArith List String Ascii Bool Lia DecimalString.
Import ListNotations.
Open Scope string_scope.
Open Scope Z_scope.

Set Warnings "-register-all".

(** ** JavaScript truthiness and [||] on the field types in use *)

Definition truthy_str (v : option string) : bool :=
  match v with
  | Some s => negb (String.eqb s "")
  | None => false
  end.

Definition truthy_num (v : option Z) : bool :=
  match v with
  | Some z => negb (z =? 0)
  | None => false
  end.

(** [a || b] where both sides may be undefined. *)
Definition or_str (a b : option string) : option string :=
  if truthy_str a then a else b.

(** [a || 'literal'] *)
Definition or_lit (a : option string) (d : string) : string :=
  match a with
  | Some s => if String.eqb s "" then d else s
  | None => d
  end.

(** [a || 3600] *)
Definition or_num (a : option Z) (d : Z) : Z :=
  match a with
  | Some z => if z =? 0 then d else z
  | None => d
  end.

(** Template-literal interpolation [`${v}`] of a possibly undefined string. *)
Definition interpolate (v : option string) : string :=
  match v with
  | Some s => s
  | None => "undefined"
  end.

Definition show_Z (z : Z) : string := NilZero.string_of_int (Z.to_int z).

(** ** types.ts *)

Record SunapiConfig := {
  host : string;
  port : Z;
  username : string;
  password : string
}.

(** A [Date]: its time value in milliseconds since the epoch, or Invalid
    Date. *)
Inductive Date :=
| Instant (ms : Z)
| InvalidDate.

(** The largest time value of a [Date], 100 000 000 days from the epoch. *)
Definition max_time : Z := 8640000000000000.

(** [new Date(ms)] *)
Definition new_Date (ms : Z) : Date :=
  if Z.abs ms <=? max_time then Instant ms else InvalidDate.

(** [d > new Date()], the clock reading [t]: the comparison is on the time
    values, and is false of an Invalid Date. *)
Definition later_than (d : Date) (t : Z) : bool :=
  match d with
  | Instant ms => t <? ms
  | InvalidDate => false
  end.

Module AuthToken.
Record t := {
  token : option string;
  expiresAt : Date;
  sessionId : option string
}.
End AuthToken.

Module LoginResponse.
Record t := {
  token : option string;
  sessionId : option string;
  userLevel : string;
  maxSessions : Z
}.
End LoginResponse.

(** [SunapiResponse<T>]: the result envelope. *)
Module Envelope.
Record t (T : Type) := {
  success : bool;
  data : option T;
  error : option string;
  statusCode : option Z
}.
Arguments success {T} _.
Arguments data {T} _.
Arguments error {T} _.
Arguments statusCode {T} _.
End Envelope.
Definition SunapiResponse : Type -> Type := Envelope.t.

(** The fields of a device reply that the client reads. *)
Module Payload.
Record t := {
  status : option string;
  token : option string;
  sessionId : option string;
  expires : option Z;
  message : option string;
  userLevel : option string;
  maxSessions : option Z
}.
Definition empty : t :=
  {| status := None; token := None; sessionId := None; expires := None;
     message := None; userLevel := None; maxSessions := None |}.
End Payload.

(** The error classes. [name] is the class, as [instanceof] sees it. *)
Inductive ErrorClass :=
| SunapiErrorC
| AuthenticationErrorC
| ConnectionErrorC
| ValidationErrorC.

Module SunapiError.
Record t := {
  name : ErrorClass;
  message : string;
  statusCode : option Z;
  response : option (option Payload.t)
}.
End SunapiError.

(** [new SunapiError(message, statusCode?, response?)] *)
Definition new_SunapiError (message : string) (statusCode : option Z)
    (response : option (option Payload.t)) : SunapiError.t :=
  {| SunapiError.name := SunapiErrorC;
     SunapiError.message := message;
     SunapiError.statusCode := statusCode;
     SunapiError.response := response |}.

(** [new AuthenticationError(message)]: [super(message, 401)] *)
Definition new_AuthenticationError (message : string) : SunapiError.t :=
  {| SunapiError.name := AuthenticationErrorC;
     SunapiError.message := message;
     SunapiError.statusCode := Some 401;
     SunapiError.response := None |}.

(** [new ConnectionError(message)]: [super(message, 0)] *)
Definition new_ConnectionError (message : string) : SunapiError.t :=
  {| SunapiError.name := ConnectionErrorC;
     SunapiError.message := message;
     SunapiError.statusCode := Some 0;
     SunapiError.response := None |}.

(** [new ValidationError(message)]: [super(message, 400)] *)
Definition new_ValidationError (message : string) : SunapiError.t :=
  {| SunapiError.name := ValidationErrorC;
     SunapiError.message := message;
     SunapiError.statusCode := Some 400;
     SunapiError.response := None |}.

(** ** The transport, as the axios instance presents it *)

Inductive Method := GET | POST | PUT | DELETE.

Definition Fields := list (string * string).

Module Headers.
Record t := {
  Authorization : option string;
  X_Session_ID : option string
}.
Definition none : t := {| Authorization := None; X_Session_ID := None |}.
End Headers.

Module Request.
Record t := {
  method : Method;
  url : string;
  body : option Fields;
  params : option Fields;
  headers : Headers.t
}.
End Request.

Module AxiosResponse.
Record t := {
  status : Z;
  data : option Payload.t
}.
End AxiosResponse.

(** What the client reads of an [AxiosError]; [config] is the request the
    pipeline sent, and is kept by the pipeline itself. A foreign exception
    cast [as AxiosError] has neither [code] nor [response]. *)
Module AxiosError.
Record t := {
  code : option string;
  message : string;
  response : option AxiosResponse.t
}.
End AxiosError.

Inductive Settled :=
| Fulfilled (r : AxiosResponse.t)
| Rejected (e : AxiosError.t).

Record Exchange := {
  elapsed : Z;
  settled : Settled
}.

(** The device and the network: what the [n]-th request on the wire is
    answered with, and how long the answer takes. *)
Definition Device := nat -> Request.t -> Exchange.

(** The world outside the client object. [relogins] and [retries] are
    observation counters, not program state: they count the calls of
    [login()] made by the response interceptor and its re-dispatches. *)
Record World := {
  now : Z;
  wire : list (Request.t * Settled);
  relogins : nat;
  retries : nat
}.

Definition transmit (w : World) (sent : Request.t) (x : Exchange) : World :=
  {| now := now w + elapsed x;
     wire := wire w ++ [(sent, settled x)];
     relogins := relogins w;
     retries := retries w |}.

Definition note_relogin (w : World) : World :=
  {| now := now w; wire := wire w;
     relogins := S (relogins w); retries := retries w |}.

Definition note_retry (w : World) : World :=
  {| now := now w; wire := wire w;
     relogins := relogins w; retries := S (retries w) |}.

(** ** client.ts: the object *)

Record SunapiClient := {
  config : SunapiConfig;
  authToken : option AuthToken.t;
  sessionId : option string
}.

Definition new_SunapiClient (cfg : SunapiConfig) : SunapiClient :=
  {| config := cfg; authToken := None; sessionId := None |}.

(** ** Completions and the method monad *)

Inductive Thrown :=
| ThrowSunapi (e : SunapiError.t)
| ThrowOther (e : AxiosError.t).

Inductive Completion (A : Type) :=
| Return (a : A)
| Throw (t : Thrown).
Arguments Return {A} _.
Arguments Throw {A} _.

Definition M (A : Type) : Type :=
  SunapiClient -> World -> option (Completion A * SunapiClient * World).

Definition ret {A} (a : A) : M A := fun c w => Some (Return a, c, w).

Definition throw {A} (t : Thrown) : M A := fun c w => Some (Throw t, c, w).

Definition bind {A B} (m : M A) (k : A -> M B) : M B :=
  fun c w =>
    match m c w with
    | None => None
    | Some (Return a, c', w') => k a c' w'
    | Some (Throw t, c', w') => Some (Throw t, c', w')
    end.

Definition try_catch {A} (m : M A) (h : Thrown -> M A) : M A :=
  fun c w =>
    match m c w with
    | None => None
    | Some (Return a, c', w') => Some (Return a, c', w')
    | Some (Throw t, c', w') => h t c' w'
    end.

Definition this : M SunapiClient := fun c w => Some (Return c, c, w).

Definition Date_now : M Z := fun c w => Some (Return (now w), c, w).

Definition set_authToken (v : option AuthToken.t) : M unit :=
  fun c w =>
    Some (Return tt,
          {| config := config c; authToken := v; sessionId := sessionId c |},
          w).

Definition set_sessionId (v : option string) : M unit :=
  fun c w =>
    Some (Return tt,
          {| config := config c; authToken := authToken c; sessionId := v |},
          w).

Declare Scope method_scope.
Delimit Scope method_scope with method.
Notation "x <- m ;; k" := (bind m (fun x => k))
  (at level 61, m at next level, right associativity) : method_scope.
Notation "m ;; k" := (bind m (fun _ => k))
  (at level 61, right associativity) : method_scope.
Open Scope method_scope.

(** ** client.ts: the methods *)

(** [isAuthenticated()], at the instant [t] that [new Date()] reads. *)
Definition isAuthenticated (c : SunapiClient) (t : Z) : bool :=
  match authToken c with
  | Some tok => later_than (AuthToken.expiresAt tok) t
  | None => false
  end.

(** The request interceptor of [setupInterceptors]. *)
Definition request_interceptor (c : SunapiClient) (t : Z) (cfg : Request.t)
  : Request.t :=
  let h := Request.headers cfg in
  let auth :=
    match authToken c with
    | Some tok =>
        if later_than (AuthToken.expiresAt tok) t
        then Some ("Bearer " ++ interpolate (AuthToken.token tok))%string
        else Headers.Authorization h
    | None => Headers.Authorization h
    end in
  let sid :=
    if truthy_str (sessionId c) then sessionId c else Headers.X_Session_ID h in
  {| Request.method := Request.method cfg;
     Request.url := Request.url cfg;
     Request.body := Request.body cfg;
     Request.params := Request.params cfg;
     Request.headers :=
       {| Headers.Authorization := auth; Headers.X_Session_ID := sid |} |}.

Definition is_connection_code (code : option string) : bool :=
  match code with
  | Some s => String.eqb s "ECONNREFUSED" || String.eqb s "ENOTFOUND"
  | None => false
  end.

(** [responseData?.message], of a body that may be null *)
Definition body_message (d : option Payload.t) : option string :=
  match d with
  | Some p => Payload.message p
  | None => None
  end.

(** [handleError(error)] *)
Definition handleError (cfg : SunapiConfig) (e : AxiosError.t) : SunapiError.t :=
  if is_connection_code (AxiosError.code e) then
    new_ConnectionError
      ("Cannot connect to " ++ host cfg ++ ":" ++ show_Z (port cfg))%string
  else
    match AxiosError.response e with
    | Some r =>
        let statusCode := AxiosResponse.status r in
        let responseData := AxiosResponse.data r in
        let message := or_lit (body_message responseData) (AxiosError.message e) in
        if statusCode =? 401 then new_AuthenticationError message
        else new_SunapiError message (Some statusCode) (Some responseData)
    | None => new_SunapiError (AxiosError.message e) None None
    end.

(** The body of [login()], over the [post] of the axios instance. *)
Definition login_request (cfg : SunapiConfig) : Request.t :=
  {| Request.method := POST;
     Request.url := "/stw-cgi/system.cgi";
     Request.body :=
       Some [("msubmenu", "userlogin"); ("action", "login");
             ("user", username cfg); ("pass", password cfg)];
     Request.params := None;
     Request.headers := Headers.none |}.

(** Reading [data.status] of a null body. *)
Definition TypeError_status : AxiosError.t :=
  {| AxiosError.code := None;
     AxiosError.message :=
       "Cannot read properties of null (reading 'status')";
     AxiosError.response := None |}.

Definition status_OK (data : Payload.t) : bool :=
  match Payload.status data with
  | Some s => String.eqb s "OK"
  | None => false
  end.

Definition login_with (dispatch : Request.t -> M AxiosResponse.t)
  : M (SunapiResponse LoginResponse.t) :=
  try_catch
    (self <- this ;;
     response <- dispatch (login_request (config self)) ;;
     match AxiosResponse.data response with
     | None => throw (ThrowOther TypeError_status)
     | Some data =>
         if status_OK data then
           t <- Date_now ;;
           let tok :=
             {| AuthToken.token :=
                  or_str (Payload.token data) (Payload.sessionId data);
                AuthToken.expiresAt :=
                  new_Date (t + or_num (Payload.expires data) 3600 * 1000);
                AuthToken.sessionId := Payload.sessionId data |} in
           set_authToken (Some tok) ;;
           set_sessionId (Payload.sessionId data) ;;
           ret {| Envelope.success := true;
                  Envelope.data :=
                    Some {| LoginResponse.token := AuthToken.token tok;
                            LoginResponse.sessionId := Payload.sessionId data;
                            LoginResponse.userLevel :=
                              or_lit (Payload.userLevel data) "admin";
                            LoginResponse.maxSessions :=
                              or_num (Payload.maxSessions data) 10 |};
                  Envelope.error := None;
                  Envelope.statusCode := None |}
         else
           throw (ThrowSunapi
                    (new_AuthenticationError
                       (or_lit (Payload.message data) "Login failed")))
     end)
    (fun error =>
       match error with
       | ThrowSunapi _ => throw error
       | ThrowOther e =>
           self <- this ;;
           throw (ThrowSunapi (handleError (config self) e))
       end).

Definition status_is_401 (e : AxiosError.t) : bool :=
  match AxiosError.response e with
  | Some r => AxiosResponse.status r =? 401
  | None => false
  end.

Definition has_token (c : SunapiClient) : bool :=
  match authToken c with
  | Some _ => true
  | None => false
  end.

Section Pipeline.

Variable device : Device.

(** [this.axiosInstance.request(cfg)]: the request interceptor, the wire,
    then the response interceptor. The retry goes through the instance
    again, and so does the [post] of the [login()] it awaits; [fuel]
    bounds the depth of that nesting. *)
Fixpoint axios_request (fuel : nat) (cfg : Request.t) : M AxiosResponse.t :=
  fun c w =>
    match fuel with
    | O => None
    | S fuel' =>
        let sent := request_interceptor c (now w) cfg in
        let x := device (List.length (wire w)) sent in
        let w1 := transmit w sent x in
        match settled x with
        | Fulfilled response => Some (Return response, c, w1)
        | Rejected error =>
            if status_is_401 error && has_token c then
              match login_with (axios_request fuel') c (note_relogin w1) with
              | None => None
              | Some (Return _, c2, w2) =>
                  axios_request fuel' sent c2 (note_retry w2)
              | Some (Throw _, c2, w2) =>
                  Some (Throw (ThrowSunapi
                                 (new_AuthenticationError
                                    "Session expired and refresh failed")),
                        c2, w2)
              end
            else
              Some (Throw (ThrowSunapi (handleError (config c) error)), c, w1)
        end
    end.

Definition login (fuel : nat) : M (SunapiResponse LoginResponse.t) :=
  login_with (axios_request fuel).

Definition axios_get (fuel : nat) (endpoint : string) (params : option Fields)
  : M AxiosResponse.t :=
  axios_request fuel
    {| Request.method := GET; Request.url := endpoint;
       Request.body := None; Request.params := params;
       Request.headers := Headers.none |}.

Definition axios_post (fuel : nat) (endpoint : string) (data : option Fields)
    (params : option Fields) : M AxiosResponse.t :=
  axios_request fuel
    {| Request.method := POST; Request.url := endpoint;
       Request.body := data; Request.params := params;
       Request.headers := Headers.none |}.

Definition axios_put (fuel : nat) (endpoint : string) (data : option Fields)
    (params : option Fields) : M AxiosResponse.t :=
  axios_request fuel
    {| Request.method := PUT; Request.url := endpoint;
       Request.body := data; Request.params := params;
       Request.headers := Headers.none |}.

Definition axios_delete (fuel : nat) (endpoint : string)
    (params : option Fields) : M AxiosResponse.t :=
  axios_request fuel
    {| Request.method := DELETE; Request.url := endpoint;
       Request.body := None; Request.params := params;
       Request.headers := Headers.none |}.

Definition ok_envelope {T} : SunapiResponse T :=
  {| Envelope.success := true; Envelope.data := None;
     Envelope.error := None; Envelope.statusCode := None |}.

(** [logout()] *)
Definition logout (fuel : nat) : M (SunapiResponse unit) :=
  try_catch
    (self <- this ;;
     if negb (has_token self) then ret ok_envelope
     else
       axios_post fuel "/stw-cgi/system.cgi"
         (Some [("msubmenu", "userlogout"); ("action", "logout")]) None ;;
       set_authToken None ;;
       set_sessionId None ;;
       ret ok_envelope)
    (fun _ =>
       set_authToken None ;;
       set_sessionId None ;;
       ret ok_envelope).

(** [ensureAuthenticated()] *)
Definition ensureAuthenticated (fuel : nat) : M unit :=
  self <- this ;;
  t <- Date_now ;;
  if negb (isAuthenticated self t) then
    result <- login fuel ;;
    if negb (Envelope.success result) then
      throw (ThrowSunapi (new_AuthenticationError "Failed to authenticate"))
    else ret tt
  else ret tt.

Definition failure_envelope {T} (e : SunapiError.t) : SunapiResponse T :=
  {| Envelope.success := false;
     Envelope.data := None;
     Envelope.error := Some (SunapiError.message e);
     Envelope.statusCode := SunapiError.statusCode e |}.

(** The [switch (method)] of [request]. *)
Definition axios_method (fuel : nat) (method : Method) (endpoint : string)
    (data params : option Fields) : M AxiosResponse.t :=
  match method with
  | GET => axios_get fuel endpoint params
  | POST => axios_post fuel endpoint data params
  | PUT => axios_put fuel endpoint data params
  | DELETE => axios_delete fuel endpoint params
  end.

(** [request(method, endpoint, data?, params?)] *)
Definition request (fuel : nat) (method : Method) (endpoint : string)
    (data params : option Fields)
  : M (SunapiResponse (option Payload.t)) :=
  ensureAuthenticated fuel ;;
  try_catch
    (response <- axios_method fuel method endpoint data params ;;
     ret {| Envelope.success := true;
            Envelope.data := Some (AxiosResponse.data response);
            Envelope.error := None;
            Envelope.statusCode := Some (AxiosResponse.status response) |})
    (fun error =>
       match error with
       | ThrowSunapi e => ret (failure_envelope e)
       | ThrowOther e =>
           self <- this ;;
           ret (failure_envelope (handleError (config self) e))
       end).

Definition get (fuel : nat) (endpoint : string) (params : option Fields) :=
  request fuel GET endpoint None params.

Definition post (fuel : nat) (endpoint : string) (data params : option Fields) :=
  request fuel POST endpoint data params.

Definition put (fuel : nat) (endpoint : string) (data params : option Fields) :=
  request fuel PUT endpoint data params.

Definition delete (fuel : nat) (endpoint : string) (params : option Fields) :=
  request fuel DELETE endpoint None params.

Record Alive := { alive : bool }.

(** [ping()] *)
Definition ping (fuel : nat) : M (SunapiResponse Alive) :=
  try_catch
    (response <-
       axios_get fuel "/stw-cgi/system.cgi?msubmenu=deviceinfo&action=view"
         None ;;
     ret {| Envelope.success := true;
            Envelope.data := Some {| alive := true |};
            Envelope.error := None;
            Envelope.statusCode := Some (AxiosResponse.status response) |})
    (fun _ =>
       ret {| Envelope.success := false;
              Envelope.data := Some {| alive := false |};
              Envelope.error := Some "Device unreachable";
              Envelope.statusCode := None |}).

End Pipeline.

(** [buildCgiEndpoint(module, submenu?, action?)] *)
Definition buildCgiEndpoint (module : string) (submenu action : option string)
  : string :=
  let endpoint := ("/stw-cgi/" ++ module ++ ".cgi")%string in
  let params :=
    ((if truthy_str submenu
      then [("msubmenu=" ++ interpolate submenu)%string] else [])
     ++ (if truthy_str action
         then [("action=" ++ interpolate action)%string] else []))%list in
  if (0 <? List.length params)%nat
  then (endpoint ++ "?" ++ String.concat "&" params)%string
  else endpoint.

(** The pattern shared by the feature-module operations that normalise:
    [if (response.success && response.data) return { success: true,
    data: f(response.data), statusCode: response.statusCode };
    return response;] *)
Definition normalized {T} (f : Payload.t -> T)
    (response : SunapiResponse (option Payload.t))
  : SunapiResponse (T + option Payload.t) :=
  match Envelope.success response, Envelope.data response with
  | true, Some (Some d) =>
      {| Envelope.success := true;
         Envelope.data := Some (inl (f d));
         Envelope.error := None;
         Envelope.statusCode := Envelope.statusCode response |}
  | _, _ =>
      {| Envelope.success := Envelope.success response;
         Envelope.data := option_map inr (Envelope.data response);
         Envelope.error := Envelope.error response;
         Envelope.statusCode := Envelope.statusCode response |}
  end.

(** ** sunapi.ts: the aggregate client *)

Record Sunapi := {
  self : SunapiClient;
  system : SunapiClient;
  video : SunapiClient;
  ptz : SunapiClient;
  events : SunapiClient;
  recording : SunapiClient
}.

Definition new_Sunapi (cfg : SunapiConfig) : Sunapi :=
  {| self := new_SunapiClient cfg;
     system := new_SunapiClient cfg;
     video := new_SunapiClient cfg;
     ptz := new_SunapiClient cfg;
     events := new_SunapiClient cfg;
     recording := new_SunapiClient cfg |}.

Definition with_self (s : Sunapi) (c : SunapiClient) : Sunapi :=
  {| self := c; system := system s; video := video s; ptz := ptz s;
     events := events s; recording := recording s |}.

(** [(m as any).authToken = a; (m as any).sessionId = sid] *)
Definition assign_session (m : SunapiClient) (a : option AuthToken.t)
    (sid : option string) : SunapiClient :=
  {| config := config m; authToken := a; sessionId := sid |}.

Definition MS (A : Type) : Type :=
  Sunapi -> World -> option (Completion A * Sunapi * World).

(** [new Error(message)] *)
Definition new_Error (message : string) : Thrown :=
  ThrowOther {| AxiosError.code := None;
                AxiosError.message := message;
                AxiosError.response := None |}.

Section Aggregate.

Variable device : Device.

(** [connect()] *)
Definition connect (fuel : nat) : MS unit :=
  fun s w =>
    match login device fuel (self s) w with
    | None => None
    | Some (Throw t, c, w') => Some (Throw t, with_self s c, w')
    | Some (Return result, c, w') =>
        if negb (Envelope.success result) then
          Some (Throw (new_Error
                         ("Failed to connect: "
                          ++ interpolate (Envelope.error result))%string),
                with_self s c, w')
        else
          let a := authToken c in
          let sid := sessionId c in
          if has_token c && truthy_str sid then
            Some (Return tt,
                  {| self := c;
                     system := assign_session (system s) a sid;
                     video := assign_session (video s) a sid;
                     ptz := assign_session (ptz s) a sid;
                     events := assign_session (events s) a sid;
                     recording := assign_session (recording s) a sid |},
                  w')
          else Some (Return tt, with_self s c, w')
    end.


End Aggregate.

(** ** modules/events.ts: the condition normaliser *)

Module Events.

(** A JavaScript value as [JSON.parse] builds it, or [undefined]. A number
    is [mantissa * 10 ^ exponent]. *)
Inductive JsVal :=
| JUndefined
| JNull
| JBool (b : bool)
| JNumber (mantissa exponent : Z)
| JString (s : string)
| JArray (items : list JsVal)
| JObject (members : list (string * JsVal)).

Definition truthy (v : JsVal) : bool :=
  match v with
  | JUndefined | JNull => false
  | JBool b => b
  | JNumber m _ => negb (m =? 0)
  | JString s => negb (String.eqb s "")
  | JArray _ | JObject _ => true
  end.

(** [a || b] *)
Definition js_or (a b : JsVal) : JsVal := if truthy a then a else b.

Fixpoint lookup (k : string) (members : list (string * JsVal)) : JsVal :=
  match members with
  | [] => JUndefined
  | (k', v) :: rest => if String.eqb k k' then v else lookup k rest
  end.

(** [v.k]; [None] is the TypeError of reading a property of null or
    undefined. *)
Definition member (v : JsVal) (k : string) : option JsVal :=
  match v with
  | JUndefined | JNull => None
  | JObject ms => Some (lookup k ms)
  | _ => Some JUndefined
  end.

Record EventCondition := {
  type : JsVal;
  parameters : JsVal
}.

Inductive Outcome (A : Type) :=
| Value (a : A)
| TypeError.
Arguments Value {A} _.
Arguments TypeError {A}.

(** [conditions.map(condition => ({ type: condition.type || '',
    parameters: condition.parameters || {} }))] *)
Fixpoint map_conditions (conditions : list JsVal)
  : Outcome (list EventCondition) :=
  match conditions with
  | [] => Value []
  | condition :: rest =>
      match member condition "type", member condition "parameters" with
      | Some t, Some p =>
          match map_conditions rest with
          | Value cs =>
              Value ({| type := js_or t (JString "");
                        parameters := js_or p (JObject []) |} :: cs)
          | TypeError => TypeError
          end
      | _, _ => TypeError
      end
  end.

Section Normaliser.

(** [JSON.parse], [None] where it throws. *)
Variable JSON_parse : string -> option JsVal.

(** [parseConditions(conditions)] *)
Definition parseConditions (conditions : JsVal)
  : Outcome (list EventCondition) :=
  let parsed :=
    match conditions with
    | JString s => JSON_parse s
    | _ => Some conditions
    end in
  match parsed with
  | None => Value []
  | Some (JArray items) => map_conditions items
  | Some _ => Value []
  end.

End Normaliser.

(** [v === 'literal'] *)
Definition is_string (v : JsVal) (literal : string) : bool :=
  match v with
  | JString s => String.eqb s literal
  | _ => false
  end.

(** [v === true] *)
Definition is_true (v : JsVal) : bool :=
  match v with
  | JBool true => true
  | _ => false
  end.

(** [v] is null or undefined: reading a property of it throws. *)
Definition nullish (v : JsVal) : bool :=
  match v with
  | JUndefined | JNull => true
  | _ => false
  end.

Module Action.
Record t := {
  type : JsVal;
  parameters : JsVal
}.
End Action.

Module Rule.
Record t (Num : Type) := {
  ruleId : Num;
  name : JsVal;
  enabled : bool;
  type : JsVal;
  conditions : list EventCondition;
  actions : list Action.t
}.
Arguments ruleId {Num} _.
Arguments name {Num} _.
Arguments enabled {Num} _.
Arguments type {Num} _.
Arguments conditions {Num} _.
Arguments actions {Num} _.
End Rule.

(** [items.map(f)] for an [f] that may throw. *)
Fixpoint traverse {A B} (f : A -> Outcome B) (items : list A)
  : Outcome (list B) :=
  match items with
  | [] => Value []
  | item :: rest =>
      match f item with
      | Value b =>
          match traverse f rest with
          | Value bs => Value (b :: bs)
          | TypeError => TypeError
          end
      | TypeError => TypeError
      end
  end.

(** [action => ({ type: action.type || 'notification',
    parameters: action.parameters || {} })] *)
Definition normalise_action (action : JsVal) : Outcome Action.t :=
  match member action "type", member action "parameters" with
  | Some t, Some p =>
      Value {| Action.type := js_or t (JString "notification");
               Action.parameters := js_or p (JObject []) |}
  | _, _ => TypeError
  end.

(** [Array.isArray(data) ? data : [data]] *)
Definition as_array (data : JsVal) : list JsVal :=
  match data with
  | JArray items => items
  | _ => [data]
  end.

(** The [response.data] that passes [response.success && response.data]. *)
Definition usable_data (response : SunapiResponse JsVal) : option JsVal :=
  if Envelope.success response then
    match Envelope.data response with
    | Some d => if truthy d then Some d else None
    | None => None
    end
  else None.

(** [return response;] at a result type that also admits the raw data. *)
Definition passed_on {T} (response : SunapiResponse JsVal)
  : SunapiResponse (T + JsVal) :=
  {| Envelope.success := Envelope.success response;
     Envelope.data := option_map inr (Envelope.data response);
     Envelope.error := Envelope.error response;
     Envelope.statusCode := Envelope.statusCode response |}.

(** [{ success: true, data: d, statusCode: response.statusCode }] *)
Definition normalised {T} (response : SunapiResponse JsVal) (d : T)
  : SunapiResponse (T + JsVal) :=
  {| Envelope.success := true;
     Envelope.data := Some (inl d);
     Envelope.error := None;
     Envelope.statusCode := Envelope.statusCode response |}.

Section Rules.

(** [JSON.parse], [None] where it throws. *)
Variable JSON_parse : string -> option JsVal.

(** JavaScript numbers, as far as the module uses them: what [parseInt]
    gives, which numbers are truthy, and the number 0. *)
Variable Num : Type.
Variable parseInt : JsVal -> Num.
Variable num_truthy : Num -> bool.
Variable num_zero : Num.

(** The string a template literal makes of a value. *)
Variable ToString : JsVal -> string.

(** [a || b] on numbers *)
Definition num_or (a b : Num) : Num := if num_truthy a then a else b.

(** [parseActions(actions)] *)
Definition parseActions (actions : JsVal) : Outcome (list Action.t) :=
  let parsed :=
    match actions with
    | JString s => JSON_parse s
    | _ => Some actions
    end in
  match parsed with
  | None => Value []
  | Some (JArray items) => traverse normalise_action items
  | Some _ => Value []
  end.

(** [parseEventRule(data)]. The method reads [this]: [this_bound] tells
    whether it is called on the module, as in [this.parseEventRule(data)],
    or handed over as a bare function, as in
    [rules.map(this.parseEventRule)], where [this] is undefined and
    [this.parseConditions] throws. *)
Definition parseEventRule (this_bound : bool) (data : JsVal)
  : Outcome (Rule.t Num) :=
  match member data "ruleId", member data "rule", member data "name" with
  | Some ruleId, Some rule, Some name =>
      match member data "enabled", member data "type",
            member data "conditions", member data "actions" with
      | Some enabled, Some type, Some conditions, Some actions =>
          if this_bound then
            match parseConditions JSON_parse conditions with
            | Value cs =>
                match parseActions actions with
                | Value acts =>
                    Value
                      {| Rule.ruleId :=
                           num_or (num_or (parseInt ruleId) (parseInt rule))
                             num_zero;
                         Rule.name :=
                           js_or name
                             (JString ("Rule " ++ ToString (js_or ruleId rule)));
                         Rule.enabled := is_string enabled "on" || is_true enabled;
                         Rule.type := js_or type (JString "motion");
                         Rule.conditions := cs;
                         Rule.actions := acts |}
                | TypeError => TypeError
                end
            | TypeError => TypeError
            end
          else TypeError
      | _, _, _, _ => TypeError
      end
  | _, _, _ => TypeError
  end.

(** [getEventRules()], from the envelope its [get] resolved to. *)
Definition getEventRules_result (response : SunapiResponse JsVal)
  : Outcome (SunapiResponse (list (Rule.t Num) + JsVal)) :=
  match usable_data response with
  | Some data =>
      match traverse (parseEventRule false) (as_array data) with
      | Value rules => Value (normalised response rules)
      | TypeError => TypeError
      end
  | None => Value (passed_on response)
  end.

(** [getEventRule(ruleId)], from the envelope its [get] resolved to. *)
Definition getEventRule_result (response : SunapiResponse JsVal)
  : Outcome (SunapiResponse (Rule.t Num + JsVal)) :=
  match usable_data response with
  | Some data =>
      match parseEventRule true data with
      | Value rule => Value (normalised response rule)
      | TypeError => TypeError
      end
  | None => Value (passed_on response)
  end.

End Rules.

Arguments num_or {Num} num_truthy a b.

(** *** A reader of JSON texts, to run the normaliser on *)

Definition code (c : ascii) : Z := Z.of_nat (nat_of_ascii c).

Definition is_ws (c : ascii) : bool :=
  let n := code c in
  (n =? 32) || (n =? 9) || (n =? 10) || (n =? 13).

Fixpoint skip_ws (s : list ascii) : list ascii :=
  match s with
  | c :: rest => if is_ws c then skip_ws rest else s
  | [] => []
  end.

Fixpoint strip_prefix (p s : list ascii) : option (list ascii) :=
  match p, s with
  | [], _ => Some s
  | a :: p', b :: s' => if Ascii.eqb a b then strip_prefix p' s' else None
  | _ :: _, [] => None
  end.

Definition digit_of (c : ascii) : option Z :=
  let n := code c in
  if (48 <=? n) && (n <=? 57) then Some (n - 48) else None.

Definition hex_of (c : ascii) : option Z :=
  let n := code c in
  if (48 <=? n) && (n <=? 57) then Some (n - 48)
  else if (65 <=? n) && (n <=? 70) then Some (n - 55)
  else if (97 <=? n) && (n <=? 102) then Some (n - 87)
  else None.

(** Digits read so far as a number, their count, and the rest. *)
Fixpoint read_digits (acc count : Z) (s : list ascii)
  : Z * Z * list ascii :=
  match s with
  | c :: rest =>
      match digit_of c with
      | Some d => read_digits (acc * 10 + d) (count + 1) rest
      | None => (acc, count, s)
      end
  | [] => (acc, count, [])
  end.

Definition read_int_part (s : list ascii) : option (Z * list ascii) :=
  match s with
  | c :: rest =>
      if code c =? 48 then Some (0, rest)
      else
        match read_digits 0 0 s with
        | (v, n, r) => if n =? 0 then None else Some (v, r)
        end
  | [] => None
  end.

Definition read_fraction (m : Z) (s : list ascii)
  : option (Z * Z * list ascii) :=
  match s with
  | c :: rest =>
      if code c =? 46 then
        match read_digits m 0 rest with
        | (v, n, r) => if n =? 0 then None else Some (v, n, r)
        end
      else Some (m, 0, s)
  | [] => Some (m, 0, [])
  end.

Definition read_exponent (s : list ascii) : option (Z * list ascii) :=
  match s with
  | c :: rest =>
      if (code c =? 101) || (code c =? 69) then
        let '(sign, rest') :=
          match rest with
          | d :: r =>
              if code d =? 45 then (-1, r)
              else if code d =? 43 then (1, r)
              else (1, rest)
          | [] => (1, rest)
          end in
        match read_digits 0 0 rest' with
        | (v, n, r) => if n =? 0 then None else Some (sign * v, r)
        end
      else Some (0, s)
  | [] => Some (0, [])
  end.

Definition read_number (s : list ascii) : option (JsVal * list ascii) :=
  let '(sign, s1) :=
    match s with
    | c :: rest => if code c =? 45 then (-1, rest) else (1, s)
    | [] => (1, s)
    end in
  match read_int_part s1 with
  | Some (i, s2) =>
      match read_fraction i s2 with
      | Some (m, nf, s3) =>
          match read_exponent s3 with
          | Some (e, s4) => Some (JNumber (sign * m) (e - nf), s4)
          | None => None
          end
      | None => None
      end
  | None => None
  end.

Definition byte (n : Z) : ascii := ascii_of_nat (Z.to_nat n).

(** UTF-8 of a code unit given by a [\u] escape. *)
Definition utf8 (n : Z) : list ascii :=
  if n <? 128 then [byte n]
  else if n <? 2048 then [byte (192 + n / 64); byte (128 + n mod 64)]
  else [byte (224 + n / 4096); byte (128 + (n / 64) mod 64);
        byte (128 + n mod 64)].

Definition unescape (c : ascii) : option ascii :=
  let n := code c in
  if (n =? 34) || (n =? 92) || (n =? 47) then Some c
  else if n =? 98 then Some (byte 8)
  else if n =? 102 then Some (byte 12)
  else if n =? 110 then Some (byte 10)
  else if n =? 114 then Some (byte 13)
  else if n =? 116 then Some (byte 9)
  else None.

(** The characters of a string literal, after its opening quote. *)
Fixpoint read_chars (s : list ascii) : option (list ascii * list ascii) :=
  match s with
  | [] => None
  | c :: rest =>
      if code c =? 34 then Some ([], rest)
      else if code c <? 32 then None
      else if code c =? 92 then
        match rest with
        | e :: rest' =>
            if code e =? 117 then
              match rest' with
              | a :: b :: x :: y :: rest'' =>
                  match hex_of a, hex_of b, hex_of x, hex_of y with
                  | Some ha, Some hb, Some hx, Some hy =>
                      match read_chars rest'' with
                      | Some (cs, r) =>
                          Some ((utf8 (((ha * 16 + hb) * 16 + hx) * 16 + hy)
                                   ++ cs)%list, r)
                      | None => None
                      end
                  | _, _, _, _ => None
                  end
              | _ => None
              end
            else
              match unescape e, read_chars rest' with
              | Some u, Some (cs, r) => Some (u :: cs, r)
              | _, _ => None
              end
        | [] => None
        end
      else
        match read_chars rest with
        | Some (cs, r) => Some (c :: cs, r)
        | None => None
        end
  end.

Definition read_string (s : list ascii) : option (string * list ascii) :=
  match read_chars s with
  | Some (cs, r) => Some (string_of_list_ascii cs, r)
  | None => None
  end.

Definition has_key (k : string) (ms : list (string * JsVal)) : bool :=
  existsb (fun m => String.eqb k (fst m)) ms.

Definition chars (s : string) : list ascii := list_ascii_of_string s.

Fixpoint read_value (fuel : nat) (s : list ascii)
  : option (JsVal * list ascii) :=
  match fuel with
  | O => None
  | S fuel' =>
      match skip_ws s with
      | [] => None
      | c :: rest =>
          let s0 := c :: rest in
          if code c =? 34 then
            match read_string rest with
            | Some (str, r) => Some (JString str, r)
            | None => None
            end
          else if code c =? 91 then
            match skip_ws rest with
            | d :: r =>
                if code d =? 93 then Some (JArray [], r)
                else
                  match read_items fuel' rest with
                  | Some (vs, r') => Some (JArray vs, r')
                  | None => None
                  end
            | [] => None
            end
          else if code c =? 123 then
            match skip_ws rest with
            | d :: r =>
                if code d =? 125 then Some (JObject [], r)
                else
                  match read_members fuel' rest with
                  | Some (ms, r') => Some (JObject ms, r')
                  | None => None
                  end
            | [] => None
            end
          else
            match strip_prefix (chars "null") s0,
                  strip_prefix (chars "true") s0,
                  strip_prefix (chars "false") s0 with
            | Some r, _, _ => Some (JNull, r)
            | _, Some r, _ => Some (JBool true, r)
            | _, _, Some r => Some (JBool false, r)
            | None, None, None => read_number s0
            end
      end
  end
with read_items (fuel : nat) (s : list ascii)
  : option (list JsVal * list ascii) :=
  match fuel with
  | O => None
  | S fuel' =>
      match read_value fuel' s with
      | Some (v, r) =>
          match skip_ws r with
          | d :: r' =>
              if code d =? 44 then
                match read_items fuel' r' with
                | Some (vs, r'') => Some (v :: vs, r'')
                | None => None
                end
              else if code d =? 93 then Some ([v], r')
              else None
          | [] => None
          end
      | None => None
      end
  end
with read_members (fuel : nat) (s : list ascii)
  : option (list (string * JsVal) * list ascii) :=
  match fuel with
  | O => None
  | S fuel' =>
      match skip_ws s with
      | q :: r0 =>
          if code q =? 34 then
            match read_string r0 with
            | Some (k, r1) =>
                match skip_ws r1 with
                | colon :: r2 =>
                    if code colon =? 58 then
                      match read_value fuel' r2 with
                      | Some (v, r3) =>
                          match skip_ws r3 with
                          | d :: r4 =>
                              if code d =? 44 then
                                match read_members fuel' r4 with
                                | Some (ms, r5) =>
                                    Some (if has_key k ms then ms
                                          else (k, v) :: ms, r5)
                                | None => None
                                end
                              else if code d =? 125 then Some ([(k, v)], r4)
                              else None
                          | [] => None
                          end
                      | None => None
                      end
                    else None
                | [] => None
                end
            | None => None
            end
          else None
      | [] => None
      end
  end.

(** The whole text is one value, white space around it allowed; a later
    member of an object replaces an earlier one of the same name. *)
Definition read_json (text : string) : option JsVal :=
  let s := chars text in
  match read_value (2 * List.length s + 2) s with
  | Some (v, r) =>
      match skip_ws r with
      | [] => Some v
      | _ :: _ => None
      end
  | None => None
  end.

End Events.

(** ** modules/system.ts: the normalisers of the system module *)

Module SystemModule.

Import Events.

Module SystemInfo.
Record t := {
  deviceName : JsVal;
  model : JsVal;
  serialNumber : JsVal;
  firmwareVersion : JsVal;
  macAddress : JsVal;
  uptime : JsVal;
  temperature : JsVal;
  fanStatus : JsVal
}.
End SystemInfo.

Module NetworkInfo.
Record t := {
  interface : JsVal;
  ipAddress : JsVal;
  macAddress : JsVal;
  speed : JsVal;
  duplex : JsVal;
  status : string
}.
End NetworkInfo.

Module StorageInfo.
Record t (Num : Type) := {
  device : JsVal;
  totalSize : Num;
  usedSize : Num;
  freeSize : Num;
  status : string
}.
Arguments device {Num} _.
Arguments totalSize {Num} _.
Arguments usedSize {Num} _.
Arguments freeSize {Num} _.
Arguments status {Num} _.
End StorageInfo.

(** The object [getDeviceInfo()] builds from [response.data]. *)
Definition deviceInfo (data : JsVal) : Outcome SystemInfo.t :=
  match member data "deviceName", member data "name",
        member data "model", member data "deviceModel" with
  | Some deviceName, Some name, Some model, Some deviceModel =>
      match member data "serialNumber", member data "serial",
            member data "firmwareVersion", member data "version" with
      | Some serialNumber, Some serial, Some firmwareVersion, Some version =>
          match member data "macAddress", member data "mac",
                member data "uptime" with
          | Some macAddress, Some mac, Some uptime =>
              match member data "temperature", member data "fanStatus" with
              | Some temperature, Some fanStatus =>
                  Value
                    {| SystemInfo.deviceName :=
                         js_or (js_or deviceName name) (JString "Unknown");
                       SystemInfo.model :=
                         js_or (js_or model deviceModel) (JString "Unknown");
                       SystemInfo.serialNumber :=
                         js_or (js_or serialNumber serial) (JString "Unknown");
                       SystemInfo.firmwareVersion :=
                         js_or (js_or firmwareVersion version)
                           (JString "Unknown");
                       SystemInfo.macAddress :=
                         js_or (js_or macAddress mac) (JString "Unknown");
                       SystemInfo.uptime := js_or uptime (JNumber 0 0);
                       SystemInfo.temperature := temperature;
                       SystemInfo.fanStatus := fanStatus |}
              | _, _ => TypeError
              end
          | _, _, _ => TypeError
          end
      | _, _, _, _ => TypeError
      end
  | _, _, _, _ => TypeError
  end.

(** [getDeviceInfo()], from the envelope its [get] resolved to. *)
Definition getDeviceInfo_result (response : SunapiResponse JsVal)
  : Outcome (SunapiResponse (SystemInfo.t + JsVal)) :=
  match usable_data response with
  | Some data =>
      match deviceInfo data with
      | Value info => Value (normalised response info)
      | TypeError => TypeError
      end
  | None => Value (passed_on response)
  end.

(** The callback of [parseNetworkInfo]. *)
Definition network_item (item : JsVal) : Outcome NetworkInfo.t :=
  match member item "interface", member item "name",
        member item "ipAddress", member item "ip" with
  | Some interface, Some name, Some ipAddress, Some ip =>
      match member item "macAddress", member item "mac",
            member item "speed", member item "duplex" with
      | Some macAddress, Some mac, Some speed, Some duplex =>
          match member item "status", member item "connected" with
          | Some status, Some connected =>
              Value
                {| NetworkInfo.interface :=
                     js_or (js_or interface name) (JString "eth0");
                   NetworkInfo.ipAddress :=
                     js_or (js_or ipAddress ip) (JString "0.0.0.0");
                   NetworkInfo.macAddress :=
                     js_or (js_or macAddress mac)
                       (JString "00:00:00:00:00:00");
                   NetworkInfo.speed := js_or speed (JString "Unknown");
                   NetworkInfo.duplex := js_or duplex (JString "Unknown");
                   NetworkInfo.status :=
                     if is_string status "up" || truthy connected
                     then "connected" else "disconnected" |}
          | _, _ => TypeError
          end
      | _, _, _, _ => TypeError
      end
  | _, _, _, _ => TypeError
  end.

(** [parseNetworkInfo(networkData)] *)
Definition parseNetworkInfo (networkData : JsVal)
  : Outcome (list NetworkInfo.t) :=
  match networkData with
  | JArray items => traverse network_item items
  | _ => Value []
  end.

Section Storage.

(** JavaScript numbers, as far as the module uses them: what [parseInt]
    gives, which numbers are truthy, the number 0 and subtraction. *)
Variable Num : Type.
Variable parseInt : JsVal -> Num.
Variable num_truthy : Num -> bool.
Variable num_zero : Num.
Variable num_sub : Num -> Num -> Num.

(** The callback of [parseStorageInfo]. *)
Definition storage_item (item : JsVal) : Outcome (StorageInfo.t Num) :=
  match member item "device", member item "name", member item "totalSize" with
  | Some device, Some name, Some totalSize =>
      match member item "usedSize", member item "freeSize",
            member item "status" with
      | Some usedSize, Some freeSize, Some status =>
          Value
            {| StorageInfo.device :=
                 js_or (js_or device name) (JString "Unknown");
               StorageInfo.totalSize :=
                 num_or num_truthy (parseInt totalSize) num_zero;
               StorageInfo.usedSize :=
                 num_or num_truthy (parseInt usedSize) num_zero;
               StorageInfo.freeSize :=
                 num_or num_truthy
                   (num_or num_truthy (parseInt freeSize)
                      (num_sub (parseInt totalSize) (parseInt usedSize)))
                   num_zero;
               StorageInfo.status :=
                 if is_string status "OK" || is_string status "normal"
                 then "normal"
                 else if is_string status "formatting" then "formatting"
                 else "error" |}
      | _, _, _ => TypeError
      end
  | _, _, _ => TypeError
  end.

(** [parseStorageInfo(storageData)] *)
Definition parseStorageInfo (storageData : JsVal)
  : Outcome (list (StorageInfo.t Num)) :=
  match storageData with
  | JArray items => traverse storage_item items
  | _ => Value []
  end.

(** [getStorageInfo()], from the envelope its [get] resolved to. *)
Definition getStorageInfo_result (response : SunapiResponse JsVal)
  : Outcome (SunapiResponse (list (StorageInfo.t Num) + JsVal)) :=
  match usable_data response with
  | Some data =>
      match parseStorageInfo data with
      | Value infos => Value (normalised response infos)
      | TypeError => TypeError
      end
  | None => Value (passed_on response)
  end.

End Storage.

End SystemModule.

(** * Devices to run the methods against *)

Module Demo.

Definition cfg : SunapiConfig :=
  {| host := "192.168.1.100"; port := 80;
     username := "admin"; password := "admin123" |}.

Definition at_start : World :=
  {| now := 1000; wire := []; relogins := 0; retries := 0 |}.

Definition reply (status : Z) (p : Payload.t) : Settled :=
  Fulfilled {| AxiosResponse.status := status; AxiosResponse.data := Some p |}.

Definition http_error (status : Z) (msg : option string) : Settled :=
  Rejected
    {| AxiosError.code := Some "ERR_BAD_REQUEST";
       AxiosError.message := "Request failed";
       AxiosError.response :=
         Some {| AxiosResponse.status := status;
                 AxiosResponse.data :=
                   Some {| Payload.status := None; Payload.token := None;
                           Payload.sessionId := None; Payload.expires := None;
                           Payload.message := msg; Payload.userLevel := None;
                           Payload.maxSessions := None |} |} |}.

Definition refused : Settled :=
  Rejected
    {| AxiosError.code := Some "ECONNREFUSED";
       AxiosError.message := "connect ECONNREFUSED";
       AxiosError.response := None |}.

Definition not_found : AxiosError.t :=
  {| AxiosError.code := Some "ENOTFOUND";
     AxiosError.message := "getaddrinfo ENOTFOUND";
     AxiosError.response := None |}.

Definition unauthorized : AxiosError.t :=
  {| AxiosError.code := Some "ERR_BAD_REQUEST";
     AxiosError.message := "Request failed";
     AxiosError.response :=
       Some {| AxiosResponse.status := 401; AxiosResponse.data := None |} |}.

Definition unavailable : AxiosError.t :=
  {| AxiosError.code := Some "ERR_BAD_RESPONSE";
     AxiosError.message := "Request failed";
     AxiosError.response :=
       Some {| AxiosResponse.status := 503; AxiosResponse.data := None |} |}.

Definition login_ok (expires : option Z) : Payload.t :=
  {| Payload.status := Some "OK"; Payload.token := Some "tok-1";
     Payload.sessionId := Some "sess-1"; Payload.expires := expires;
     Payload.message := None; Payload.userLevel := None;
     Payload.maxSessions := None |}.

Definition login_denied : Payload.t :=
  {| Payload.status := Some "ERROR"; Payload.token := None;
     Payload.sessionId := None; Payload.expires := None;
     Payload.message := Some "Bad credentials"; Payload.userLevel := None;
     Payload.maxSessions := None |}.

Definition is_login (r : Request.t) : bool :=
  match Request.body r with
  | Some (("msubmenu", "userlogin") :: _) => true
  | _ => false
  end.

(** Each answer takes 5 ms. *)
Definition answering (f : nat -> Request.t -> Settled) : Device :=
  fun n r => {| elapsed := 5; settled := f n r |}.

(** Accepts every login, and answers everything else with 200. *)
Definition friendly : Device :=
  answering (fun _ r =>
    if is_login r then reply 200 (login_ok None) else reply 200 Payload.empty).

(** Nothing listens at the address. *)
Definition unreachable : Device := answering (fun _ _ => refused).

(** Rejects the credentials. *)
Definition denying : Device :=
  answering (fun _ r =>
    if is_login r then reply 200 login_denied else reply 200 Payload.empty).

(** Declares a session lifetime of zero seconds. *)
Definition zero_lifetime : Device :=
  answering (fun _ r =>
    if is_login r then reply 200 (login_ok (Some 0))
    else reply 200 Payload.empty).

(** Accepts every login, answers the first two other requests with 401 and
    the following ones with 200. *)
Definition twice_unauthorized : Device :=
  answering (fun n r =>
    if is_login r then reply 200 (login_ok None)
    else if (n <? 3)%nat then http_error 401 (Some "Unauthorized")
    else reply 200 Payload.empty).

(** Accepts every login, answers the first other request with 401 and the
    following ones with 200. *)
Definition once_unauthorized : Device :=
  answering (fun n r =>
    if is_login r then reply 200 (login_ok None)
    else if (n <? 1)%nat then http_error 401 (Some "Unauthorized")
    else reply 200 Payload.empty).

Definition probe : Request.t :=
  {| Request.method := GET;
     Request.url := "/stw-cgi/system.cgi?msubmenu=deviceinfo&action=view";
     Request.body := None; Request.params := None;
     Request.headers := Headers.none |}.

Definition session (expiresAt : Z) : SunapiClient :=
  {| config := cfg;
     authToken :=
       Some {| AuthToken.token := Some "tok-0";
               AuthToken.expiresAt := Instant expiresAt;
               AuthToken.sessionId := Some "sess-0" |};
     sessionId := Some "sess-0" |}.

End Demo.

(** * The vocabulary of the properties *)

(** The host refuses the connection or cannot be resolved. *)
Definition connection_failure (e : AxiosError.t) : Prop :=
  AxiosError.code e = Some "ECONNREFUSED" \/ AxiosError.code e = Some "ENOTFOUND".

(** [msg] is the [message] field of the body of response [r] when the body
    has a non-empty one, and the message of the transport error [e]
    otherwise. *)
Definition body_message_or_transport (msg : string) (e : AxiosError.t)
    (r : AxiosResponse.t) : Prop :=
  (forall body m,
      AxiosResponse.data r = Some body -> Payload.message body = Some m ->
      m <> ""%string -> msg = m)
  /\ (AxiosResponse.data r = None -> msg = AxiosError.message e)
  /\ (forall body,
        AxiosResponse.data r = Some body ->
        Payload.message body = None \/ Payload.message body = Some ""%string ->
        msg = AxiosError.message e).

(** The client after the assignments of a successful [login()] made at
    instant [t] on the reply [data]. *)
Definition stored_session (c : SunapiClient) (t : Z) (data : Payload.t)
  : SunapiClient :=
  {| config := config c;
     authToken :=
       Some {| AuthToken.token :=
                 or_str (Payload.token data) (Payload.sessionId data);
               AuthToken.expiresAt :=
                 new_Date (t + or_num (Payload.expires data) 3600 * 1000);
               AuthToken.sessionId := Payload.sessionId data |};
     sessionId := Payload.sessionId data |}.

(** The envelope a successful [login()] returns. *)
Definition login_envelope (data : Payload.t) : SunapiResponse LoginResponse.t :=
  {| Envelope.success := true;
     Envelope.data :=
       Some {| LoginResponse.token :=
                 or_str (Payload.token data) (Payload.sessionId data);
               LoginResponse.sessionId := Payload.sessionId data;
               LoginResponse.userLevel := or_lit (Payload.userLevel data) "admin";
               LoginResponse.maxSessions :=
                 or_num (Payload.maxSessions data) 10 |};
     Envelope.error := None;
     Envelope.statusCode := None |}.

(** The session id is only ever held together with a token. *)
Definition session_wf (c : SunapiClient) : Prop :=
  authToken c = None -> sessionId c = None.

(** The states of a client object: as constructed, after one of its public
    methods, and after the assignments [connect()] and [disconnect()] make
    to a feature module. *)
Inductive reachable (device : Device) : SunapiClient -> Prop :=
| reach_new cfg : reachable device (new_SunapiClient cfg)
| reach_login fuel c w res c' w' :
    reachable device c ->
    login device fuel c w = Some (res, c', w') -> reachable device c'
| reach_logout fuel c w res c' w' :
    reachable device c ->
    logout device fuel c w = Some (res, c', w') -> reachable device c'
| reach_request fuel method endpoint data params c w res c' w' :
    reachable device c ->
    request device fuel method endpoint data params c w = Some (res, c', w') ->
    reachable device c'
| reach_ping fuel c w res c' w' :
    reachable device c ->
    ping device fuel c w = Some (res, c', w') -> reachable device c'
| reach_shared c tok sid :
    reachable device c -> reachable device (assign_session c (Some tok) sid)
| reach_cleared c :
    reachable device c -> reachable device (assign_session c None None).

(** Requests are only ever added to the wire. *)
Definition wire_grows (s s' : SunapiClient * World) : Prop :=
  exists more, wire (snd s') = (wire (snd s) ++ more)%list.

(** The answer is a rejection that carries a response of status 401. *)
Definition answers_401 (s : Settled) : bool :=
  match s with
  | Fulfilled _ => false
  | Rejected e => status_is_401 e
  end.

(** From its [n]-th answer on, the device no longer answers 401. *)
Definition quiet_from (device : Device) (n : nat) : Prop :=
  forall k req, (n <= k)%nat -> answers_401 (settled (device k req)) = false.

(** The envelope [request] returns for a fulfilled call. *)
Definition success_envelope (response : AxiosResponse.t)
  : SunapiResponse (option Payload.t) :=
  {| Envelope.success := true;
     Envelope.data := Some (AxiosResponse.data response);
     Envelope.error := None;
     Envelope.statusCode := Some (AxiosResponse.status response) |}.

(** The number of 401 answers on a stretch of the wire. *)
Definition count_401 (l : list (Request.t * Settled)) : nat :=
  List.length (filter (fun p => answers_401 (snd p)) l).

(** The books of a run from world [w] to world [w']: one re-login per 401
    answer, at most one retry per re-login, and on the wire the first
    dispatch, one [post] per re-login and one dispatch per retry. *)
Definition balanced (w w' : World) : Prop :=
  (relogins w' + count_401 (wire w) = relogins w + count_401 (wire w'))%nat
  /\ (retries w' + relogins w <= retries w + relogins w')%nat
  /\ (List.length (wire w') + relogins w + retries w
      = List.length (wire w) + 1 + relogins w' + retries w')%nat.

(** The retry policy as the specification words it: a 401 answered while a
    token is held leads to one re-login and at most one retry, whatever the
    retry is answered with. *)
Definition relogin_at_most_once : Prop :=
  forall (device : Device) (fuel : nat) (cfg : Request.t)
         (c : SunapiClient) (w : World) res c' w',
    has_token c = true ->
    answers_401
      (settled (device (List.length (wire w))
                  (request_interceptor c (now w) cfg))) = true ->
    axios_request device fuel cfg c w = Some (res, c', w') ->
    relogins w' = S (relogins w) /\ (retries w' <= S (retries w))%nat.

(** The contract of the result envelope: a failure has no data and has an
    error. *)
Definition envelope_contract {T} (env : SunapiResponse T) : Prop :=
  Envelope.success env = false ->
  Envelope.data env = None /\ exists msg, Envelope.error env = Some msg.

(** The envelope contract as the specification words it, over the public
    methods of the client. *)
Definition every_envelope_obeys_contract : Prop :=
  forall (device : Device) (fuel : nat) (c : SunapiClient) (w : World),
    (forall method endpoint data params env c' w',
        request device fuel method endpoint data params c w
        = Some (Return env, c', w') -> envelope_contract env)
    /\ (forall env c' w',
          login device fuel c w = Some (Return env, c', w') ->
          envelope_contract env)
    /\ (forall env c' w',
          logout device fuel c w = Some (Return env, c', w') ->
          envelope_contract env)
    /\ (forall env c' w',
          ping device fuel c w = Some (Return env, c', w') ->
          envelope_contract env).

(** The lifetime the specification words: what the device declares, and 3600
    seconds when it declares none. *)
Definition declared_lifetime (data : Payload.t) : Z :=
  match Payload.expires data with
  | Some n => n
  | None => 3600
  end.

(** The stored expiry as the specification words it, for a login whose
    [post] was answered with [status] OK. *)
Definition expiry_is_declared_lifetime : Prop :=
  forall (device : Device) (fuel : nat) (c : SunapiClient) (w : World)
         response data c1 w1,
    axios_request device fuel (login_request (config c)) c w
    = Some (Return response, c1, w1) ->
    AxiosResponse.data response = Some data ->
    status_OK data = true ->
    exists env c' tok,
      login device fuel c w = Some (Return env, c', w1)
      /\ authToken c' = Some tok
      /\ AuthToken.expiresAt tok
         = Instant (now w1 + declared_lifetime data * 1000).

(** The failure of a login as the specification words it: whatever
    [login()] throws is an AuthenticationError. *)
Definition login_failure_is_authentication_error : Prop :=
  forall (device : Device) (fuel : nat) (c : SunapiClient) (w : World)
         t c' w',
    login device fuel c w = Some (Throw t, c', w') ->
    exists e, t = ThrowSunapi e /\ SunapiError.name e = AuthenticationErrorC.

(** Accepts no login: the device answers every request with HTTP 500 and a
    message of its own. *)
Definition failing : Device :=
  Demo.answering (fun _ _ => Demo.http_error 500 (Some "Internal error")).

(** Declares a session lifetime beyond the range of [Date]. *)
Definition endless_lifetime : Device :=
  Demo.answering (fun _ r =>
    if Demo.is_login r then Demo.reply 200 (Demo.login_ok (Some 10000000000000))
    else Demo.reply 200 Payload.empty).

(** Accepts every login and answers 401 to every other request. *)
Definition never_authorized : Device :=
  Demo.answering (fun _ r =>
    if Demo.is_login r then Demo.reply 200 (Demo.login_ok None)
    else Demo.http_error 401 (Some "Unauthorized")).

(** The answer is a reply whose [status] is OK. *)
Definition answers_OK (s : Settled) : bool :=
  match s with
  | Fulfilled r =>
      match AxiosResponse.data r with
      | Some d => status_OK d
      | None => false
      end
  | Rejected _ => false
  end.

(** The device accepts every login made with the body [login()] posts for
    [cfg], and answers 401 to every request with the body [body]. *)
Definition always_unauthorized (device : Device) (cfg : SunapiConfig)
    (body : option Fields) : Prop :=
  forall n r,
    (Request.body r = Request.body (login_request cfg) ->
     answers_OK (settled (device n r)) = true)
    /\ (Request.body r = body -> answers_401 (settled (device n r)) = true).

(** The logout as the specification words it: every [logout()] reports
    success and leaves the client without token and session id. *)
Definition logout_always_succeeds : Prop :=
  forall (device : Device) (c : SunapiClient) (w : World),
    session_wf c ->
    exists fuel env c' w',
      logout device fuel c w = Some (Return env, c', w')
      /\ Envelope.success env = true
      /\ authToken c' = None /\ sessionId c' = None.

(** The lifetime the code uses: a declared lifetime of zero counts as none. *)
Definition session_lifetime (data : Payload.t) : Z :=
  match Payload.expires data with
  | None => 3600
  | Some 0 => 3600
  | Some n => n
  end.

(** The credential rule as the specification words it: a request dispatched
    while a token is held carries it. *)
Definition held_token_is_attached : Prop :=
  forall (device : Device) (fuel : nat) (cfg : Request.t)
         (c : SunapiClient) (w : World) res c' w' tok,
    authToken c = Some tok ->
    axios_request device fuel cfg c w = Some (res, c', w') ->
    exists sent answer more,
      wire w' = (wire w ++ (sent, answer) :: more)%list
      /\ Headers.Authorization (Request.headers sent)
         = Some ("Bearer " ++ interpolate (AuthToken.token tok))%string.

(** ** The vocabulary of the further properties *)

(** The body [request] hands to the axios instance: GET and DELETE send
    none. *)
Definition method_body (method : Method) (data : option Fields)
  : option Fields :=
  match method with
  | POST | PUT => data
  | GET | DELETE => None
  end.

(** The notification [logout()] posts. *)
Definition logout_request : Request.t :=
  {| Request.method := POST;
     Request.url := "/stw-cgi/system.cgi";
     Request.body := Some [("msubmenu", "userlogout"); ("action", "logout")];
     Request.params := None;
     Request.headers := Headers.none |}.

(** The request [ping()] makes. *)
Definition ping_request : Request.t :=
  {| Request.method := GET;
     Request.url := "/stw-cgi/system.cgi?msubmenu=deviceinfo&action=view";
     Request.body := None;
     Request.params := None;
     Request.headers := Headers.none |}.

(** What every step of the pipeline keeps: the configuration, a held token,
    the requests already sent and the counts already made. *)
Definition kept (s s' : SunapiClient * World) : Prop :=
  config (fst s') = config (fst s)
  /\ (has_token (fst s) = true -> has_token (fst s') = true)
  /\ (exists more, wire (snd s') = (wire (snd s) ++ more)%list)
  /\ (relogins (snd s) <= relogins (snd s'))%nat
  /\ (retries (snd s) <= retries (snd s'))%nat.

(** The five feature modules of the aggregate. *)
Definition modules (s : Sunapi) : list SunapiClient :=
  [system s; video s; ptz s; events s; recording s].

(** Accepts every login with a token, but declares no session id. *)
Definition token_without_session : Device :=
  Demo.answering (fun _ r =>
    if Demo.is_login r then
      Demo.reply 200
        {| Payload.status := Some "OK"; Payload.token := Some "tok-2";
           Payload.sessionId := None; Payload.expires := None;
           Payload.message := None; Payload.userLevel := None;
           Payload.maxSessions := None |}
    else Demo.reply 200 Payload.empty).

(** An instance of what the normalisers take from the JavaScript runtime, to
    run them on. A number is an integer or NaN, which is [None]; the text is
    ASCII; an object has no member named [toString] or [valueOf]. *)
Module Runtime.

Import Events.

Definition Num : Type := option Z.

(** The white space [parseInt] skips, as far as ASCII has it. *)
Definition is_space (c : ascii) : bool :=
  let n := code c in
  (n =? 32) || ((9 <=? n) && (n <=? 13)).

Fixpoint skip_spaces (s : list ascii) : list ascii :=
  match s with
  | c :: rest => if is_space c then skip_spaces rest else s
  | [] => []
  end.

(** The longest prefix of digits of the radix, as a number; [None] when
    there is no digit. *)
Fixpoint read_radix (radix : Z) (digit : ascii -> option Z)
    (acc : Z) (seen : bool) (s : list ascii) : option Z :=
  match s with
  | c :: rest =>
      match digit c with
      | Some d => read_radix radix digit (acc * radix + d) true rest
      | None => if seen then Some acc else None
      end
  | [] => if seen then Some acc else None
  end.

(** [parseInt(s)] on a string: leading white space, a sign, a [0x] or [0X]
    prefix that selects radix 16, then the digits. *)
Definition parseInt_string (s : string) : Num :=
  let s0 := skip_spaces (chars s) in
  let '(negative, s1) :=
    match s0 with
    | c :: rest =>
        if code c =? 45 then (true, rest)
        else if code c =? 43 then (false, rest)
        else (false, s0)
    | [] => (false, s0)
    end in
  let magnitude :=
    match s1 with
    | c0 :: cx :: rest =>
        if (code c0 =? 48) && ((code cx =? 120) || (code cx =? 88))
        then read_radix 16 hex_of 0 false rest
        else read_radix 10 digit_of 0 false s1
    | _ => read_radix 10 digit_of 0 false s1
    end in
  match magnitude with
  | Some z => Some (if negative then - z else z)
  | None => None
  end.

(** [s] without its trailing zeros, and their count. *)
Fixpoint strip_zeros (fuel : nat) (s zeros : Z) : Z * Z :=
  match fuel with
  | O => (s, zeros)
  | S fuel' =>
      if s mod 10 =? 0 then strip_zeros fuel' (s / 10) (zeros + 1)
      else (s, zeros)
  end.

Fixpoint zeros (n : nat) : string :=
  match n with
  | O => ""
  | S n' => String "0" (zeros n')
  end.

(** [String(x)] for the number [x = m * 10 ^ e]: with [k] digits [ds] and
    [x = 0.ds * 10 ^ n], plain digits for [k <= n <= 21], a decimal point
    inside the digits for [0 < n <= 21], [0.00ds] for [-6 < n <= 0], and
    the exponent notation otherwise. *)
Definition Number_toString (m e : Z) : string :=
  if m =? 0 then "0"
  else
    let '(s, z) := strip_zeros (Z.to_nat (Z.log2 (Z.abs m)) + 1) (Z.abs m) 0 in
    let ds := show_Z s in
    let k := Z.of_nat (String.length ds) in
    let n := k + e + z in
    let sign := if m <? 0 then "-" else "" in
    let exponent :=
      let mark := if n - 1 <? 0 then "-" else "+" in
      ("e" ++ mark ++ show_Z (Z.abs (n - 1)))%string in
    let digits :=
      if (k <=? n) && (n <=? 21) then
        (ds ++ zeros (Z.to_nat (n - k)))%string
      else if (0 <? n) && (n <=? 21) then
        (substring 0 (Z.to_nat n) ds ++ "."
         ++ substring (Z.to_nat n) (Z.to_nat (k - n)) ds)%string
      else if (-6 <? n) && (n <=? 0) then
        ("0." ++ zeros (Z.to_nat (- n)) ++ ds)%string
      else if k =? 1 then (ds ++ exponent)%string
      else
        (substring 0 1 ds ++ "." ++ substring 1 (Z.to_nat (k - 1)) ds
         ++ exponent)%string in
    (sign ++ digits)%string.

(** [String(v)]; the elements of an array are joined by commas, null and
    undefined elements as empty strings. *)
Fixpoint ToString (v : JsVal) : string :=
  match v with
  | JString s => s
  | JNumber m e => Number_toString m e
  | JBool true => "true"
  | JBool false => "false"
  | JNull => "null"
  | JUndefined => "undefined"
  | JArray items =>
      (fix join (l : list JsVal) : string :=
         match l with
         | [] => ""
         | x :: rest =>
             let shown :=
               match x with
               | JNull | JUndefined => ""
               | _ => ToString x
               end in
             match rest with
             | [] => shown
             | _ :: _ => (shown ++ "," ++ join rest)%string
             end
         end) items
  | JObject _ => "[object Object]"
  end.

(** [parseInt(v)]: [parseInt] of [String(v)]. *)
Definition parseInt (v : JsVal) : Num := parseInt_string (ToString v).

Definition num_truthy (n : Num) : bool :=
  match n with
  | Some z => negb (z =? 0)
  | None => false
  end.

Definition num_zero : Num := Some 0.

Definition num_sub (a b : Num) : Num :=
  match a, b with
  | Some x, Some y => Some (x - y)
  | _, _ => None
  end.

End Runtime.

(** The list that [parseConditions] and [parseActions] map over: the value
    itself when it is an array, what it parses to when it is a string that
    parses to an array. *)
Definition listed (JSON_parse : string -> option Events.JsVal)
    (v : Events.JsVal) (items : list Events.JsVal) : Prop :=
  v = Events.JArray items
  \/ exists s, v = Events.JString s /\ JSON_parse s = Some (Events.JArray items).

(** A rule as a device may send it, with conditions that do not parse. *)
Definition sample_rule : Events.JsVal :=
  Events.JObject
    [("ruleId", Events.JNumber 3 0);
     ("enabled", Events.JString "on");
     ("conditions", Events.JString "not json")].

(** A successful reply that lists one rule. *)
Definition sample_rules_reply : SunapiResponse Events.JsVal :=
  {| Envelope.success := true;
     Envelope.data := Some (Events.JArray [sample_rule]);
     Envelope.error := None;
     Envelope.statusCode := Some 200 |}.

(** The five naming fields of a device info are present and non-empty. *)
Definition named (info : SystemModule.SystemInfo.t) : Prop :=
  Events.truthy (SystemModule.SystemInfo.deviceName info) = true
  /\ Events.truthy (SystemModule.SystemInfo.model info) = true
  /\ Events.truthy (SystemModule.SystemInfo.serialNumber info) = true
  /\ Events.truthy (SystemModule.SystemInfo.firmwareVersion info) = true
  /\ Events.truthy (SystemModule.SystemInfo.macAddress info) = true.

(** What [parseNetworkInfo] makes of one interface. *)
Definition network_normalised (item : Events.JsVal)
    (info : SystemModule.NetworkInfo.t) : Prop :=
  Events.truthy (SystemModule.NetworkInfo.interface info) = true
  /\ Events.truthy (SystemModule.NetworkInfo.ipAddress info) = true
  /\ Events.truthy (SystemModule.NetworkInfo.macAddress info) = true
  /\ Events.truthy (SystemModule.NetworkInfo.speed info) = true
  /\ Events.truthy (SystemModule.NetworkInfo.duplex info) = true
  /\ exists status connected,
       Events.member item "status" = Some status
       /\ Events.member item "connected" = Some connected
       /\ SystemModule.NetworkInfo.status info
          = if Events.is_string status "up" || Events.truthy connected
            then "connected"%string else "disconnected"%string.

(** Two interfaces: one that is up, one that says nothing. *)
Definition sample_interfaces : list Events.JsVal :=
  [Events.JObject [("status", Events.JString "up")]; Events.JObject []].



(** Two requests are the same call: they differ in their headers at most. *)
Definition same_call (a b : Request.t) : Prop :=
  Request.method a = Request.method b
  /\ Request.url a = Request.url b
  /\ Request.body a = Request.body b
  /\ Request.params a = Request.params b.

(** The envelope of a health check, read off the last exchange on the wire:
    alive, with the status code of the answer, when the exchange is a GET
    that was answered with a response; unreachable when the answer is a
    rejection, and when the exchange is the POST of a login. *)
Definition ping_outcome (sent : Request.t) (answer : Settled)
  : SunapiResponse Alive :=
  match answer with
  | Fulfilled response =>
      match Request.method sent with
      | GET =>
          {| Envelope.success := true;
             Envelope.data := Some {| alive := true |};
             Envelope.error := None;
             Envelope.statusCode := Some (AxiosResponse.status response) |}
      | _ =>
          {| Envelope.success := false;
             Envelope.data := Some {| alive := false |};
             Envelope.error := Some "Device unreachable";
             Envelope.statusCode := None |}
      end
  | Rejected _ =>
      {| Envelope.success := false;
         Envelope.data := Some {| alive := false |};
         Envelope.error := Some "Device unreachable";
         Envelope.statusCode := None |}
  end.

(** [v] is the member [key] of [item] when that is truthy, and [default]
    when it is not. *)
Definition own_or (item : Events.JsVal) (key : string)
    (default v : Events.JsVal) : Prop :=
  exists x,
    Events.member item key = Some x
    /\ v = (if Events.truthy x then x else default).

(** What [parseConditions] makes of one element of the list. *)
Definition condition_of (item : Events.JsVal) (c : Events.EventCondition)
  : Prop :=
  own_or item "type" (Events.JString "") (Events.type c)
  /\ own_or item "parameters" (Events.JObject []) (Events.parameters c).

(** What [parseActions] makes of one element of the list. *)
Definition action_of (item : Events.JsVal) (a : Events.Action.t) : Prop :=
  own_or item "type" (Events.JString "notification") (Events.Action.type a)
  /\ own_or item "parameters" (Events.JObject []) (Events.Action.parameters a).

(** A condition and an action as a device may send them, and an element
    that has neither type nor parameters. *)
Definition sample_items : list Events.JsVal :=
  [Events.JObject
     [("type", Events.JString "motion");
      ("parameters", Events.JObject [("level", Events.JNumber 5 0)])];
   Events.JObject [("type", Events.JString "")];
   Events.JNumber 7 0].

(** The naming field read from [key], from [alternate] when [key] has
    nothing truthy, and 'Unknown' when neither has. *)
Definition first_named (data : Events.JsVal) (key alternate : string)
  : option Events.JsVal :=
  match Events.member data key, Events.member data alternate with
  | Some a, Some b =>
      Some (if Events.truthy a then a
            else if Events.truthy b then b
                 else Events.JString "Unknown")
  | _, _ => None
  end.

(** The five naming fields of a device info are those of the reply. *)
Definition named_after (data : Events.JsVal)
    (info : SystemModule.SystemInfo.t) : Prop :=
  first_named data "deviceName" "name"
  = Some (SystemModule.SystemInfo.deviceName info)
  /\ first_named data "model" "deviceModel"
     = Some (SystemModule.SystemInfo.model info)
  /\ first_named data "serialNumber" "serial"
     = Some (SystemModule.SystemInfo.serialNumber info)
  /\ first_named data "firmwareVersion" "version"
     = Some (SystemModule.SystemInfo.firmwareVersion info)
  /\ first_named data "macAddress" "mac"
     = Some (SystemModule.SystemInfo.macAddress info).

(** The reply of the end-to-end scenario of the specification. *)
Definition sample_device_reply : SunapiResponse Events.JsVal :=
  {| Envelope.success := true;
     Envelope.data :=
       Some (Events.JObject [("deviceName", Events.JString "Cam1");
                             ("model", Events.JString "X1")]);
     Envelope.error := None;
     Envelope.statusCode := Some 200 |}.

(** * Properties *)

(** ** Session state *)

(** C5: [isAuthenticated()] is true exactly when an auth token is held and
    its expiry is strictly after the current instant; it is false when no
    token is held and when the expiry is at or before the current instant.
    An expiry that is no instant (an Invalid Date) is after nothing. *)
Theorem isAuthenticated_iff_unexpired_token :
  forall (c : SunapiClient) (t : Z),
    (isAuthenticated c t = true <->
       exists tok e, authToken c = Some tok
                     /\ AuthToken.expiresAt tok = Instant e /\ t < e)
    /\ (authToken c = None -> isAuthenticated c t = false)
    /\ (forall tok e, authToken c = Some tok ->
          AuthToken.expiresAt tok = Instant e -> e <= t ->
          isAuthenticated c t = false)
    /\ (forall tok, authToken c = Some tok ->
          AuthToken.expiresAt tok = InvalidDate ->
          isAuthenticated c t = false).
Proof.
  intros c t. unfold isAuthenticated.
  destruct (authToken c) as [tok|] eqn:Htok.
  - split; [split|split; [|split]].
    + intro H. destruct (AuthToken.expiresAt tok) as [e|] eqn:He;
        [|discriminate].
      exists tok, e. split; [reflexivity|]. split; [exact He|].
      now apply Z.ltb_lt.
    + intros (tok' & e & Heq & He & Hlt). injection Heq as <-.
      rewrite He. now apply Z.ltb_lt.
    + discriminate.
    + intros tok' e Heq He Hle. injection Heq as <-. rewrite He.
      apply Z.ltb_ge. exact Hle.
    + intros tok' Heq He. injection Heq as <-. now rewrite He.
  - split; [split|split; [|split]].
    + discriminate.
    + intros (tok' & e & Heq & _). discriminate.
    + reflexivity.
    + discriminate.
    + discriminate.
Qed.

Lemma isAuthenticated_iff_unexpired_token_witness :
  isAuthenticated (Demo.session 5000) 4999 = true
  /\ isAuthenticated (Demo.session 5000) 5000 = false
  /\ isAuthenticated (new_SunapiClient Demo.cfg) 0 = false.
Proof.
  split; [|split].
  - apply (proj1 (isAuthenticated_iff_unexpired_token (Demo.session 5000) 4999)).
    eexists. exists 5000. split; [reflexivity|]. split; [reflexivity|]. lia.
  - apply (proj1 (proj2 (proj2 (isAuthenticated_iff_unexpired_token
                                  (Demo.session 5000) 5000))) _ 5000 eq_refl eq_refl).
    lia.
  - apply (proj1 (proj2 (isAuthenticated_iff_unexpired_token
                           (new_SunapiClient Demo.cfg) 0))).
    reflexivity.
Defined.

(** ** The error classifier *)

Lemma is_connection_code_spec (e : AxiosError.t) :
  is_connection_code (AxiosError.code e) = true <-> connection_failure e.
Proof.
  unfold is_connection_code, connection_failure.
  destruct (AxiosError.code e) as [s|].
  - rewrite orb_true_iff, !String.eqb_eq. split.
    + intros [-> | ->]; [left|right]; reflexivity.
    + intros [H | H]; injection H as ->; [left|right]; reflexivity.
  - split; [discriminate|]. intros [H | H]; discriminate.
Qed.

Lemma or_lit_body_message e r :
  body_message_or_transport
    (or_lit (body_message (AxiosResponse.data r)) (AxiosError.message e)) e r.
Proof.
  unfold body_message_or_transport, body_message, or_lit.
  split; [|split].
  - intros body m -> -> Hm. apply String.eqb_neq in Hm. now rewrite Hm.
  - intros ->. reflexivity.
  - intros body -> [-> | ->]; reflexivity.
Qed.

(** C6: [handleError] yields an error of exactly one of three classes. A
    connection failure (code ECONNREFUSED or ENOTFOUND) gives a ConnectionError
    with statusCode 0. Any other failure that carries an HTTP response gives,
    for status 401, an AuthenticationError with statusCode 401, and for every
    other status a generic SunapiError whose statusCode is the response status;
    in both the message is the response body's [message] field, or the
    transport error's message when the body has none. *)
Theorem handleError_classifies :
  forall (cfg : SunapiConfig) (e : AxiosError.t),
    let err := handleError cfg e in
    (SunapiError.name err = ConnectionErrorC
     \/ SunapiError.name err = AuthenticationErrorC
     \/ SunapiError.name err = SunapiErrorC)
    /\ (connection_failure e ->
          SunapiError.name err = ConnectionErrorC
          /\ SunapiError.statusCode err = Some 0)
    /\ (forall r, ~ connection_failure e -> AxiosError.response e = Some r ->
          AxiosResponse.status r = 401 ->
          SunapiError.name err = AuthenticationErrorC
          /\ SunapiError.statusCode err = Some 401
          /\ body_message_or_transport (SunapiError.message err) e r)
    /\ (forall r, ~ connection_failure e -> AxiosError.response e = Some r ->
          AxiosResponse.status r <> 401 ->
          SunapiError.name err = SunapiErrorC
          /\ SunapiError.statusCode err = Some (AxiosResponse.status r)
          /\ body_message_or_transport (SunapiError.message err) e r).
Proof.
  intros cfg e err. subst err. unfold handleError.
  destruct (is_connection_code (AxiosError.code e)) eqn:Hc.
  - apply is_connection_code_spec in Hc.
    split; [left; reflexivity|].
    split; [intros _; split; reflexivity|].
    split; intros; contradiction.
  - assert (Hn : ~ connection_failure e).
    { intro H. apply is_connection_code_spec in H. congruence. }
    destruct (AxiosError.response e) as [r|] eqn:Hr.
    + destruct (AxiosResponse.status r =? 401) eqn:Hs.
      * apply Z.eqb_eq in Hs.
        split; [right; left; reflexivity|].
        split; [intro; contradiction|].
        split; intros r' _ Heq Hst; injection Heq as <-; [|contradiction].
        split; [reflexivity|]. split; [reflexivity|]. apply or_lit_body_message.
      * apply Z.eqb_neq in Hs.
        split; [right; right; reflexivity|].
        split; [intro; contradiction|].
        split; intros r' _ Heq Hst; injection Heq as <-; [contradiction|].
        split; [reflexivity|]. split; [reflexivity|]. apply or_lit_body_message.
    + split; [right; right; reflexivity|].
      split; [intro; contradiction|].
      split; intros; discriminate.
Qed.

Lemma handleError_classifies_witness :
  SunapiError.statusCode (handleError Demo.cfg Demo.not_found) = Some 0
  /\ SunapiError.message (handleError Demo.cfg Demo.unauthorized)
     = "Request failed"
  /\ SunapiError.statusCode (handleError Demo.cfg Demo.unavailable) = Some 503.
Proof.
  split; [|split].
  - refine (proj2 (proj1 (proj2
              (handleError_classifies Demo.cfg Demo.not_found)) _)).
    right. reflexivity.
  - refine (proj1 (proj2 (proj2 (proj2 (proj1 (proj2 (proj2
              (handleError_classifies Demo.cfg Demo.unauthorized)))
              _ _ eq_refl eq_refl)))) eq_refl).
    intros [H | H]; discriminate.
  - refine (proj1 (proj2 (proj2 (proj2 (proj2
              (handleError_classifies Demo.cfg Demo.unavailable)))
              _ _ eq_refl _))).
    + intros [H | H]; discriminate.
    + simpl. lia.
Defined.

(** ** The pipeline: how a run of a method changes client and world *)

(** What [login()] does once its [post] has settled. *)
Lemma login_with_settled dispatch c w out c1 w1 :
  dispatch (login_request (config c)) c w = Some (out, c1, w1) ->
  login_with dispatch c w =
    match out with
    | Return response =>
        match AxiosResponse.data response with
        | None =>
            Some (Throw (ThrowSunapi (handleError (config c1) TypeError_status)),
                  c1, w1)
        | Some data =>
            if status_OK data then
              Some (Return (login_envelope data),
                    stored_session c1 (now w1) data, w1)
            else
              Some (Throw (ThrowSunapi
                             (new_AuthenticationError
                                (or_lit (Payload.message data) "Login failed"))),
                    c1, w1)
        end
    | Throw (ThrowSunapi e) => Some (Throw (ThrowSunapi e), c1, w1)
    | Throw (ThrowOther e) =>
        Some (Throw (ThrowSunapi (handleError (config c1) e)), c1, w1)
    end.
Proof.
  intro H. unfold login_with, try_catch, bind, this. simpl. rewrite H.
  destruct out as [response | [e | e]]; try reflexivity.
  destruct (AxiosResponse.data response) as [data|]; [|reflexivity].
  destruct (status_OK data); reflexivity.
Qed.

Lemma login_with_unsettled dispatch c w :
  dispatch (login_request (config c)) c w = None ->
  login_with dispatch c w = None.
Proof.
  intro H. unfold login_with, try_catch, bind, this. simpl. now rewrite H.
Qed.

(** [login()] either stores a session and returns, or throws a SunapiError
    and leaves the client as its [post] left it. *)
Lemma login_with_inv dispatch c w res c' w' :
  login_with dispatch c w = Some (res, c', w') ->
  exists out c1,
    dispatch (login_request (config c)) c w = Some (out, c1, w')
    /\ ((exists response data,
            out = Return response
            /\ AxiosResponse.data response = Some data
            /\ status_OK data = true
            /\ res = Return (login_envelope data)
            /\ c' = stored_session c1 (now w') data)
        \/ (exists e, res = Throw (ThrowSunapi e) /\ c' = c1)).
Proof.
  intro H.
  destruct (dispatch (login_request (config c)) c w) as [[[out c1] w1]|] eqn:Hd.
  - rewrite (login_with_settled _ _ _ _ _ _ Hd) in H.
    destruct out as [response | [e | e]].
    + destruct (AxiosResponse.data response) as [data|] eqn:Hdata.
      * destruct (status_OK data) eqn:Hok; injection H as <- <- <-;
          exists (Return response), c1; (split; [reflexivity|]).
        -- left. exists response, data. repeat split; assumption.
        -- right. eexists. split; reflexivity.
      * injection H as <- <- <-. exists (Return response), c1.
        split; [reflexivity|]. right. eexists. split; reflexivity.
    + injection H as <- <- <-. exists (Throw (ThrowSunapi e)), c1.
      split; [reflexivity|]. right. eexists. split; reflexivity.
    + injection H as <- <- <-. exists (Throw (ThrowOther e)), c1.
      split; [reflexivity|]. right. eexists. split; reflexivity.
  - rewrite (login_with_unsettled _ _ _ Hd) in H. discriminate.
Qed.

(** One unfolding of the pipeline. *)
Lemma axios_request_step device fuel cfg c w :
  axios_request device (S fuel) cfg c w =
    let sent := request_interceptor c (now w) cfg in
    let x := device (List.length (wire w)) sent in
    let w1 := transmit w sent x in
    match settled x with
    | Fulfilled response => Some (Return response, c, w1)
    | Rejected error =>
        if status_is_401 error && has_token c then
          match login device fuel c (note_relogin w1) with
          | None => None
          | Some (Return _, c2, w2) =>
              axios_request device fuel sent c2 (note_retry w2)
          | Some (Throw _, c2, w2) =>
              Some (Throw (ThrowSunapi
                             (new_AuthenticationError
                                "Session expired and refresh failed")),
                    c2, w2)
          end
        else Some (Throw (ThrowSunapi (handleError (config c) error)), c, w1)
    end.
Proof. reflexivity. Qed.

Section Rely.

Variable device : Device.

(** A relation between the states before and after, kept by every step
    the pipeline takes. *)
Variable R : SunapiClient * World -> SunapiClient * World -> Prop.

Hypothesis R_trans : forall s1 s2 s3, R s1 s2 -> R s2 s3 -> R s1 s3.
Hypothesis R_transmit :
  forall c w sent x, R (c, w) (c, transmit w sent x).
Hypothesis R_relogin : forall c w, R (c, w) (c, note_relogin w).
Hypothesis R_retry : forall c w, R (c, w) (c, note_retry w).
Hypothesis R_store :
  forall c w data, R (c, w) (stored_session c (now w) data, w).

Lemma login_with_rely dispatch :
  (forall cfg c w res c' w',
      dispatch cfg c w = Some (res, c', w') -> R (c, w) (c', w')) ->
  forall c w res c' w',
    login_with dispatch c w = Some (res, c', w') -> R (c, w) (c', w').
Proof.
  intros Hd c w res c' w' H.
  apply login_with_inv in H.
  destruct H as (out & c1 & Hout & [(response & data & _ & _ & _ & _ & ->)
                                   | (e & _ & ->)]).
  - eapply R_trans; [eapply Hd; eassumption | apply R_store].
  - eapply Hd; eassumption.
Qed.

Lemma axios_request_rely fuel :
  forall cfg c w res c' w',
    axios_request device fuel cfg c w = Some (res, c', w') ->
    R (c, w) (c', w').
Proof.
  induction fuel as [|fuel IH]; intros cfg c w res c' w' H; [discriminate|].
  rewrite axios_request_step in H. cbv zeta in H.
  destruct (settled _) as [response | error].
  - injection H as <- <- <-. apply R_transmit.
  - destruct (status_is_401 error && has_token c).
    + destruct (login device fuel c (note_relogin _))
        as [[[out c2] w2]|] eqn:Hl; [|discriminate].
      assert (Hlogin : R (c, w) (c2, w2)).
      { eapply R_trans; [apply R_transmit|].
        eapply R_trans; [apply R_relogin|].
        eapply login_with_rely; [exact IH | exact Hl]. }
      destruct out as [r | t].
      * eapply R_trans; [exact Hlogin|].
        eapply R_trans; [apply R_retry|]. eapply IH; exact H.
      * injection H as <- <- <-. exact Hlogin.
    + injection H as <- <- <-. apply R_transmit.
Qed.

Lemma login_rely fuel c w res c' w' :
  login device fuel c w = Some (res, c', w') -> R (c, w) (c', w').
Proof. apply login_with_rely. apply axios_request_rely. Qed.

End Rely.

(** *** What the pipeline keeps *)

Lemma axios_request_config device fuel cfg c w res c' w' :
  axios_request device fuel cfg c w = Some (res, c', w') ->
  config c' = config c.
Proof.
  apply (axios_request_rely device
           (fun s s' => config (fst s') = config (fst s))); simpl;
    try reflexivity.
  intros s1 s2 s3 H12 H23. congruence.
Qed.

Lemma axios_request_token device fuel cfg c w res c' w' :
  axios_request device fuel cfg c w = Some (res, c', w') ->
  has_token c = true -> has_token c' = true.
Proof.
  apply (axios_request_rely device
           (fun s s' => has_token (fst s) = true -> has_token (fst s') = true));
    simpl; auto.
Qed.

Lemma session_wf_new cfg : session_wf (new_SunapiClient cfg).
Proof. intro. reflexivity. Qed.

Lemma axios_request_wf device fuel cfg c w res c' w' :
  axios_request device fuel cfg c w = Some (res, c', w') ->
  session_wf c -> session_wf c'.
Proof.
  apply (axios_request_rely device
           (fun s s' => session_wf (fst s) -> session_wf (fst s')));
    simpl; auto.
  intros c0 w0 data _ H. discriminate.
Qed.

Lemma login_wf device fuel c w res c' w' :
  login device fuel c w = Some (res, c', w') ->
  session_wf c -> session_wf c'.
Proof.
  apply (login_rely device
           (fun s s' => session_wf (fst s) -> session_wf (fst s')));
    simpl; auto.
  intros c0 w0 data _ H. discriminate.
Qed.

Lemma wire_grows_same s s' : wire (snd s') = wire (snd s) -> wire_grows s s'.
Proof. intro H. exists []. now rewrite app_nil_r. Qed.

Lemma wire_grows_trans s1 s2 s3 :
  wire_grows s1 s2 -> wire_grows s2 s3 -> wire_grows s1 s3.
Proof.
  intros [m1 H1] [m2 H2]. exists (m1 ++ m2)%list.
  now rewrite H2, H1, app_assoc.
Qed.

Lemma axios_request_wire device fuel cfg c w res c' w' :
  axios_request device fuel cfg c w = Some (res, c', w') ->
  exists more, wire w' = (wire w ++ more)%list.
Proof.
  apply (axios_request_rely device wire_grows).
  - exact wire_grows_trans.
  - intros. eexists. reflexivity.
  - intros. apply wire_grows_same. reflexivity.
  - intros. apply wire_grows_same. reflexivity.
  - intros. apply wire_grows_same. reflexivity.
Qed.

Lemma login_wire device fuel c w res c' w' :
  login device fuel c w = Some (res, c', w') ->
  exists more, wire w' = (wire w ++ more)%list.
Proof.
  apply (login_rely device wire_grows).
  - exact wire_grows_trans.
  - intros. eexists. reflexivity.
  - intros. apply wire_grows_same. reflexivity.
  - intros. apply wire_grows_same. reflexivity.
  - intros. apply wire_grows_same. reflexivity.
Qed.

(** Whatever the pipeline throws has been classified. *)
Lemma axios_request_throws device fuel :
  forall cfg c w t c' w',
    axios_request device fuel cfg c w = Some (Throw t, c', w') ->
    exists e, t = ThrowSunapi e.
Proof.
  induction fuel as [|fuel IH]; intros cfg c w t c' w' H; [discriminate|].
  rewrite axios_request_step in H. cbv zeta in H.
  destruct (settled _) as [response | error]; [discriminate|].
  destruct (status_is_401 error && has_token c).
  - destruct (login device fuel c _) as [[[out c2] w2]|]; [|discriminate].
    destruct out as [r | t'].
    + eapply IH; exact H.
    + injection H as <- <- <-. eexists. reflexivity.
  - injection H as <- <- <-. eexists. reflexivity.
Qed.

(** *** When the pipeline settles *)

Lemma axios_request_settles device n :
  quiet_from device n ->
  forall fuel cfg c w,
    (0 < fuel)%nat -> (n < fuel + List.length (wire w))%nat ->
    exists out, axios_request device fuel cfg c w = Some out.
Proof.
  intros Hq. induction fuel as [|fuel IH]; intros cfg c w Hpos Hn; [lia|].
  rewrite axios_request_step. cbv zeta.
  set (sent := request_interceptor c (now w) cfg).
  set (x := device (List.length (wire w)) sent).
  destruct (settled x) as [response | error] eqn:Hs.
  - eexists. reflexivity.
  - destruct (status_is_401 error && has_token c) eqn:H401.
    + apply andb_prop in H401. destruct H401 as [H401 _].
      assert (Hk : (List.length (wire w) < n)%nat).
      { destruct (Nat.lt_ge_cases (List.length (wire w)) n) as [Hlt | Hge];
          [exact Hlt|].
        specialize (Hq _ sent Hge). fold x in Hq. rewrite Hs in Hq.
        simpl in Hq. congruence. }
      assert (Hlen : List.length (wire (note_relogin (transmit w sent x)))
                     = S (List.length (wire w))).
      { simpl. rewrite length_app. simpl. lia. }
      destruct (IH (login_request (config c)) c
                   (note_relogin (transmit w sent x))) as [[[out c1] w1] Hd];
        [lia | lia |].
      unfold login. rewrite (login_with_settled _ _ _ _ _ _ Hd).
      destruct (axios_request_wire _ _ _ _ _ _ _ _ Hd) as [more Hmore].
      assert (Hlen1 : (S (List.length (wire w)) <= List.length (wire w1))%nat).
      { rewrite Hmore, length_app, Hlen. lia. }
      assert (Hretry : forall c2, exists out',
                 axios_request device fuel sent c2 (note_retry w1) = Some out').
      { intro c2. apply IH; simpl; lia. }
      destruct out as [response | [e | e]].
      * destruct (AxiosResponse.data response) as [data|].
        -- destruct (status_OK data); [apply Hretry | eexists; reflexivity].
        -- eexists; reflexivity.
      * eexists; reflexivity.
      * eexists; reflexivity.
    + eexists. reflexivity.
Qed.

Lemma login_settles device n :
  quiet_from device n ->
  forall fuel c w,
    (n < fuel)%nat -> exists out, login device fuel c w = Some out.
Proof.
  intros Hq fuel c w Hn.
  destruct (axios_request_settles device n Hq fuel (login_request (config c)) c w)
    as [[[out c1] w1] Hd]; [lia | lia |].
  unfold login. rewrite (login_with_settled _ _ _ _ _ _ Hd).
  destruct out as [response | [e | e]]; try (eexists; reflexivity).
  destruct (AxiosResponse.data response) as [data|]; [|eexists; reflexivity].
  destruct (status_OK data); eexists; reflexivity.
Qed.

Lemma axios_method_is_request device fuel method endpoint data params :
  exists cfg,
    axios_method device fuel method endpoint data params
    = axios_request device fuel cfg.
Proof. destruct method; eexists; reflexivity. Qed.

Lemma axios_method_settles device n :
  quiet_from device n ->
  forall fuel method endpoint data params c w,
    (n < fuel)%nat ->
    exists out,
      axios_method device fuel method endpoint data params c w = Some out.
Proof.
  intros Hq fuel method endpoint data params c w Hn.
  destruct (axios_method_is_request device fuel method endpoint data params)
    as [cfg ->].
  eapply axios_request_settles; [exact Hq | lia | lia].
Qed.

(** What [request] does once the pre-request authentication has passed. *)
Lemma request_authenticated device fuel method endpoint data params c w c1 w1 :
  ensureAuthenticated device fuel c w = Some (Return tt, c1, w1) ->
  request device fuel method endpoint data params c w =
    match axios_method device fuel method endpoint data params c1 w1 with
    | None => None
    | Some (Return response, c2, w2) =>
        Some (Return (success_envelope response), c2, w2)
    | Some (Throw (ThrowSunapi e), c2, w2) =>
        Some (Return (failure_envelope e), c2, w2)
    | Some (Throw (ThrowOther e), c2, w2) =>
        Some (Return (failure_envelope (handleError (config c2) e)), c2, w2)
    end.
Proof.
  intro H. unfold request, bind at 1. rewrite H.
  unfold try_catch, bind.
  destruct (axios_method device fuel method endpoint data params c1 w1)
    as [[[[response | [e | e]] c2] w2]|]; reflexivity.
Qed.

Lemma request_unauthenticated device fuel method endpoint data params c w t c1 w1 :
  ensureAuthenticated device fuel c w = Some (Throw t, c1, w1) ->
  request device fuel method endpoint data params c w = Some (Throw t, c1, w1).
Proof. intro H. unfold request, bind at 1. now rewrite H. Qed.

(** ** Logout *)

(** [logout()] returns the success envelope; it clears the session when a
    token was held, and otherwise leaves client and world as they were. *)
Lemma logout_inv device fuel c w res c' w' :
  logout device fuel c w = Some (res, c', w') ->
  res = Return ok_envelope
  /\ config c' = config c
  /\ ((has_token c = true /\ authToken c' = None /\ sessionId c' = None)
      \/ (has_token c = false /\ c' = c /\ w' = w)).
Proof.
  unfold logout, try_catch, bind, this, axios_post.
  destruct (has_token c) eqn:Htok; simpl.
  - intro H.
    match type of H with
    | context [axios_request device fuel ?cfg c w] =>
        destruct (axios_request device fuel cfg c w)
          as [[[[r | t] c1] w1]|] eqn:Hd; [ | | discriminate]
    end; simpl in H; injection H as <- <- <-; simpl;
      (split; [reflexivity|]);
      (split; [exact (axios_request_config _ _ _ _ _ _ _ _ Hd)|]);
      left; repeat split.
  - intro H. injection H as <- <- <-.
    split; [reflexivity|]. split; [reflexivity|]. right. repeat split.
Qed.

Lemma logout_settles device n :
  quiet_from device n ->
  forall fuel c w,
    (n < fuel)%nat -> exists out, logout device fuel c w = Some out.
Proof.
  intros Hq fuel c w Hn.
  unfold logout, try_catch, bind, this, axios_post.
  destruct (has_token c); simpl; [|eexists; reflexivity].
  match goal with
  | |- context [axios_request device fuel ?cfg c w] =>
      destruct (axios_request_settles device n Hq fuel cfg c w)
        as [[[[r | t] c1] w1] ->]; [lia | lia | | ]
  end; simpl; eexists; reflexivity.
Qed.

Lemma no_token c : has_token c = false -> authToken c = None.
Proof.
  unfold has_token. destruct (authToken c); [discriminate | reflexivity].
Qed.

(** Against a device that accepts every login and answers 401 to every
    request with a given body, a call with that body made while a token is
    held never settles: each 401 is followed by a login that succeeds and a
    retry that is answered 401 again. *)
Lemma axios_request_unsettled device cfg0 body :
  always_unauthorized device cfg0 body ->
  forall fuel cfg c w,
    config c = cfg0 -> Request.body cfg = body -> has_token c = true ->
    axios_request device fuel cfg c w = None.
Proof.
  intros Hdev fuel. induction fuel as [|fuel IH]; intros cfg c w Hcfg Hbody Htok;
    [reflexivity|].
  rewrite axios_request_step. cbv zeta.
  set (sent := request_interceptor c (now w) cfg).
  set (x := device (List.length (wire w)) sent).
  assert (Hsent : Request.body sent = body) by exact Hbody.
  pose proof (proj2 (Hdev (List.length (wire w)) sent) Hsent) as H401.
  fold x in H401.
  destruct (settled x) as [r | e]; [discriminate|].
  cbn [answers_401] in H401. rewrite H401, Htok. cbn [andb].
  set (w1 := note_relogin (transmit w sent x)).
  destruct fuel as [|fuel'].
  - unfold login. now rewrite login_with_unsettled.
  - set (sent1 := request_interceptor c (now w1) (login_request (config c))).
    set (x1 := device (List.length (wire w1)) sent1).
    assert (Hsent1 : Request.body sent1
                     = Request.body (login_request cfg0))
      by (rewrite <- Hcfg; reflexivity).
    pose proof (proj1 (Hdev (List.length (wire w1)) sent1) Hsent1) as HOK.
    fold x1 in HOK.
    destruct (settled x1) as [r1 | e1] eqn:Hs1; [|discriminate].
    cbn [answers_OK] in HOK.
    destruct (AxiosResponse.data r1) as [d|] eqn:Hd; [|discriminate].
    assert (Hpost : axios_request device (S fuel') (login_request (config c))
                      c w1
                    = Some (Return r1, c, transmit w1 sent1 x1)).
    { rewrite axios_request_step. cbv zeta. fold sent1 x1. now rewrite Hs1. }
    unfold login. rewrite (login_with_settled _ _ _ _ _ _ Hpost), Hd, HOK.
    apply IH; [exact Hcfg | exact Hsent | reflexivity].
Qed.

Lemma never_authorized_always_unauthorized :
  always_unauthorized never_authorized Demo.cfg (Request.body logout_request).
Proof.
  intros n r. unfold never_authorized, Demo.answering, Demo.is_login.
  cbn [settled]. split; intro H; rewrite H; reflexivity.
Qed.

Lemma logout_unsettled device c w :
  always_unauthorized device (config c) (Request.body logout_request) ->
  has_token c = true ->
  forall fuel, logout device fuel c w = None.
Proof.
  intros Hdev Htok fuel.
  unfold logout, try_catch, bind, this, axios_post. rewrite Htok. simpl.
  rewrite (axios_request_unsettled device (config c) (Request.body logout_request) Hdev);
    first [reflexivity | exact Htok].
Qed.

(** Not every call of [logout()] returns: against a device that accepts
    every login and answers 401 to every logout, the call made while a token
    is held settles with no amount of fuel, and so clears nothing. *)
Lemma logout_may_never_settle : ~ logout_always_succeeds.
Proof.
  intro H.
  assert (Hwf : session_wf (Demo.session 5000)).
  { intro Hn. simpl in Hn. discriminate. }
  destruct (H never_authorized (Demo.session 5000) Demo.at_start Hwf)
    as (fuel & env & c' & w' & Hl & _).
  rewrite (logout_unsettled never_authorized (Demo.session 5000) Demo.at_start
             never_authorized_always_unauthorized eq_refl fuel) in Hl.
  discriminate.
Qed.

(** C4, as the code has it: [logout()] never throws, and whenever it
    settles it reports success and leaves the client without auth token and
    without session id, whatever the device answered to the notification, a
    thrown transport failure included. It settles as soon as the device
    stops answering 401. While a token is held it does not settle against a
    device that answers 401 to every logout and accepts every login: the
    pipeline then logs in and retries without end, and the local state is
    never cleared. *)
Theorem logout_always_clears_session :
  forall (device : Device) (fuel : nat) (c : SunapiClient) (w : World),
    session_wf c ->
    (forall res c' w',
        logout device fuel c w = Some (res, c', w') ->
        (exists env, res = Return env /\ Envelope.success env = true)
        /\ authToken c' = None /\ sessionId c' = None)
    /\ (forall n, quiet_from device n -> (n < fuel)%nat ->
          exists env c' w', logout device fuel c w = Some (Return env, c', w'))
    /\ (always_unauthorized device (config c) (Request.body logout_request) ->
        has_token c = true ->
        logout device fuel c w = None).
Proof.
  intros device fuel c w Hwf. split; [|split].
  - intros res c' w' H. apply logout_inv in H.
    destruct H as (-> & _ & [(_ & Ha & Hs) | (Htok & -> & _)]).
    + split; [eexists; split; reflexivity|]. split; assumption.
    + apply no_token in Htok.
      split; [eexists; split; reflexivity|]. split; [exact Htok | exact (Hwf Htok)].
  - intros n Hq Hn.
    destruct (logout_settles device n Hq fuel c w Hn) as [[[res c'] w'] H].
    destruct (logout_inv _ _ _ _ _ _ _ H) as (-> & _).
    exists ok_envelope, c', w'. exact H.
  - intros Hdev Htok. exact (logout_unsettled device c w Hdev Htok fuel).
Qed.

Lemma logout_always_clears_session_witness :
  (exists env c' w',
      logout Demo.unreachable 1 (Demo.session 5000) Demo.at_start
      = Some (Return env, c', w')
      /\ Envelope.success env = true
      /\ authToken c' = None /\ sessionId c' = None)
  /\ logout never_authorized 1000 (Demo.session 5000) Demo.at_start = None.
Proof.
  assert (Hwf : session_wf (Demo.session 5000)).
  { intro H. simpl in H. discriminate. }
  assert (Hq : quiet_from Demo.unreachable 0).
  { intros k req _. reflexivity. }
  split.
  - destruct (logout_always_clears_session Demo.unreachable 1
                (Demo.session 5000) Demo.at_start Hwf) as (Hclear & Hsettle & _).
    destruct (Hsettle 0%nat Hq ltac:(lia)) as (env & c' & w' & H).
    exists env, c', w'. split; [exact H|].
    destruct (Hclear _ _ _ H) as [(env' & Henv & Hs) Hrest].
    injection Henv as <-. split; assumption.
  - exact (proj2 (proj2 (logout_always_clears_session never_authorized 1000
                           (Demo.session 5000) Demo.at_start Hwf))
             never_authorized_always_unauthorized eq_refl).
Defined.

(** ** The states a client can be in *)

Lemma ensureAuthenticated_wf device fuel c w res c' w' :
  ensureAuthenticated device fuel c w = Some (res, c', w') ->
  session_wf c -> session_wf c'.
Proof.
  unfold ensureAuthenticated, bind, this, Date_now. simpl.
  destruct (isAuthenticated c (now w)); simpl.
  - intros H. injection H as _ <- _. auto.
  - destruct (login device fuel c w) as [[[[result | t] c1] w1]|] eqn:Hl;
      [ | | discriminate]; intros H Hwf;
      pose proof (login_wf _ _ _ _ _ _ _ Hl Hwf) as Hwf1.
    + destruct (negb (Envelope.success result)); injection H as _ <- _;
        exact Hwf1.
    + injection H as _ <- _. exact Hwf1.
Qed.

Lemma request_wf device fuel method endpoint data params c w res c' w' :
  request device fuel method endpoint data params c w = Some (res, c', w') ->
  session_wf c -> session_wf c'.
Proof.
  intros H Hwf.
  destruct (ensureAuthenticated device fuel c w) as [[[[[] | t] c1] w1]|] eqn:Ha.
  - pose proof (ensureAuthenticated_wf _ _ _ _ _ _ _ Ha Hwf) as Hwf1.
    rewrite (request_authenticated _ _ method endpoint data params _ _ _ _ Ha)
      in H.
    destruct (axios_method_is_request device fuel method endpoint data params)
      as [cfg Hcfg].
    rewrite Hcfg in H.
    destruct (axios_request device fuel cfg c1 w1)
      as [[[[response | [e | e]] c2] w2]|] eqn:Hd; [ | | | discriminate];
      injection H as _ <- _;
      exact (axios_request_wf _ _ _ _ _ _ _ _ Hd Hwf1).
  - rewrite (request_unauthenticated _ _ method endpoint data params _ _ _ _ _ Ha)
      in H.
    injection H as _ <- _. exact (ensureAuthenticated_wf _ _ _ _ _ _ _ Ha Hwf).
  - unfold request, bind at 1 in H. rewrite Ha in H. discriminate.
Qed.

Lemma logout_wf device fuel c w res c' w' :
  logout device fuel c w = Some (res, c', w') ->
  session_wf c -> session_wf c'.
Proof.
  intros H Hwf. apply logout_inv in H.
  destruct H as (_ & _ & [(_ & _ & Hs) | (_ & -> & _)]).
  - intros _. exact Hs.
  - exact Hwf.
Qed.

Lemma ping_wf device fuel c w res c' w' :
  ping device fuel c w = Some (res, c', w') ->
  session_wf c -> session_wf c'.
Proof.
  unfold ping, try_catch, bind, axios_get. intros H Hwf.
  match type of H with
  | context [axios_request device fuel ?cfg c w] =>
      destruct (axios_request device fuel cfg c w)
        as [[[[r | t] c1] w1]|] eqn:Hd; [ | | discriminate]
  end; simpl in H; injection H as _ <- _;
    exact (axios_request_wf _ _ _ _ _ _ _ _ Hd Hwf).
Qed.

(** Every state a client object gets into through its public methods, and
    through the assignments [connect()] and [disconnect()] make to the
    modules, holds a session id only together with a token. *)
Lemma reachable_wf device c : reachable device c -> session_wf c.
Proof.
  induction 1 as [cfg | fuel c w res c' w' _ IH H | fuel c w res c' w' _ IH H
                 | fuel method endpoint data params c w res c' w' _ IH H
                 | fuel c w res c' w' _ IH H | c tok sid _ _ | c _ _].
  - apply session_wf_new.
  - exact (login_wf _ _ _ _ _ _ _ H IH).
  - exact (logout_wf _ _ _ _ _ _ _ H IH).
  - exact (request_wf _ _ _ _ _ _ _ _ _ _ _ H IH).
  - exact (ping_wf _ _ _ _ _ _ _ H IH).
  - intro Hn. discriminate.
  - intro. reflexivity.
Qed.

(** ** The request method *)

(** C3: once [ensureAuthenticated()] has succeeded, [request] does not throw:
    a failure of the dispatched call, which the pipeline always hands over
    classified, is returned as an envelope with [success] false, no data,
    the classified message and the classified status code. The call settles
    as soon as the device stops answering 401. *)
Theorem request_captures_failures :
  forall (device : Device) (fuel : nat) (method : Method) (endpoint : string)
         (data params : option Fields) (c : SunapiClient) (w : World)
         (c1 : SunapiClient) (w1 : World),
    ensureAuthenticated device fuel c w = Some (Return tt, c1, w1) ->
    (forall res c2 w2,
        request device fuel method endpoint data params c w = Some (res, c2, w2) ->
        exists env, res = Return env)
    /\ (forall t c2 w2,
          axios_method device fuel method endpoint data params c1 w1
          = Some (Throw t, c2, w2) ->
          exists e,
            t = ThrowSunapi e
            /\ request device fuel method endpoint data params c w
               = Some (Return {| Envelope.success := false;
                                 Envelope.data := None;
                                 Envelope.error := Some (SunapiError.message e);
                                 Envelope.statusCode := SunapiError.statusCode e |},
                       c2, w2))
    /\ (forall n, quiet_from device n -> (n < fuel)%nat ->
          exists env c2 w2,
            request device fuel method endpoint data params c w
            = Some (Return env, c2, w2)).
Proof.
  intros device fuel method endpoint data params c w c1 w1 Hauth.
  rewrite (request_authenticated _ _ method endpoint data params _ _ _ _ Hauth).
  split; [|split].
  - intros res c2 w2 H.
    destruct (axios_method device fuel method endpoint data params c1 w1)
      as [[[[response | [e | e]] c2'] w2']|]; [ | | | discriminate];
      injection H as <- <- <-; eexists; reflexivity.
  - intros t c2 w2 H. rewrite H.
    destruct (axios_method_is_request device fuel method endpoint data params)
      as [cfg Hcfg].
    rewrite Hcfg in H. apply axios_request_throws in H. destruct H as [e ->].
    exists e. split; reflexivity.
  - intros n Hq Hn.
    destruct (axios_method_settles device n Hq fuel method endpoint data params
                c1 w1 Hn) as [[[[response | [e | e]] c2] w2] ->];
      do 3 eexists; reflexivity.
Qed.

Lemma request_captures_failures_witness :
  request Demo.unreachable 1 GET "/stw-cgi/video.cgi" None None
    (Demo.session 5000) Demo.at_start
  = Some (Return {| Envelope.success := false;
                    Envelope.data := None;
                    Envelope.error := Some "Cannot connect to 192.168.1.100:80";
                    Envelope.statusCode := Some 0 |},
          Demo.session 5000,
          transmit Demo.at_start
            (request_interceptor (Demo.session 5000) 1000
               {| Request.method := GET; Request.url := "/stw-cgi/video.cgi";
                  Request.body := None; Request.params := None;
                  Request.headers := Headers.none |})
            {| elapsed := 5; settled := Demo.refused |}).
Proof.
  destruct (proj1 (proj2 (request_captures_failures Demo.unreachable 1 GET
                            "/stw-cgi/video.cgi" None None
                            (Demo.session 5000) Demo.at_start
                            (Demo.session 5000) Demo.at_start eq_refl))
              _ _ _ eq_refl) as (e & He & Hreq).
  injection He as <-. exact Hreq.
Defined.

(** ** Re-authentication on 401 *)

Lemma count_401_app l1 l2 :
  count_401 (l1 ++ l2) = (count_401 l1 + count_401 l2)%nat.
Proof. unfold count_401. now rewrite filter_app, length_app. Qed.

Lemma login_token device fuel c w res c' w' :
  login device fuel c w = Some (res, c', w') ->
  has_token c = true -> has_token c' = true.
Proof.
  apply (login_rely device
           (fun s s' => has_token (fst s) = true -> has_token (fst s') = true));
    simpl; auto.
Qed.

Lemma axios_request_balanced device fuel :
  forall cfg c w res c' w',
    has_token c = true ->
    axios_request device fuel cfg c w = Some (res, c', w') ->
    balanced w w'.
Proof.
  induction fuel as [|fuel IH]; intros cfg c w res c' w' Htok H; [discriminate|].
  rewrite axios_request_step in H. cbv zeta in H.
  set (sent := request_interceptor c (now w) cfg) in *.
  set (x := device (List.length (wire w)) sent) in *.
  assert (Hlen : List.length (wire (transmit w sent x))
                 = S (List.length (wire w))).
  { simpl. rewrite length_app. simpl. lia. }
  assert (Hcnt : count_401 (wire (transmit w sent x))
                 = (count_401 (wire w)
                    + (if answers_401 (settled x) then 1 else 0))%nat).
  { unfold transmit. cbn [wire]. rewrite count_401_app. f_equal.
    unfold count_401. cbn [filter snd].
    destruct (answers_401 (settled x)); reflexivity. }
  assert (Hrel : relogins (transmit w sent x) = relogins w) by reflexivity.
  assert (Hret : retries (transmit w sent x) = retries w) by reflexivity.
  destruct (settled x) as [response | error] eqn:Hs; cbn [answers_401] in Hcnt.
  - injection H as <- <- <-. unfold balanced. lia.
  - rewrite Htok, andb_true_r in H.
    destruct (status_is_401 error) eqn:H401.
    + destruct (login device fuel c (note_relogin (transmit w sent x)))
        as [[[out c2] w2]|] eqn:Hl; [|discriminate].
      pose proof (login_token _ _ _ _ _ _ _ Hl Htok) as Htok2.
      apply login_with_inv in Hl.
      destruct Hl as (out0 & c1 & Hd & _).
      apply IH in Hd; [|exact Htok].
      destruct Hd as (Hd1 & Hd2 & Hd3).
      cbn [note_relogin wire relogins retries] in Hd1, Hd2, Hd3.
      destruct out as [r | t].
      * apply IH in H; [|exact Htok2].
        destruct H as (H1 & H2 & H3).
        cbn [note_retry wire relogins retries] in H1, H2, H3.
        unfold balanced. lia.
      * injection H as <- <- <-. unfold balanced. lia.
    + injection H as <- <- <-. unfold balanced. lia.
Qed.

(** C1, as the code has it: while a token is held, each 401 answer triggers
    exactly one re-login attempt, each re-login that succeeds is followed by
    exactly one re-dispatch of the request as it was sent, through the same
    pipeline, and the outcome of that re-dispatch is the outcome of the call;
    a re-login that fails surfaces the AuthenticationError of the refresh. A
    401 answered to the re-dispatch is handled like the first one; the call
    settles as soon as the device stops answering 401. *)
Theorem each_401_one_relogin_one_retry :
  forall (device : Device) (fuel : nat) (cfg : Request.t)
         (c : SunapiClient) (w : World),
    has_token c = true ->
    let sent := request_interceptor c (now w) cfg in
    let x := device (List.length (wire w)) sent in
    let w1 := note_relogin (transmit w sent x) in
    (forall res c' w',
        axios_request device fuel cfg c w = Some (res, c', w') ->
        (relogins w' + count_401 (wire w) = relogins w + count_401 (wire w'))%nat
        /\ (retries w' + relogins w <= retries w + relogins w')%nat
        /\ (List.length (wire w') + relogins w + retries w
            = List.length (wire w) + 1 + relogins w' + retries w')%nat)
    /\ (answers_401 (settled x) = true ->
        forall out c2 w2,
          login device fuel c w1 = Some (out, c2, w2) ->
          axios_request device (S fuel) cfg c w =
            match out with
            | Return _ => axios_request device fuel sent c2 (note_retry w2)
            | Throw _ =>
                Some (Throw (ThrowSunapi
                               (new_AuthenticationError
                                  "Session expired and refresh failed")),
                      c2, w2)
            end)
    /\ (forall n, quiet_from device n -> (n < fuel)%nat ->
          exists out, axios_request device fuel cfg c w = Some out).
Proof.
  intros device fuel cfg c w Htok sent x w1. split; [|split].
  - intros res c' w' H. exact (axios_request_balanced _ _ _ _ _ _ _ _ Htok H).
  - intros H401 out c2 w2 Hl.
    rewrite axios_request_step. cbv zeta. fold sent x. fold w1.
    destruct (settled x) as [response | error]; [discriminate|].
    simpl in H401. rewrite H401, Htok. simpl. rewrite Hl.
    destruct out; reflexivity.
  - intros n Hq Hn. eapply axios_request_settles; [exact Hq | lia | lia].
Qed.

Lemma each_401_one_relogin_one_retry_witness :
  exists res c' w',
    axios_request Demo.once_unauthorized 3 Demo.probe
      (Demo.session 5000) Demo.at_start = Some (res, c', w')
    /\ (relogins w' + count_401 (wire Demo.at_start)
        = relogins Demo.at_start + count_401 (wire w'))%nat
    /\ relogins w' = 1%nat /\ retries w' = 1%nat
    /\ List.length (wire w') = 3%nat.
Proof.
  eexists. eexists. eexists. split; [vm_compute; reflexivity|].
  split.
  - refine (proj1 (proj1 (each_401_one_relogin_one_retry Demo.once_unauthorized
                            3 Demo.probe (Demo.session 5000) Demo.at_start
                            eq_refl) _ _ _ eq_refl)).
  - repeat split.
Defined.

(** The run against a device that answers 401 to the call and to its retry:
    two re-logins, two retries, five requests on the wire, and the answer of
    the second retry as the outcome. *)
Example second_401_run :
  exists c' w',
    axios_request Demo.twice_unauthorized 5 Demo.probe
      (Demo.session 5000) Demo.at_start
    = Some (Return {| AxiosResponse.status := 200;
                      AxiosResponse.data := Some Payload.empty |}, c', w')
    /\ relogins w' = 2%nat /\ retries w' = 2%nat
    /\ List.length (wire w') = 5%nat
    /\ map (fun p => (Demo.is_login (fst p), answers_401 (snd p))) (wire w')
       = [(false, true); (true, false); (false, true); (true, false);
          (false, false)].
Proof.
  eexists. eexists. split; [vm_compute; reflexivity|]. repeat split.
Qed.

Lemma second_401_triggers_second_relogin : ~ relogin_at_most_once.
Proof.
  intro H.
  destruct (H Demo.twice_unauthorized 5%nat Demo.probe (Demo.session 5000)
              Demo.at_start _ _ _ eq_refl eq_refl eq_refl) as [Hrel _].
  vm_compute in Hrel. discriminate.
Qed.

(** ** The result envelope *)

Lemma ping_failure_carries_data : ~ every_envelope_obeys_contract.
Proof.
  intro H.
  destruct (H Demo.unreachable 1%nat (new_SunapiClient Demo.cfg) Demo.at_start)
    as (_ & _ & _ & Hping).
  destruct (Hping _ _ _ eq_refl eq_refl) as [Hdata _].
  vm_compute in Hdata. discriminate.
Qed.

Lemma request_inv device fuel method endpoint data params c w env c' w' :
  request device fuel method endpoint data params c w
  = Some (Return env, c', w') ->
  (exists response, env = success_envelope response)
  \/ (exists e, env = failure_envelope e).
Proof.
  intro H.
  destruct (ensureAuthenticated device fuel c w) as [[[[[] | t] c1] w1]|] eqn:Ha.
  - rewrite (request_authenticated _ _ method endpoint data params _ _ _ _ Ha)
      in H.
    destruct (axios_method device fuel method endpoint data params c1 w1)
      as [[[[response | [e | e]] c2] w2]|]; [ | | | discriminate];
      injection H as <- <- <-; [left | right | right]; eexists; reflexivity.
  - rewrite (request_unauthenticated _ _ method endpoint data params _ _ _ _ _ Ha)
      in H. discriminate.
  - unfold request, bind at 1 in H. rewrite Ha in H. discriminate.
Qed.

Lemma login_envelope_inv device fuel c w env c' w' :
  login device fuel c w = Some (Return env, c', w') ->
  Envelope.success env = true.
Proof.
  intro H. apply login_with_inv in H.
  destruct H as (out & c1 & _ & [(response & data & _ & _ & _ & Henv & _)
                                | (e & Hthrow & _)]).
  - injection Henv as ->. reflexivity.
  - discriminate.
Qed.

(** C2, as the code has it: the envelopes returned by [request] (and so by
    [get], [post], [put], [delete]), by [login] and by [logout], and the
    envelopes the feature modules derive from them by normalising, have no
    data and a populated error whenever [success] is false. The failure
    envelope of [ping] has a populated error too, and carries the data
    [{ alive: false }]. *)
Theorem envelope_contract_except_ping :
  forall (device : Device) (fuel : nat) (c : SunapiClient) (w : World),
    (forall method endpoint data params env c' w',
        request device fuel method endpoint data params c w
        = Some (Return env, c', w') -> envelope_contract env)
    /\ (forall env c' w',
          login device fuel c w = Some (Return env, c', w') ->
          envelope_contract env)
    /\ (forall env c' w',
          logout device fuel c w = Some (Return env, c', w') ->
          envelope_contract env)
    /\ (forall T (f : Payload.t -> T) env,
          envelope_contract env -> envelope_contract (normalized f env))
    /\ (forall env c' w',
          ping device fuel c w = Some (Return env, c', w') ->
          Envelope.success env = false ->
          Envelope.data env = Some {| alive := false |}
          /\ Envelope.error env = Some "Device unreachable").
Proof.
  intros device fuel c w. repeat (apply conj).
  - intros method endpoint data params env c' w' H Hs.
    apply request_inv in H. destruct H as [[response ->] | [e ->]].
    + discriminate.
    + split; [reflexivity|]. eexists. reflexivity.
  - intros env c' w' H Hs. apply login_envelope_inv in H. congruence.
  - intros env c' w' H Hs.
    assert (Envelope.success env = true); [|congruence].
    unfold logout, try_catch, bind, this in H.
    destruct (has_token c); simpl in H.
    + unfold axios_post in H.
      destruct (axios_request device fuel _ c w) as [[[[r | t] c1] w1]|];
        [ | | discriminate]; simpl in H; injection H as <- _ _; reflexivity.
    + injection H as <- _ _. reflexivity.
  - intros T f env Hc Hs. unfold normalized in *.
    destruct (Envelope.success env) eqn:Hse.
    + destruct (Envelope.data env) as [[d|]|]; discriminate.
    + destruct (Hc Hse) as [Hd Herr]. rewrite Hd. simpl.
      split; [reflexivity | exact Herr].
  - intros env c' w' H Hs.
    unfold ping, try_catch, bind, axios_get in H.
    destruct (axios_request device fuel _ c w) as [[[[r | t] c1] w1]|];
      [ | | discriminate]; simpl in H; injection H as <- _ _.
    + discriminate.
    + split; reflexivity.
Qed.

Lemma envelope_contract_except_ping_witness :
  envelope_contract
    {| Envelope.success := false;
       Envelope.data := @None (option Payload.t);
       Envelope.error := Some "Cannot connect to 192.168.1.100:80";
       Envelope.statusCode := Some 0 |}.
Proof.
  refine (proj1 (envelope_contract_except_ping Demo.unreachable 1
                   (Demo.session 5000) Demo.at_start)
            GET "/stw-cgi/video.cgi" None None _ _ _ _).
  vm_compute. reflexivity.
Defined.

(** ** Login *)

(** The two clauses of the specification's login rule fail on runs of the
    code: a device that declares a lifetime of zero seconds gets a session
    of 3600 seconds, and a login call the device answers with HTTP 500
    raises the generic error of the classifier, which is no
    AuthenticationError. *)
Lemma zero_lifetime_and_failed_call_differ :
  ~ expiry_is_declared_lifetime /\ ~ login_failure_is_authentication_error.
Proof.
  split.
  - intro H.
    destruct (H Demo.zero_lifetime 1%nat (new_SunapiClient Demo.cfg)
                Demo.at_start _ _ _ _ eq_refl eq_refl eq_refl)
      as (env & c' & tok & Hl & Htok & Hexp).
    vm_compute in Hl. injection Hl as _ <-.
    vm_compute in Htok. injection Htok as <-.
    vm_compute in Hexp. discriminate.
  - intro H.
    destruct (H failing 1%nat (new_SunapiClient Demo.cfg) Demo.at_start
                _ _ _ eq_refl)
      as (e & He & Hname).
    injection He as <-. vm_compute in Hname. discriminate.
Qed.

Lemma or_num_expires data :
  or_num (Payload.expires data) 3600 = session_lifetime data.
Proof.
  unfold or_num, session_lifetime.
  destruct (Payload.expires data) as [[|p|p]|]; reflexivity.
Qed.

Lemma new_Date_in_range (ms : Z) :
  Z.abs ms <= max_time -> new_Date ms = Instant ms.
Proof.
  intro H. unfold new_Date. apply Z.leb_le in H. now rewrite H.
Qed.

Lemma new_Date_out_of_range (ms : Z) :
  max_time < Z.abs ms -> new_Date ms = InvalidDate.
Proof.
  intro H. unfold new_Date. apply Z.leb_gt in H. now rewrite H.
Qed.

(** C7, as the code has it: when the login call is answered with [status]
    OK, the client stores the token (the reply's [token], or its [sessionId]
    when it has no token), the session id, and as expiry the Date made of
    the instant of the answer plus the lifetime in seconds, where 3600
    seconds are taken when the device declares none or declares zero: that
    instant when a Date can hold it, and an Invalid Date when it is beyond
    the range of Date. When the call is answered with any other [status],
    an AuthenticationError is thrown with the reply's [message], or 'Login
    failed' when it has none, and nothing is stored. When the call is
    answered with a null body, a generic SunapiError without status code is
    thrown. When the call itself fails, login throws the error the pipeline
    made of the failure, whatever its class, and nothing is stored. *)
Theorem login_stores_session :
  forall (device : Device) (fuel : nat) (c : SunapiClient) (w : World)
         (out : Completion AxiosResponse.t)
         (c1 : SunapiClient) (w1 : World),
    axios_request device fuel (login_request (config c)) c w
    = Some (out, c1, w1) ->
    (forall response data,
        out = Return response ->
        AxiosResponse.data response = Some data ->
        (status_OK data = true ->
         exists env tok,
           login device fuel c w
           = Some (Return env,
                   {| config := config c1; authToken := Some tok;
                      sessionId := Payload.sessionId data |}, w1)
           /\ Envelope.success env = true
           /\ AuthToken.token tok
              = or_str (Payload.token data) (Payload.sessionId data)
           /\ AuthToken.sessionId tok = Payload.sessionId data
           /\ (Z.abs (now w1 + session_lifetime data * 1000) <= max_time ->
               AuthToken.expiresAt tok
               = Instant (now w1 + session_lifetime data * 1000))
           /\ (max_time < Z.abs (now w1 + session_lifetime data * 1000) ->
               AuthToken.expiresAt tok = InvalidDate))
        /\ (status_OK data = false ->
            login device fuel c w
            = Some (Throw (ThrowSunapi
                             (new_AuthenticationError
                                (or_lit (Payload.message data) "Login failed"))),
                    c1, w1)))
    /\ (forall response,
          out = Return response ->
          AxiosResponse.data response = None ->
          exists e,
            login device fuel c w = Some (Throw (ThrowSunapi e), c1, w1)
            /\ SunapiError.name e = SunapiErrorC
            /\ SunapiError.statusCode e = None)
    /\ (forall e,
          out = Throw (ThrowSunapi e) ->
          login device fuel c w = Some (Throw (ThrowSunapi e), c1, w1)).
Proof.
  intros device fuel c w out c1 w1 Hd.
  unfold login. rewrite (login_with_settled _ _ _ _ _ _ Hd).
  split; [|split].
  - intros response data -> Hdata. rewrite Hdata.
    split; intros ->.
    + eexists. eexists. split; [reflexivity|].
      cbn [AuthToken.token AuthToken.sessionId AuthToken.expiresAt
           Envelope.success login_envelope].
      rewrite or_num_expires.
      repeat split.
      * apply new_Date_in_range.
      * apply new_Date_out_of_range.
    + reflexivity.
  - intros response -> Hdata. rewrite Hdata.
    eexists. split; [reflexivity|]. split; reflexivity.
  - intros e ->. reflexivity.
Qed.

Lemma login_stores_session_witness :
  (exists env tok,
      login Demo.friendly 1 (new_SunapiClient Demo.cfg) Demo.at_start
      = Some (Return env,
              {| config := Demo.cfg; authToken := Some tok;
                 sessionId := Some "sess-1" |},
              transmit Demo.at_start
                (login_request Demo.cfg)
                {| elapsed := 5;
                   settled := Demo.reply 200 (Demo.login_ok None) |})
      /\ Envelope.success env = true
      /\ AuthToken.token tok = Some "tok-1"
      /\ AuthToken.sessionId tok = Some "sess-1"
      /\ AuthToken.expiresAt tok = Instant (1005 + 3600 * 1000))
  /\ (exists env tok,
      login endless_lifetime 1 (new_SunapiClient Demo.cfg) Demo.at_start
      = Some (Return env,
              {| config := Demo.cfg; authToken := Some tok;
                 sessionId := Some "sess-1" |},
              transmit Demo.at_start
                (login_request Demo.cfg)
                {| elapsed := 5;
                   settled :=
                     Demo.reply 200 (Demo.login_ok (Some 10000000000000)) |})
      /\ AuthToken.expiresAt tok = InvalidDate)
  /\ login Demo.denying 1 (new_SunapiClient Demo.cfg) Demo.at_start
     = Some (Throw (ThrowSunapi (new_AuthenticationError "Bad credentials")),
             new_SunapiClient Demo.cfg,
             transmit Demo.at_start
               (login_request Demo.cfg)
               {| elapsed := 5; settled := Demo.reply 200 Demo.login_denied |})
  /\ (exists e,
      login failing 1 (new_SunapiClient Demo.cfg) Demo.at_start
      = Some (Throw (ThrowSunapi e),
              new_SunapiClient Demo.cfg,
              transmit Demo.at_start
                (login_request Demo.cfg)
                {| elapsed := 5;
                   settled := Demo.http_error 500 (Some "Internal error") |})
      /\ SunapiError.name e = SunapiErrorC
      /\ SunapiError.message e = "Internal error"
      /\ SunapiError.statusCode e = Some 500).
Proof.
  split; [|split; [|split]].
  - destruct (proj1 (proj1 (login_stores_session Demo.friendly 1
                       (new_SunapiClient Demo.cfg) Demo.at_start
                       _ _ _ eq_refl)
                     _ (Demo.login_ok None) eq_refl eq_refl) eq_refl)
      as (env & tok & Hl & Hs & Ht & Hsid & Hin & _).
    exists env, tok. repeat split; try assumption.
    apply Hin. vm_compute. discriminate.
  - destruct (proj1 (proj1 (login_stores_session endless_lifetime 1
                       (new_SunapiClient Demo.cfg) Demo.at_start
                       _ _ _ eq_refl)
                     _ (Demo.login_ok (Some 10000000000000)) eq_refl eq_refl)
                eq_refl)
      as (env & tok & Hl & _ & _ & _ & _ & Hout).
    exists env, tok. split; [exact Hl|].
    apply Hout. vm_compute. reflexivity.
  - exact (proj2 (proj1 (login_stores_session Demo.denying 1
                    (new_SunapiClient Demo.cfg) Demo.at_start
                    _ _ _ eq_refl)
                  _ Demo.login_denied eq_refl eq_refl) eq_refl).
  - eexists. split.
    + exact (proj2 (proj2 (login_stores_session failing 1
                             (new_SunapiClient Demo.cfg) Demo.at_start
                             _ _ _ eq_refl)) _ eq_refl).
    + repeat split.
Defined.

(** ** Credentials on outgoing requests *)

(** The first request a call of the pipeline puts on the wire is the
    configuration it was given, as the request interceptor leaves it. *)
Lemma axios_request_first_sent device fuel cfg c w res c' w' :
  axios_request device fuel cfg c w = Some (res, c', w') ->
  exists answer more,
    wire w'
    = (wire w ++ (request_interceptor c (now w) cfg, answer) :: more)%list.
Proof.
  destruct fuel as [|fuel]; [discriminate|].
  rewrite axios_request_step. cbv zeta.
  set (sent := request_interceptor c (now w) cfg).
  set (x := device (List.length (wire w)) sent).
  intro H. exists (settled x).
  assert (H1 : wire (transmit w sent x) = (wire w ++ [(sent, settled x)])%list)
    by reflexivity.
  destruct (settled x) as [response | error] eqn:Hs.
  - injection H as <- <- <-. exists []. exact H1.
  - destruct (status_is_401 error && has_token c).
    + destruct (login device fuel c (note_relogin (transmit w sent x)))
        as [[[out c2] w2]|] eqn:Hl; [|discriminate].
      apply login_wire in Hl. destruct Hl as [m1 Hm1].
      cbn [note_relogin wire] in Hm1. fold (transmit w sent x) in Hm1.
      rewrite H1 in Hm1.
      destruct out as [r | t].
      * apply axios_request_wire in H. destruct H as [m2 Hm2].
        cbn [note_retry wire] in Hm2.
        exists (m1 ++ m2)%list. rewrite Hm2, Hm1, <- !app_assoc. reflexivity.
      * injection H as <- <- <-. exists m1. rewrite Hm1, <- app_assoc.
        reflexivity.
    + injection H as <- <- <-. exists []. exact H1.
Qed.

Lemma expired_token_is_not_attached : ~ held_token_is_attached.
Proof.
  intro H.
  destruct (H Demo.friendly 1%nat Demo.probe (Demo.session 500) Demo.at_start
              _ _ _ _ eq_refl eq_refl)
    as (sent & answer & more & Hw & Hauth).
  vm_compute in Hw. injection Hw as <- _ _.
  vm_compute in Hauth. discriminate.
Qed.

(** C8, as the code has it: the request a call of the pipeline dispatches
    carries the token as a bearer [Authorization] credential whenever a
    token is held and its expiry is strictly after the instant of the
    dispatch, and carries the session id as [X-Session-ID] whenever the
    client holds a non-empty session id. *)
Theorem unexpired_token_and_session_attached :
  forall (device : Device) (fuel : nat) (cfg : Request.t)
         (c : SunapiClient) (w : World),
    let sent := request_interceptor c (now w) cfg in
    (forall res c' w',
        axios_request device fuel cfg c w = Some (res, c', w') ->
        exists answer more,
          wire w' = (wire w ++ (sent, answer) :: more)%list)
    /\ (forall tok e,
          authToken c = Some tok ->
          AuthToken.expiresAt tok = Instant e -> now w < e ->
          Headers.Authorization (Request.headers sent)
          = Some ("Bearer " ++ interpolate (AuthToken.token tok))%string)
    /\ (forall sid,
          sessionId c = Some sid -> sid <> ""%string ->
          Headers.X_Session_ID (Request.headers sent) = Some sid)
    /\ (forall n, quiet_from device n -> (n < fuel)%nat ->
          exists out, axios_request device fuel cfg c w = Some out).
Proof.
  intros device fuel cfg c w sent. split; [|split; [|split]].
  - intros res c' w' H. exact (axios_request_first_sent _ _ _ _ _ _ _ _ H).
  - intros tok e Htok He Hlt. subst sent. unfold request_interceptor. simpl.
    rewrite Htok, He. simpl. apply Z.ltb_lt in Hlt. now rewrite Hlt.
  - intros sid Hsid Hne. subst sent. unfold request_interceptor. simpl.
    rewrite Hsid. simpl. apply String.eqb_neq in Hne. now rewrite Hne.
  - intros n Hq Hn. eapply axios_request_settles; [exact Hq | lia | lia].
Qed.

Lemma unexpired_token_and_session_attached_witness :
  (exists answer more,
      wire (transmit Demo.at_start
              (request_interceptor (Demo.session 5000) 1000 Demo.probe)
              {| elapsed := 5; settled := Demo.reply 200 Payload.empty |})
      = (wire Demo.at_start
           ++ (request_interceptor (Demo.session 5000) 1000 Demo.probe, answer)
              :: more)%list)
  /\ Headers.Authorization
       (Request.headers
          (request_interceptor (Demo.session 5000) 1000 Demo.probe))
     = Some "Bearer tok-0"
  /\ Headers.X_Session_ID
       (Request.headers
          (request_interceptor (Demo.session 5000) 1000 Demo.probe))
     = Some "sess-0".
Proof.
  destruct (unexpired_token_and_session_attached Demo.friendly 1 Demo.probe
              (Demo.session 5000) Demo.at_start)
    as (Hw & Hauth & Hsid & _).
  split; [exact (Hw _ _ _ eq_refl)|]. split.
  - apply (Hauth _ 5000 eq_refl eq_refl). simpl. lia.
  - apply (Hsid _ eq_refl). discriminate.
Defined.

(** ** Event rule conditions *)

(** C9: when the [conditions] field of an event rule is a string that
    [JSON.parse] rejects, [parseConditions] returns the empty sequence, and
    returns it normally: nothing is thrown. *)
Theorem unparsable_conditions_give_empty :
  forall (JSON_parse : string -> option Events.JsVal) (text : string),
    JSON_parse text = None ->
    Events.parseConditions JSON_parse (Events.JString text) = Events.Value [].
Proof.
  intros JSON_parse text H. unfold Events.parseConditions. now rewrite H.
Qed.

Lemma unparsable_conditions_give_empty_witness :
  Events.parseConditions Events.read_json (Events.JString "not json")
  = Events.Value [].
Proof.
  apply (unparsable_conditions_give_empty Events.read_json "not json").
  vm_compute. reflexivity.
Defined.

(** ** The aggregate client *)

(** C10: after a [connect()] that returns normally and leaves the aggregate
    client with an auth token and a non-empty session id, each of the five
    feature modules holds that same auth token and that same session id. *)
Theorem connect_shares_session :
  forall (device : Device) (fuel : nat) (s : Sunapi) (w : World)
         (s' : Sunapi) (w' : World) (tok : AuthToken.t) (sid : string),
    connect device fuel s w = Some (Return tt, s', w') ->
    authToken (self s') = Some tok ->
    sessionId (self s') = Some sid ->
    sid <> ""%string ->
    Forall (fun m => authToken m = Some tok /\ sessionId m = Some sid)
      [system s'; video s'; ptz s'; events s'; recording s'].
Proof.
  intros device fuel s w s' w' tok sid H Htok Hsid Hne.
  unfold connect in H.
  destruct (login device fuel (self s) w) as [[[[result | t] c] w1]|];
    [ | discriminate | discriminate].
  destruct (negb (Envelope.success result)); [discriminate|].
  destruct (has_token c && truthy_str (sessionId c)) eqn:Hshare.
  - injection H as <- <-. simpl in *.
    repeat constructor; assumption.
  - injection H as <- <-. simpl in *.
    unfold has_token in Hshare. rewrite Htok, Hsid in Hshare. simpl in Hshare.
    apply String.eqb_neq in Hne. rewrite Hne in Hshare. discriminate.
Qed.

Lemma connect_shares_session_witness :
  exists s' w' tok,
    connect Demo.friendly 1 (new_Sunapi Demo.cfg) Demo.at_start
    = Some (Return tt, s', w')
    /\ authToken (self s') = Some tok
    /\ Forall (fun m => authToken m = Some tok /\ sessionId m = Some "sess-1")
         [system s'; video s'; ptz s'; events s'; recording s'].
Proof.
  eexists. eexists. eexists.
  split; [vm_compute; reflexivity|]. split; [reflexivity|].
  refine (connect_shares_session Demo.friendly 1 (new_Sunapi Demo.cfg)
            Demo.at_start _ _ _ "sess-1" eq_refl eq_refl eq_refl _).
  discriminate.
Defined.

(** * Further properties of the client *)

(** ** The pipeline of a client that holds no token *)

Lemma axios_request_tokenless device fuel cfg c w :
  has_token c = false ->
  axios_request device (S fuel) cfg c w =
    let sent := request_interceptor c (now w) cfg in
    let x := device (List.length (wire w)) sent in
    Some (match settled x with
          | Fulfilled response => Return response
          | Rejected error =>
              Throw (ThrowSunapi (handleError (config c) error))
          end, c, transmit w sent x).
Proof.
  intro Htok. rewrite axios_request_step. cbv zeta.
  destruct (settled _) as [response | error]; [reflexivity|].
  now rewrite Htok, andb_false_r.
Qed.

Lemma pipeline_tokenless_run device fuel cfg c w :
  has_token c = false -> (0 < fuel)%nat ->
  exists res w',
    axios_request device fuel cfg c w = Some (res, c, w')
    /\ wire w'
       = (wire w
            ++ [(request_interceptor c (now w) cfg,
                 settled (device (List.length (wire w))
                            (request_interceptor c (now w) cfg)))])%list.
Proof.
  intros Htok Hfuel. destruct fuel as [|fuel]; [lia|].
  rewrite (axios_request_tokenless _ _ _ _ _ Htok). cbv zeta.
  eexists. eexists. split; reflexivity.
Qed.

(** X1: a client that holds no token never re-logins. Whatever the device
    answers, a 401 included, a call of the pipeline puts exactly one request
    on the wire, leaves the client as it was, and settles at once: with the
    response when the call is fulfilled, with the classified error when it
    is rejected. *)
Theorem pipeline_without_token_sends_once :
  forall (device : Device) (fuel : nat) (cfg : Request.t)
         (c : SunapiClient) (w : World),
    has_token c = false -> (0 < fuel)%nat ->
    let sent := request_interceptor c (now w) cfg in
    let x := device (List.length (wire w)) sent in
    exists res w',
      axios_request device fuel cfg c w = Some (res, c, w')
      /\ wire w' = (wire w ++ [(sent, settled x)])%list
      /\ now w' = now w + elapsed x
      /\ relogins w' = relogins w /\ retries w' = retries w
      /\ match settled x with
         | Fulfilled response => res = Return response
         | Rejected error =>
             res = Throw (ThrowSunapi (handleError (config c) error))
         end.
Proof.
  intros device fuel cfg c w Htok Hfuel sent x.
  destruct fuel as [|fuel]; [lia|].
  rewrite (axios_request_tokenless _ _ _ _ _ Htok). cbv zeta. fold sent x.
  eexists. eexists. split; [reflexivity|].
  repeat split. destruct (settled x); reflexivity.
Qed.

Lemma pipeline_without_token_sends_once_witness :
  exists res w',
    axios_request Demo.twice_unauthorized 1 Demo.probe
      (new_SunapiClient Demo.cfg) Demo.at_start
    = Some (res, new_SunapiClient Demo.cfg, w')
    /\ wire w' = [(Demo.probe, Demo.http_error 401 (Some "Unauthorized"))]
    /\ relogins w' = 0%nat
    /\ res = Throw (ThrowSunapi (new_AuthenticationError "Unauthorized")).
Proof.
  destruct (pipeline_without_token_sends_once Demo.twice_unauthorized 1
              Demo.probe (new_SunapiClient Demo.cfg) Demo.at_start
              eq_refl ltac:(lia))
    as (res & w' & Hrun & Hwire & _ & Hrel & _ & Hres).
  exists res, w'. repeat split; assumption.
Defined.

(** ** Login *)

Lemma login_throws_classified device fuel c w t c' w' :
  login device fuel c w = Some (Throw t, c', w') -> exists e, t = ThrowSunapi e.
Proof.
  intro H. apply login_with_inv in H.
  destruct H as (out & c1 & _ & [(response & data & _ & _ & _ & Hres & _)
                                | (e & Hres & _)]).
  - discriminate.
  - injection Hres as ->. exists e. reflexivity.
Qed.

(** X2: [login()] on a client that holds no token sends exactly one request,
    the POST of the configured user name and password to
    /stw-cgi/system.cgi, without an Authorization header. When it throws,
    it throws a classified SunapiError and leaves the client untouched; when
    it returns, the client holds a token. *)
Theorem login_sends_credentials_once :
  forall (device : Device) (fuel : nat) (c : SunapiClient) (w : World),
    has_token c = false -> (0 < fuel)%nat ->
    exists out c' w' sent answer,
      login device fuel c w = Some (out, c', w')
      /\ wire w' = (wire w ++ [(sent, answer)])%list
      /\ Request.method sent = POST
      /\ Request.url sent = "/stw-cgi/system.cgi"%string
      /\ Request.body sent
         = Some [("msubmenu", "userlogin"); ("action", "login");
                 ("user", username (config c)); ("pass", password (config c))]
      /\ Headers.Authorization (Request.headers sent) = None
      /\ match out with
         | Return _ => has_token c' = true
         | Throw t => c' = c /\ exists e, t = ThrowSunapi e
         end.
Proof.
  intros device fuel c w Htok Hfuel.
  destruct (pipeline_tokenless_run device fuel (login_request (config c)) c w
              Htok Hfuel) as (res & w' & Hrun & Hwire).
  pose proof (login_with_settled _ _ _ _ _ _ Hrun) as Hlogin.
  fold (login device fuel) in Hlogin.
  assert (Hauth : Headers.Authorization
                    (Request.headers
                       (request_interceptor c (now w)
                          (login_request (config c)))) = None).
  { unfold request_interceptor, has_token in *. simpl.
    destruct (authToken c); [discriminate | reflexivity]. }
  destruct res as [response | [e | e]].
  - destruct (AxiosResponse.data response) as [data|].
    + destruct (status_OK data).
      * do 5 eexists. split; [exact Hlogin|]. split; [exact Hwire|].
        repeat split. exact Hauth.
      * do 5 eexists. split; [exact Hlogin|]. split; [exact Hwire|].
        repeat split; [exact Hauth|]. eexists. reflexivity.
    + do 5 eexists. split; [exact Hlogin|]. split; [exact Hwire|].
      repeat split; [exact Hauth|]. eexists. reflexivity.
  - do 5 eexists. split; [exact Hlogin|]. split; [exact Hwire|].
    repeat split; [exact Hauth|]. eexists. reflexivity.
  - do 5 eexists. split; [exact Hlogin|]. split; [exact Hwire|].
    repeat split; [exact Hauth|]. eexists. reflexivity.
Qed.

Lemma login_sends_credentials_once_witness :
  exists out c' w' sent answer,
    login Demo.denying 1 (new_SunapiClient Demo.cfg) Demo.at_start
    = Some (out, c', w')
    /\ wire w' = (wire Demo.at_start ++ [(sent, answer)])%list
    /\ Request.body sent
       = Some [("msubmenu", "userlogin"); ("action", "login");
               ("user", "admin"); ("pass", "admin123")]
    /\ Headers.Authorization (Request.headers sent) = None.
Proof.
  destruct (login_sends_credentials_once Demo.denying 1
              (new_SunapiClient Demo.cfg) Demo.at_start eq_refl ltac:(lia))
    as (out & c' & w' & sent & answer & Hl & Hw & _ & _ & Hb & Ha & _).
  exists out, c', w', sent, answer. repeat split; assumption.
Defined.

(** ** The pre-request authentication *)

Lemma ensureAuthenticated_cases device fuel c w :
  (isAuthenticated c (now w) = true ->
   ensureAuthenticated device fuel c w = Some (Return tt, c, w))
  /\ (isAuthenticated c (now w) = false ->
      ensureAuthenticated device fuel c w =
        match login device fuel c w with
        | None => None
        | Some (Return _, c', w') => Some (Return tt, c', w')
        | Some (Throw t, c', w') => Some (Throw t, c', w')
        end).
Proof.
  unfold ensureAuthenticated, bind, this, Date_now. simpl. split; intros ->.
  - reflexivity.
  - simpl.
    destruct (login device fuel c w) as [[[[result | t] c1] w1]|] eqn:Hl;
      [ | reflexivity | reflexivity].
    now rewrite (login_envelope_inv _ _ _ _ _ _ _ Hl).
Qed.

(** X3: [ensureAuthenticated()] does nothing at all, and sends nothing, when
    the client is authenticated; otherwise it is [login()]: it returns when
    the login returns and throws what the login throws. Its own
    'Failed to authenticate' error is never thrown. *)
Theorem ensureAuthenticated_is_login_when_needed :
  forall (device : Device) (fuel : nat) (c : SunapiClient) (w : World),
    (isAuthenticated c (now w) = true ->
     ensureAuthenticated device fuel c w = Some (Return tt, c, w))
    /\ (isAuthenticated c (now w) = false ->
        ensureAuthenticated device fuel c w =
          match login device fuel c w with
          | None => None
          | Some (Return _, c', w') => Some (Return tt, c', w')
          | Some (Throw t, c', w') => Some (Throw t, c', w')
          end).
Proof.
  intros device fuel c w.
  unfold ensureAuthenticated, bind, this, Date_now. simpl. split; intros ->.
  - reflexivity.
  - simpl.
    destruct (login device fuel c w) as [[[[result | t] c1] w1]|] eqn:Hl;
      [ | reflexivity | reflexivity].
    now rewrite (login_envelope_inv _ _ _ _ _ _ _ Hl).
Qed.

Lemma ensureAuthenticated_is_login_when_needed_witness :
  ensureAuthenticated Demo.unreachable 0 (Demo.session 5000) Demo.at_start
  = Some (Return tt, Demo.session 5000, Demo.at_start)
  /\ ensureAuthenticated Demo.denying 1 (Demo.session 500) Demo.at_start
     = match login Demo.denying 1 (Demo.session 500) Demo.at_start with
       | None => None
       | Some (Return _, c', w') => Some (Return tt, c', w')
       | Some (Throw t, c', w') => Some (Throw t, c', w')
       end.
Proof.
  split.
  - exact (proj1 (ensureAuthenticated_is_login_when_needed Demo.unreachable 0
                    (Demo.session 5000) Demo.at_start) eq_refl).
  - exact (proj2 (ensureAuthenticated_is_login_when_needed Demo.denying 1
                    (Demo.session 500) Demo.at_start) eq_refl).
Defined.

(** X4: after a login that was answered with [status] OK, and when the
    instant of the answer plus the lifetime in milliseconds is an instant a
    Date can hold, the client counts as authenticated at exactly the
    instants before it. When it is beyond the range of Date, the stored
    expiry is an Invalid Date and the client counts as authenticated at no
    instant. Right after the login the client is therefore authenticated
    only if the lifetime is positive and the expiry within range: a reply
    that declares a negative lifetime, or one of about 8.64e12 seconds or
    more, leaves the client unauthenticated although the login returned. *)
Theorem session_is_valid_until_expiry :
  forall (device : Device) (fuel : nat) (c : SunapiClient) (w : World)
         (response : AxiosResponse.t) (data : Payload.t)
         (c1 : SunapiClient) (w1 : World),
    axios_request device fuel (login_request (config c)) c w
    = Some (Return response, c1, w1) ->
    AxiosResponse.data response = Some data ->
    status_OK data = true ->
    exists env c',
      login device fuel c w = Some (Return env, c', w1)
      /\ (Z.abs (now w1 + session_lifetime data * 1000) <= max_time ->
          forall t, isAuthenticated c' t = true
                    <-> t < now w1 + session_lifetime data * 1000)
      /\ (max_time < Z.abs (now w1 + session_lifetime data * 1000) ->
          forall t, isAuthenticated c' t = false)
      /\ (isAuthenticated c' (now w1) = true
          <-> 0 < session_lifetime data
              /\ Z.abs (now w1 + session_lifetime data * 1000) <= max_time).
Proof.
  intros device fuel c w response data c1 w1 Hd Hdata Hok.
  unfold login. rewrite (login_with_settled _ _ _ _ _ _ Hd), Hdata, Hok.
  eexists. eexists. split; [reflexivity|].
  unfold isAuthenticated, stored_session.
  cbn [authToken AuthToken.expiresAt]. rewrite or_num_expires.
  split; [|split].
  - intros Hin t. rewrite (new_Date_in_range _ Hin). apply Z.ltb_lt.
  - intros Hout t. now rewrite (new_Date_out_of_range _ Hout).
  - destruct (Z_le_gt_dec (Z.abs (now w1 + session_lifetime data * 1000))
                max_time) as [Hin | Hout].
    + rewrite (new_Date_in_range _ Hin). cbn [later_than].
      rewrite Z.ltb_lt.
      clear Hd Hdata Hok. unfold max_time in *. lia.
    + rewrite (new_Date_out_of_range _ (Z.gt_lt _ _ Hout)). cbn [later_than].
      clear Hd Hdata Hok. unfold max_time in *. split; [discriminate | lia].
Qed.

Lemma session_is_valid_until_expiry_witness :
  (exists env c',
      login Demo.friendly 1 (new_SunapiClient Demo.cfg) Demo.at_start
      = Some (Return env, c',
              transmit Demo.at_start (login_request Demo.cfg)
                {| elapsed := 5;
                   settled := Demo.reply 200 (Demo.login_ok None) |})
      /\ (forall t, isAuthenticated c' t = true <-> t < 1005 + 3600 * 1000))
  /\ (exists env c',
      login endless_lifetime 1 (new_SunapiClient Demo.cfg) Demo.at_start
      = Some (Return env, c',
              transmit Demo.at_start (login_request Demo.cfg)
                {| elapsed := 5;
                   settled :=
                     Demo.reply 200 (Demo.login_ok (Some 10000000000000)) |})
      /\ (forall t, isAuthenticated c' t = false)).
Proof.
  split.
  - destruct (session_is_valid_until_expiry Demo.friendly 1
                (new_SunapiClient Demo.cfg) Demo.at_start
                _ (Demo.login_ok None) _ _ eq_refl eq_refl eq_refl)
      as (env & c' & Hl & Hvalid & _).
    exists env, c'. split; [exact Hl |].
    apply Hvalid. vm_compute. discriminate.
  - destruct (session_is_valid_until_expiry endless_lifetime 1
                (new_SunapiClient Demo.cfg) Demo.at_start
                _ (Demo.login_ok (Some 10000000000000)) _ _
                eq_refl eq_refl eq_refl)
      as (env & c' & Hl & _ & Hnever & _).
    exists env, c'. split; [exact Hl |].
    apply Hnever. vm_compute. reflexivity.
Defined.

(** ** What [request] throws and what it sends first *)

(** X5: [request] throws in one case only: the client was not authenticated
    and the login of the pre-request authentication threw. It then throws
    that same error, which is a classified SunapiError, and dispatches
    nothing further: client and world are as the login left them. *)
Theorem request_throws_only_the_login_failure :
  forall (device : Device) (fuel : nat) (method : Method) (endpoint : string)
         (data params : option Fields) (c : SunapiClient) (w : World)
         (t : Thrown) (c' : SunapiClient) (w' : World),
    (request device fuel method endpoint data params c w
     = Some (Throw t, c', w')
     <-> isAuthenticated c (now w) = false
         /\ login device fuel c w = Some (Throw t, c', w'))
    /\ (request device fuel method endpoint data params c w
        = Some (Throw t, c', w') -> exists e, t = ThrowSunapi e).
Proof.
  intros device fuel method endpoint data params c w t c' w'.
  assert (Hiff : request device fuel method endpoint data params c w
                 = Some (Throw t, c', w')
                 <-> isAuthenticated c (now w) = false
                     /\ login device fuel c w = Some (Throw t, c', w')).
  { destruct (ensureAuthenticated_cases device fuel c w)
      as [Hyes Hno].
    destruct (isAuthenticated c (now w)) eqn:Hauth.
    - specialize (Hyes eq_refl).
      rewrite (request_authenticated _ _ method endpoint data params _ _ _ _
                 Hyes).
      split.
      + destruct (axios_method device fuel method endpoint data params c w)
          as [[[[response | [e | e]] c2] w2]|]; discriminate.
      + intros [Hf _]. discriminate.
    - specialize (Hno eq_refl).
      destruct (login device fuel c w) as [[[[result | t0] c1] w1]|] eqn:Hl.
      + rewrite (request_authenticated _ _ method endpoint data params _ _ _ _
                   Hno).
        split.
        * destruct (axios_method device fuel method endpoint data params c1 w1)
            as [[[[response | [e | e]] c2] w2]|]; discriminate.
        * intros [_ Hf]. discriminate.
      + rewrite (request_unauthenticated _ _ method endpoint data params
                   _ _ _ _ _ Hno).
        split.
        * intro H. injection H as -> -> ->. split; reflexivity.
        * intros [_ H]. injection H as -> -> ->. reflexivity.
      + unfold request, bind at 1. rewrite Hno.
        split; [discriminate | intros [_ H]; discriminate]. }
  split; [exact Hiff|].
  intro H. apply Hiff in H. destruct H as [_ H].
  exact (login_throws_classified _ _ _ _ _ _ _ H).
Qed.

Lemma request_throws_only_the_login_failure_witness :
  request Demo.denying 1 GET "/stw-cgi/video.cgi" None None
    (new_SunapiClient Demo.cfg) Demo.at_start
  = Some (Throw (ThrowSunapi (new_AuthenticationError "Bad credentials")),
          new_SunapiClient Demo.cfg,
          transmit Demo.at_start (login_request Demo.cfg)
            {| elapsed := 5; settled := Demo.reply 200 Demo.login_denied |}).
Proof.
  apply (proj1 (request_throws_only_the_login_failure Demo.denying 1 GET
                  "/stw-cgi/video.cgi" None None
                  (new_SunapiClient Demo.cfg) Demo.at_start _ _ _)).
  split; reflexivity.
Defined.

Lemma axios_method_request device fuel method endpoint data params :
  axios_method device fuel method endpoint data params
  = axios_request device fuel
      {| Request.method := method; Request.url := endpoint;
         Request.body := method_body method data; Request.params := params;
         Request.headers := Headers.none |}.
Proof. destruct method; reflexivity. Qed.

Lemma request_first_sent device fuel method endpoint data params c w res c' w' :
  request device fuel method endpoint data params c w = Some (res, c', w') ->
  exists answer more,
    wire w'
    = (wire w
         ++ (request_interceptor c (now w)
               (if isAuthenticated c (now w)
                then {| Request.method := method; Request.url := endpoint;
                        Request.body := method_body method data;
                        Request.params := params;
                        Request.headers := Headers.none |}
                else login_request (config c)), answer) :: more)%list.
Proof.
  intro H.
  destruct (ensureAuthenticated_cases device fuel c w)
    as [Hyes Hno].
  destruct (isAuthenticated c (now w)) eqn:Hauth.
  - specialize (Hyes eq_refl).
    rewrite (request_authenticated _ _ method endpoint data params _ _ _ _ Hyes),
      axios_method_request in H.
    destruct (axios_request device fuel _ c w)
      as [[[out c2] w2]|] eqn:Hd; [|discriminate].
    apply axios_request_first_sent in Hd.
    destruct Hd as (answer & more & Hw). exists answer, more.
    destruct out as [response | [e | e]]; injection H as _ _ <-; exact Hw.
  - specialize (Hno eq_refl).
    destruct (login device fuel c w) as [[[out c1] w1]|] eqn:Hl.
    + pose proof Hl as Hl'. apply login_with_inv in Hl'.
      destruct Hl' as (out0 & c0 & Hd & _).
      apply axios_request_first_sent in Hd.
      destruct Hd as (answer & more & Hw).
      destruct out as [result | t].
      * rewrite (request_authenticated _ _ method endpoint data params _ _ _ _
                   Hno), axios_method_request in H.
        destruct (axios_request device fuel _ c1 w1)
          as [[[out2 c2] w2]|] eqn:Hd2; [|discriminate].
        apply axios_request_wire in Hd2. destruct Hd2 as [more2 Hw2].
        exists answer, (more ++ more2)%list.
        destruct out2 as [response | [e | e]]; injection H as _ _ <-;
          rewrite Hw2, Hw, <- app_assoc; reflexivity.
      * rewrite (request_unauthenticated _ _ method endpoint data params
                   _ _ _ _ _ Hno) in H.
        injection H as _ _ <-. exists answer, more. exact Hw.
    + unfold request, bind at 1 in H. rewrite Hno in H. discriminate.
Qed.

(** X6: a [request] on an authenticated client sends the call itself first,
    not a login: the first request it puts on the wire has the method, the
    endpoint and the query parameters of the call, the body of the call for
    POST and PUT and no body for GET and DELETE, and carries the held token
    as bearer credential. *)
Theorem authenticated_request_is_sent_directly :
  forall (device : Device) (fuel : nat) (method : Method) (endpoint : string)
         (data params : option Fields) (c : SunapiClient) (w : World)
         res c' w',
    isAuthenticated c (now w) = true ->
    request device fuel method endpoint data params c w = Some (res, c', w') ->
    exists sent answer more tok,
      wire w' = (wire w ++ (sent, answer) :: more)%list
      /\ Request.method sent = method
      /\ Request.url sent = endpoint
      /\ Request.params sent = params
      /\ Request.body sent = method_body method data
      /\ authToken c = Some tok
      /\ Headers.Authorization (Request.headers sent)
         = Some ("Bearer " ++ interpolate (AuthToken.token tok))%string.
Proof.
  intros device fuel method endpoint data params c w res c' w' Hauth H.
  apply request_first_sent in H. rewrite Hauth in H.
  destruct H as (answer & more & Hw).
  unfold isAuthenticated in Hauth.
  destruct (authToken c) as [tok|] eqn:Htok; [|discriminate].
  eexists. exists answer, more, tok. split; [exact Hw|].
  unfold request_interceptor. simpl. rewrite Htok, Hauth. repeat split.
Qed.

Lemma authenticated_request_is_sent_directly_witness :
  exists sent answer more tok,
    wire (transmit Demo.at_start
            (request_interceptor (Demo.session 5000) 1000
               {| Request.method := POST; Request.url := "/stw-cgi/ptz.cgi";
                  Request.body := Some [("channel", "1")];
                  Request.params := None; Request.headers := Headers.none |})
            {| elapsed := 5; settled := Demo.reply 200 Payload.empty |})
    = (wire Demo.at_start ++ (sent, answer) :: more)%list
    /\ Request.url sent = "/stw-cgi/ptz.cgi"%string
    /\ Request.body sent = Some [("channel", "1")]
    /\ authToken (Demo.session 5000) = Some tok
    /\ Headers.Authorization (Request.headers sent) = Some "Bearer tok-0".
Proof.
  destruct (authenticated_request_is_sent_directly Demo.friendly 1 POST
              "/stw-cgi/ptz.cgi" (Some [("channel", "1")]) None
              (Demo.session 5000) Demo.at_start _ _ _ eq_refl eq_refl)
    as (sent & answer & more & tok & Hw & _ & Hu & _ & Hb & Ht & Ha).
  exists sent, answer, more, tok. repeat split; try assumption.
  rewrite Ha. simpl in Ht. injection Ht as <-. reflexivity.
Defined.

(** X7: a [request] on a client that is not authenticated, because it holds
    no token or because its token has expired, sends the login first: the
    first request it puts on the wire is the POST of the credentials to
    /stw-cgi/system.cgi, and it carries no Authorization header. *)
Theorem unauthenticated_request_logs_in_first :
  forall (device : Device) (fuel : nat) (method : Method) (endpoint : string)
         (data params : option Fields) (c : SunapiClient) (w : World)
         res c' w',
    isAuthenticated c (now w) = false ->
    request device fuel method endpoint data params c w = Some (res, c', w') ->
    exists sent answer more,
      wire w' = (wire w ++ (sent, answer) :: more)%list
      /\ Request.method sent = POST
      /\ Request.url sent = "/stw-cgi/system.cgi"%string
      /\ Request.body sent
         = Some [("msubmenu", "userlogin"); ("action", "login");
                 ("user", username (config c)); ("pass", password (config c))]
      /\ Headers.Authorization (Request.headers sent) = None.
Proof.
  intros device fuel method endpoint data params c w res c' w' Hauth H.
  apply request_first_sent in H. rewrite Hauth in H.
  destruct H as (answer & more & Hw).
  eexists. exists answer, more. split; [exact Hw|].
  unfold request_interceptor. simpl. repeat split.
  unfold isAuthenticated in Hauth.
  destruct (authToken c) as [tok|]; [|reflexivity]. now rewrite Hauth.
Qed.

Lemma unauthenticated_request_logs_in_first_witness :
  exists res c' w' sent answer more,
    request Demo.friendly 1 GET "/stw-cgi/video.cgi" None None
      (Demo.session 500) Demo.at_start = Some (res, c', w')
    /\ wire w' = (wire Demo.at_start ++ (sent, answer) :: more)%list
    /\ Request.url sent = "/stw-cgi/system.cgi"%string
    /\ Headers.Authorization (Request.headers sent) = None.
Proof.
  eexists. eexists. eexists.
  assert (Hrun : request Demo.friendly 1 GET "/stw-cgi/video.cgi" None None
                   (Demo.session 500) Demo.at_start
                 = Some (Return (success_envelope
                                   {| AxiosResponse.status := 200;
                                      AxiosResponse.data := Some Payload.empty |}),
                         stored_session (Demo.session 500) 1005
                           (Demo.login_ok None),
                         transmit
                           (transmit Demo.at_start
                              (request_interceptor (Demo.session 500) 1000
                                 (login_request Demo.cfg))
                              {| elapsed := 5;
                                 settled := Demo.reply 200 (Demo.login_ok None) |})
                           (request_interceptor
                              (stored_session (Demo.session 500) 1005
                                 (Demo.login_ok None)) 1005
                              {| Request.method := GET;
                                 Request.url := "/stw-cgi/video.cgi";
                                 Request.body := None; Request.params := None;
                                 Request.headers := Headers.none |})
                           {| elapsed := 5;
                              settled := Demo.reply 200 Payload.empty |}))
    by (vm_compute; reflexivity).
  destruct (unauthenticated_request_logs_in_first Demo.friendly 1 GET
              "/stw-cgi/video.cgi" None None (Demo.session 500) Demo.at_start
              _ _ _ eq_refl Hrun)
    as (sent & answer & more & Hw & _ & Hu & _ & Ha).
  exists sent, answer, more. split; [exact Hrun|].
  repeat split; assumption.
Defined.

(** ** Logout, once and again *)

Lemma logout_tokenless device fuel c w :
  has_token c = false ->
  logout device fuel c w = Some (Return ok_envelope, c, w).
Proof.
  intro Htok. unfold logout, try_catch, bind, this. now rewrite Htok.
Qed.

(** X8: [logout()] on a client that holds no token is purely local: it
    reports success without sending anything and without touching the
    client, whatever the device would answer. On a client that holds a
    token, the first request it sends is the POST of the logout
    notification. *)
Theorem logout_notifies_only_with_token :
  forall (device : Device) (fuel : nat) (c : SunapiClient) (w : World),
    (has_token c = false ->
     logout device fuel c w = Some (Return ok_envelope, c, w))
    /\ (has_token c = true ->
        forall res c' w',
          logout device fuel c w = Some (res, c', w') ->
          exists answer more,
            wire w'
            = (wire w
                 ++ (request_interceptor c (now w) logout_request, answer)
                    :: more)%list).
Proof.
  intros device fuel c w.
  unfold logout, try_catch, bind, this, axios_post. split; intros ->; simpl.
  - reflexivity.
  - intros res c' w' H. fold logout_request in H.
    destruct (axios_request device fuel logout_request c w)
      as [[[out c1] w1]|] eqn:Hd; [|discriminate].
    apply axios_request_first_sent in Hd.
    destruct out as [r | t]; simpl in H; injection H as _ _ <-; exact Hd.
Qed.

Lemma logout_notifies_only_with_token_witness :
  logout Demo.unreachable 0 (new_SunapiClient Demo.cfg) Demo.at_start
  = Some (Return ok_envelope, new_SunapiClient Demo.cfg, Demo.at_start)
  /\ exists answer more,
       wire (transmit Demo.at_start
               (request_interceptor (Demo.session 5000) 1000 logout_request)
               {| elapsed := 5; settled := Demo.refused |})
       = (wire Demo.at_start
            ++ (request_interceptor (Demo.session 5000) 1000 logout_request,
                answer) :: more)%list.
Proof.
  split.
  - exact (proj1 (logout_notifies_only_with_token Demo.unreachable 0
                    (new_SunapiClient Demo.cfg) Demo.at_start) eq_refl).
  - exact (proj2 (logout_notifies_only_with_token Demo.unreachable 1
                    (Demo.session 5000) Demo.at_start) eq_refl
             _ _ _ eq_refl).
Defined.

(** X9: after [logout()] the client is unauthenticated at every instant, its
    configuration is unchanged, and a second [logout()] is a no-op: it
    reports success, sends nothing and changes nothing. *)
Theorem logout_is_idempotent :
  forall (device : Device) (fuel fuel' : nat) (c : SunapiClient) (w : World)
         res c' w',
    logout device fuel c w = Some (res, c', w') ->
    (forall t, isAuthenticated c' t = false)
    /\ config c' = config c
    /\ logout device fuel' c' w' = Some (Return ok_envelope, c', w').
Proof.
  intros device fuel fuel' c w res c' w' H.
  apply logout_inv in H.
  destruct H as (_ & Hcfg & Hcases).
  assert (Hnone : authToken c' = None).
  { destruct Hcases as [(_ & Ha & _) | (Htok & -> & _)];
      [exact Ha | exact (no_token _ Htok)]. }
  split; [|split].
  - intro t. unfold isAuthenticated. now rewrite Hnone.
  - exact Hcfg.
  - apply logout_tokenless. unfold has_token. now rewrite Hnone.
Qed.

Lemma logout_is_idempotent_witness :
  exists res c' w',
    logout Demo.friendly 1 (Demo.session 5000) Demo.at_start
    = Some (res, c', w')
    /\ isAuthenticated c' 1005 = false
    /\ logout Demo.friendly 1 c' w' = Some (Return ok_envelope, c', w').
Proof.
  eexists. eexists. eexists. split; [vm_compute; reflexivity|].
  destruct (logout_is_idempotent Demo.friendly 1 1 (Demo.session 5000)
              Demo.at_start _ _ _ eq_refl) as (Hauth & _ & Hagain).
  split; [apply Hauth | exact Hagain].
Defined.

(** ** The health check *)

Lemma request_interceptor_same_call c t cfg :
  same_call (request_interceptor c t cfg) cfg.
Proof. repeat split. Qed.

Lemma same_call_trans a b c : same_call a b -> same_call b c -> same_call a c.
Proof.
  intros (H1 & H2 & H3 & H4) (K1 & K2 & K3 & K4).
  repeat split; congruence.
Qed.

Lemma login_config device fuel c w res c' w' :
  login device fuel c w = Some (res, c', w') -> config c' = config c.
Proof.
  apply (login_rely device
           (fun s s' => config (fst s') = config (fst s))); simpl;
    try reflexivity.
  intros s1 s2 s3 H12 H23. congruence.
Qed.

(** The last exchange of a call of the pipeline decides its outcome: a call
    that returns a response returns the answer to its own request, sent
    first or as a retry; a call that throws ends on a rejection, or on the
    answer to a login that did not succeed. *)
Lemma axios_request_last device fuel :
  forall cfg c w out c' w',
    axios_request device fuel cfg c w = Some (out, c', w') ->
    exists before sent answer,
      wire w' = (wire w ++ before ++ [(sent, answer)])%list
      /\ match out with
         | Return response =>
             answer = Fulfilled response /\ same_call sent cfg
         | Throw _ =>
             (exists e, answer = Rejected e)
             \/ same_call sent (login_request (config c))
         end.
Proof.
  induction fuel as [|fuel IH]; intros cfg c w out c' w' H; [discriminate|].
  rewrite axios_request_step in H. cbv zeta in H.
  set (sent := request_interceptor c (now w) cfg) in *.
  set (x := device (List.length (wire w)) sent) in *.
  assert (Hw1 : wire (transmit w sent x) = (wire w ++ [(sent, settled x)])%list)
    by reflexivity.
  destruct (settled x) as [response | error] eqn:Hs.
  - injection H as <- <- <-.
    exists [], sent, (Fulfilled response). split; [exact Hw1|].
    split; [reflexivity | apply request_interceptor_same_call].
  - destruct (status_is_401 error && has_token c).
    + destruct (login device fuel c (note_relogin (transmit w sent x)))
        as [[[res c2] w2]|] eqn:Hl; [|discriminate].
      destruct res as [env | t].
      * destruct (login_wire _ _ _ _ _ _ _ Hl) as [more Hmore].
        pose proof (login_config _ _ _ _ _ _ _ Hl) as Hcfg.
        apply IH in H.
        destruct H as (before & sent' & answer & Hw' & Hout).
        exists ((sent, Rejected error) :: more ++ before)%list, sent', answer.
        split.
        { rewrite Hw'. change (wire (note_retry w2)) with (wire w2).
          rewrite Hmore.
          change (wire (note_relogin (transmit w sent x)))
            with (wire (transmit w sent x)).
          rewrite Hw1, <- ?app_assoc. cbn [app]. rewrite <- ?app_assoc.
          reflexivity. }
        destruct out as [response | t].
        { destruct Hout as [Ha Hsame]. split; [exact Ha|].
          eapply same_call_trans; [exact Hsame|].
          apply request_interceptor_same_call. }
        { rewrite Hcfg in Hout. exact Hout. }
      * injection H as <- <- <-.
        unfold login in Hl.
        destruct (axios_request device fuel (login_request (config c)) c
                    (note_relogin (transmit w sent x)))
          as [[[out1 c1] w1]|] eqn:Hpost.
        2:{ rewrite (login_with_unsettled _ _ _ Hpost) in Hl. discriminate. }
        pose proof (login_with_settled _ _ _ _ _ _ Hpost) as Hlw.
        rewrite Hlw in Hl.
        apply IH in Hpost.
        destruct Hpost as (before & sent' & answer & Hw' & Hout).
        assert (Hw2 : w2 = w1).
        { destruct out1 as [response | [e | e]].
          - destruct (AxiosResponse.data response) as [d|].
            + destruct (status_OK d); [discriminate|].
              now injection Hl as _ _ <-.
            + now injection Hl as _ _ <-.
          - now injection Hl as _ _ <-.
          - now injection Hl as _ _ <-. }
        subst w2.
        exists ((sent, Rejected error) :: before)%list, sent', answer.
        split.
        { rewrite Hw'.
          change (wire (note_relogin (transmit w sent x)))
            with (wire (transmit w sent x)).
          rewrite Hw1, <- ?app_assoc. cbn [app]. rewrite <- ?app_assoc.
          reflexivity. }
        destruct out1 as [response | t1].
        { right. exact (proj2 Hout). }
        { exact Hout. }
    + injection H as <- <- <-.
      exists [], sent, (Rejected error). split; [exact Hw1|].
      left. eexists. reflexivity.
Qed.

Lemma last_exchange_unique {A} (l1 l2 : list A) (a b : A) :
  (l1 ++ [a])%list = (l2 ++ [b])%list -> a = b.
Proof. intro H. apply app_inj_tail in H. tauto. Qed.

(** X10: [ping()] never throws and never logs in beforehand. The first
    request it sends is the GET of the device-info endpoint, whether or not
    the client is authenticated. Its envelope is decided by the last
    exchange on the wire. When that is the GET, sent first or as the retry
    after a 401, answered with a response, the envelope reports success and
    [alive], with the status code of that response. When the last answer is
    a rejection, or the last exchange is the POST of a re-login that did not
    succeed, the envelope reports failure, not [alive], the error 'Device
    unreachable' and no status code. It settles as soon as the device stops
    answering 401. *)
Theorem ping_reports_alive_or_unreachable :
  forall (device : Device) (fuel : nat) (c : SunapiClient) (w : World),
    (forall res c' w',
        ping device fuel c w = Some (res, c', w') ->
        (exists answer more,
            wire w'
            = (wire w ++ (request_interceptor c (now w) ping_request, answer)
                         :: more)%list)
        /\ (forall before sent answer,
              wire w' = (before ++ [(sent, answer)])%list ->
              res = Return (ping_outcome sent answer)
              /\ (Envelope.success (ping_outcome sent answer) = true ->
                  exists response,
                    answer = Fulfilled response
                    /\ same_call sent ping_request)))
    /\ (forall n, quiet_from device n -> (n < fuel)%nat ->
          exists out, ping device fuel c w = Some out).
Proof.
  intros device fuel c w. unfold ping, try_catch, bind, axios_get.
  fold ping_request. split.
  - intros res c' w' H.
    destruct (axios_request device fuel ping_request c w)
      as [[[out c1] w1]|] eqn:Hd; [|discriminate].
    pose proof (axios_request_first_sent _ _ _ _ _ _ _ _ Hd) as Hfirst.
    apply axios_request_last in Hd.
    destruct Hd as (before0 & sent0 & answer0 & Hw & Hout).
    assert (Hres : res = Return (ping_outcome sent0 answer0)
                   /\ (Envelope.success (ping_outcome sent0 answer0) = true ->
                       exists response,
                         answer0 = Fulfilled response
                         /\ same_call sent0 ping_request)
                   /\ w' = w1).
    { destruct out as [r | t]; simpl in H; injection H as <- _ <-.
      - destruct Hout as [-> Hsame]. unfold ping_outcome.
        rewrite (proj1 Hsame). cbn [Request.method ping_request].
        split; [reflexivity|]. split; [|reflexivity].
        intros _. exists r. split; [reflexivity | exact Hsame].
      - destruct Hout as [[e ->] | Hsame].
        + split; [reflexivity|]. split; [discriminate | reflexivity].
        + unfold ping_outcome. rewrite (proj1 Hsame).
          cbn [Request.method login_request].
          destruct answer0; (split; [reflexivity|]);
            (split; [discriminate | reflexivity]). }
    destruct Hres as (Hres & Hsucc & ->).
    split; [exact Hfirst|].
    intros before sent answer Hw'.
    rewrite Hw, app_assoc in Hw'.
    apply last_exchange_unique in Hw'. injection Hw' as <- <-.
    split; [exact Hres | exact Hsucc].
  - intros n Hq Hn.
    destruct (axios_request_settles device n Hq fuel ping_request c w)
      as [[[[r | t] c1] w1] ->]; [lia | lia | | ]; simpl; eexists; reflexivity.
Qed.

Lemma ping_reports_alive_or_unreachable_witness :
  (exists c' w',
      ping Demo.friendly 1 (Demo.session 5000) Demo.at_start
      = Some (Return {| Envelope.success := true;
                        Envelope.data := Some {| alive := true |};
                        Envelope.error := None;
                        Envelope.statusCode := Some 200 |}, c', w'))
  /\ (exists c' w',
         ping Demo.unreachable 1 (new_SunapiClient Demo.cfg) Demo.at_start
         = Some (Return {| Envelope.success := false;
                           Envelope.data := Some {| alive := false |};
                           Envelope.error := Some "Device unreachable";
                           Envelope.statusCode := None |}, c', w')).
Proof.
  split.
  - destruct (ping_reports_alive_or_unreachable Demo.friendly 1
                (Demo.session 5000) Demo.at_start) as [Hres Hsettles].
    assert (Hq : quiet_from Demo.friendly 0).
    { intros k req _. unfold Demo.friendly, Demo.answering. cbn [settled].
      destruct (Demo.is_login req); reflexivity. }
    destruct (Hsettles 0%nat Hq ltac:(lia)) as [[[res c'] w'] H].
    assert (Hw : wire w'
                 = ([] ++ [(request_interceptor (Demo.session 5000) 1000
                              ping_request,
                            Demo.reply 200 Payload.empty)])%list).
    { pose proof H as Hc. vm_compute in Hc. injection Hc as _ _ <-.
      reflexivity. }
    destruct (proj2 (Hres _ _ _ H) _ _ _ Hw) as [-> _].
    exists c', w'. exact H.
  - destruct (ping_reports_alive_or_unreachable Demo.unreachable 1
                (new_SunapiClient Demo.cfg) Demo.at_start) as [Hres Hsettles].
    destruct (Hsettles 0%nat (fun k req _ => eq_refl) ltac:(lia))
      as [[[res c'] w'] H].
    assert (Hw : wire w'
                 = ([] ++ [(request_interceptor (new_SunapiClient Demo.cfg)
                              1000 ping_request,
                            Demo.refused)])%list).
    { pose proof H as Hc. vm_compute in Hc. injection Hc as _ _ <-.
      reflexivity. }
    destruct (proj2 (Hres _ _ _ H) _ _ _ Hw) as [-> _].
    exists c', w'. exact H.
Defined.

(** ** The request interceptor *)

(** X11: the request interceptor changes nothing of a request but its two
    headers, never removes a header the request already carries, and is
    idempotent: a request that went through it, as a retried request has,
    comes out unchanged when it goes through it again in the same state. *)
Theorem request_interceptor_only_adds_headers :
  forall (c : SunapiClient) (t : Z) (cfg : Request.t),
    let sent := request_interceptor c t cfg in
    Request.method sent = Request.method cfg
    /\ Request.url sent = Request.url cfg
    /\ Request.body sent = Request.body cfg
    /\ Request.params sent = Request.params cfg
    /\ (Headers.Authorization (Request.headers cfg) <> None ->
        Headers.Authorization (Request.headers sent) <> None)
    /\ (Headers.X_Session_ID (Request.headers cfg) <> None ->
        Headers.X_Session_ID (Request.headers sent) <> None)
    /\ request_interceptor c t sent = sent.
Proof.
  intros c t cfg sent. subst sent. unfold request_interceptor. simpl.
  repeat split.
  - destruct (authToken c) as [tok|]; [|auto].
    destruct (later_than (AuthToken.expiresAt tok) t); [discriminate | auto].
  - destruct (sessionId c) as [sid|]; simpl; [|auto].
    destruct (String.eqb sid ""); simpl; [auto | discriminate].
  - f_equal. f_equal.
    + destruct (authToken c) as [tok|]; [|reflexivity].
      destruct (later_than (AuthToken.expiresAt tok) t); reflexivity.
    + destruct (truthy_str (sessionId c)); reflexivity.
Qed.

Lemma request_interceptor_only_adds_headers_witness :
  Headers.X_Session_ID
    (Request.headers
       (request_interceptor (new_SunapiClient Demo.cfg) 0
          (request_interceptor (Demo.session 5000) 0 Demo.probe))) <> None.
Proof.
  refine (proj1 (proj2 (proj2 (proj2 (proj2 (proj2
            (request_interceptor_only_adds_headers (new_SunapiClient Demo.cfg) 0
               (request_interceptor (Demo.session 5000) 0 Demo.probe)))))))
            _).
  discriminate.
Defined.

(** ** The error classifier, the remaining cases *)

(** X12: [handleError] gives an error without status code in one case only:
    the failure is no connection failure and carries no response, as a
    timeout does. The error is then a generic SunapiError with the message
    of the transport error. A connection failure is classified as such even
    when a response is attached, and its message names the configured host
    and port. *)
Theorem handleError_without_status :
  forall (cfg : SunapiConfig) (e : AxiosError.t),
    let err := handleError cfg e in
    (SunapiError.statusCode err = None
     <-> ~ connection_failure e /\ AxiosError.response e = None)
    /\ (SunapiError.statusCode err = None ->
        SunapiError.name err = SunapiErrorC
        /\ SunapiError.message err = AxiosError.message e)
    /\ (connection_failure e ->
        err = new_ConnectionError
                ("Cannot connect to " ++ host cfg ++ ":" ++ show_Z (port cfg))).
Proof.
  intros cfg e err. subst err. unfold handleError.
  destruct (is_connection_code (AxiosError.code e)) eqn:Hc.
  - apply is_connection_code_spec in Hc.
    split; [|split].
    + split; [discriminate|]. intros [Hn _]. contradiction.
    + discriminate.
    + reflexivity.
  - assert (Hn : ~ connection_failure e).
    { intro H. apply is_connection_code_spec in H. congruence. }
    destruct (AxiosError.response e) as [r|].
    + destruct (AxiosResponse.status r =? 401); simpl.
      * split; [|split]; [|discriminate|contradiction].
        split; [discriminate|]. intros [_ H]. discriminate.
      * split; [|split]; [|discriminate|contradiction].
        split; [discriminate|]. intros [_ H]. discriminate.
    + simpl. split; [|split].
      * split; [auto | reflexivity].
      * auto.
      * contradiction.
Qed.

Lemma handleError_without_status_witness :
  handleError Demo.cfg Demo.not_found
  = new_ConnectionError "Cannot connect to 192.168.1.100:80".
Proof.
  refine (proj2 (proj2 (handleError_without_status Demo.cfg Demo.not_found)) _).
  right. reflexivity.
Defined.

(** ** What the public methods keep *)

Lemma kept_refl s : kept s s.
Proof.
  repeat split; auto. exists []. now rewrite app_nil_r.
Qed.

Lemma kept_trans s1 s2 s3 : kept s1 s2 -> kept s2 s3 -> kept s1 s3.
Proof.
  intros (Hc1 & Ht1 & [m1 Hw1] & Hr1 & Hy1) (Hc2 & Ht2 & [m2 Hw2] & Hr2 & Hy2).
  repeat split.
  - congruence.
  - auto.
  - exists (m1 ++ m2)%list. now rewrite Hw2, Hw1, app_assoc.
  - lia.
  - lia.
Qed.

Lemma axios_request_kept device fuel cfg c w res c' w' :
  axios_request device fuel cfg c w = Some (res, c', w') ->
  kept (c, w) (c', w').
Proof.
  apply (axios_request_rely device kept).
  - exact kept_trans.
  - intros. repeat split; simpl; auto. eexists. reflexivity.
  - intros. repeat split; simpl; auto. exists []. now rewrite app_nil_r.
  - intros. repeat split; simpl; auto. exists []. now rewrite app_nil_r.
  - intros. repeat split; simpl; auto. exists []. now rewrite app_nil_r.
Qed.

Lemma login_kept device fuel c w res c' w' :
  login device fuel c w = Some (res, c', w') -> kept (c, w) (c', w').
Proof.
  apply (login_rely device kept).
  - exact kept_trans.
  - intros. repeat split; simpl; auto. eexists. reflexivity.
  - intros. repeat split; simpl; auto. exists []. now rewrite app_nil_r.
  - intros. repeat split; simpl; auto. exists []. now rewrite app_nil_r.
  - intros. repeat split; simpl; auto. exists []. now rewrite app_nil_r.
Qed.

(** X13: [request] never changes the configuration of the client, never
    drops a token the client holds (not even when a re-login fails), and
    only ever adds to what has been sent: the requests already on the wire
    stay as they are. *)
Theorem request_keeps_config_and_token :
  forall (device : Device) (fuel : nat) (method : Method) (endpoint : string)
         (data params : option Fields) (c : SunapiClient) (w : World)
         res c' w',
    request device fuel method endpoint data params c w = Some (res, c', w') ->
    config c' = config c
    /\ (has_token c = true -> has_token c' = true)
    /\ (exists more, wire w' = (wire w ++ more)%list).
Proof.
  intros device fuel method endpoint data params c w res c' w' H.
  assert (Hk : kept (c, w) (c', w')).
  { destruct (ensureAuthenticated_cases device fuel c w)
      as [Hyes Hno].
    assert (Hpre : forall out c1 w1,
               ensureAuthenticated device fuel c w = Some (out, c1, w1) ->
               kept (c, w) (c1, w1)).
    { intros out c1 w1 Ha.
      destruct (isAuthenticated c (now w)).
      - rewrite (Hyes eq_refl) in Ha. injection Ha as _ <- <-. apply kept_refl.
      - rewrite (Hno eq_refl) in Ha.
        destruct (login device fuel c w) as [[[[result | t] c0] w0]|] eqn:Hl;
          [ | | discriminate]; injection Ha as _ <- <-;
          exact (login_kept _ _ _ _ _ _ _ Hl). }
    destruct (ensureAuthenticated device fuel c w)
      as [[[[[] | t] c1] w1]|] eqn:Ha.
    - rewrite (request_authenticated _ _ method endpoint data params _ _ _ _ Ha),
        axios_method_request in H.
      destruct (axios_request device fuel _ c1 w1)
        as [[[out c2] w2]|] eqn:Hd; [|discriminate].
      apply axios_request_kept in Hd.
      eapply kept_trans; [exact (Hpre _ _ _ eq_refl)|].
      destruct out as [response | [e | e]]; injection H as _ <- <-; exact Hd.
    - rewrite (request_unauthenticated _ _ method endpoint data params
                 _ _ _ _ _ Ha) in H.
      injection H as _ <- <-. exact (Hpre _ _ _ eq_refl).
    - unfold request, bind at 1 in H. rewrite Ha in H. discriminate. }
  destruct Hk as (Hc & Ht & Hw & _). simpl in *. repeat split; assumption.
Qed.

Lemma request_keeps_config_and_token_witness :
  exists res c' w',
    request Demo.twice_unauthorized 5 GET "/stw-cgi/video.cgi" None None
      (Demo.session 5000) Demo.at_start = Some (res, c', w')
    /\ config c' = Demo.cfg
    /\ has_token c' = true.
Proof.
  eexists. eexists. eexists. split; [vm_compute; reflexivity|].
  destruct (request_keeps_config_and_token Demo.twice_unauthorized 5 GET
              "/stw-cgi/video.cgi" None None (Demo.session 5000) Demo.at_start
              _ _ _ eq_refl) as (Hc & Ht & _).
  split; [exact Hc | exact (Ht eq_refl)].
Defined.

(** X14: in every state a client object gets into through [login],
    [logout], [request] and [ping], and through the assignments that
    [connect()] and [disconnect()] make to a module, a session id is held
    only together with a token. *)
Theorem session_id_only_with_token :
  forall (device : Device) (c : SunapiClient),
    reachable device c -> authToken c = None -> sessionId c = None.
Proof.
  intros device c Hr.
  induction Hr as [cfg | fuel c w res c' w' _ IH H | fuel c w res c' w' _ IH H
                  | fuel method endpoint data params c w res c' w' _ IH H
                  | fuel c w res c' w' _ IH H | c tok sid _ _ | c _ _].
  - reflexivity.
  - exact (login_wf _ _ _ _ _ _ _ H IH).
  - exact (logout_wf _ _ _ _ _ _ _ H IH).
  - exact (request_wf _ _ _ _ _ _ _ _ _ _ _ H IH).
  - exact (ping_wf _ _ _ _ _ _ _ H IH).
  - discriminate.
  - reflexivity.
Qed.

Lemma session_id_only_with_token_witness :
  sessionId {| config := Demo.cfg; authToken := None; sessionId := None |}
  = None.
Proof.
  apply (session_id_only_with_token Demo.friendly).
  - apply (reach_logout Demo.friendly 1
             (stored_session (new_SunapiClient Demo.cfg) 1005
                (Demo.login_ok None))
             Demo.at_start (Return ok_envelope) _
             (transmit Demo.at_start
                (request_interceptor
                   (stored_session (new_SunapiClient Demo.cfg) 1005
                      (Demo.login_ok None)) 1000 logout_request)
                {| elapsed := 5; settled := Demo.reply 200 Payload.empty |})).
    + apply (reach_login Demo.friendly 1 (new_SunapiClient Demo.cfg)
               Demo.at_start (Return (login_envelope (Demo.login_ok None))) _
               (transmit Demo.at_start (login_request Demo.cfg)
                  {| elapsed := 5;
                     settled := Demo.reply 200 (Demo.login_ok None) |})).
      * apply reach_new.
      * reflexivity.
    + reflexivity.
  - reflexivity.
Defined.

(** * Further properties of the aggregate client *)

(** X15: [connect()] throws exactly what the login of the aggregate throws,
    a classified SunapiError, and then leaves the five modules as they
    were; its own 'Failed to connect' error is never thrown. When it
    returns, the aggregate holds a token. *)
Theorem connect_fails_as_login_fails :
  forall (device : Device) (fuel : nat) (s : Sunapi) (w : World)
         res s' w',
    connect device fuel s w = Some (res, s', w') ->
    match res with
    | Throw t =>
        login device fuel (self s) w = Some (Throw t, self s', w')
        /\ (exists e, t = ThrowSunapi e)
        /\ modules s' = modules s
    | Return _ => has_token (self s') = true
    end.
Proof.
  intros device fuel s w res s' w' H. unfold connect in H.
  destruct (login device fuel (self s) w) as [[[[result | t] c] w1]|] eqn:Hl;
    [ | | discriminate].
  - rewrite (login_envelope_inv _ _ _ _ _ _ _ Hl) in H. simpl in H.
    assert (Htok : has_token c = true).
    { apply login_with_inv in Hl.
      destruct Hl as (out & c1 & _ & [(response & data & _ & _ & _ & _ & ->)
                                     | (e & Habs & _)]);
        [reflexivity | discriminate]. }
    destruct (has_token c && truthy_str (sessionId c));
      injection H as <- <- <-; exact Htok.
  - injection H as <- <- <-. simpl.
    split; [reflexivity|]. split; [|reflexivity].
    exact (login_throws_classified _ _ _ _ _ _ _ Hl).
Qed.

Lemma connect_fails_as_login_fails_witness :
  exists s' w',
    connect Demo.denying 1 (new_Sunapi Demo.cfg) Demo.at_start
    = Some (Throw (ThrowSunapi (new_AuthenticationError "Bad credentials")),
            s', w')
    /\ modules s' = modules (new_Sunapi Demo.cfg).
Proof.
  eexists. eexists. split; [vm_compute; reflexivity|].
  exact (proj2 (proj2 (connect_fails_as_login_fails Demo.denying 1
                         (new_Sunapi Demo.cfg) Demo.at_start _ _ _ eq_refl))).
Defined.

Lemma connect_aggregate_token device fuel s w s' w' :
  connect device fuel s w = Some (Return tt, s', w') ->
  has_token (self s') = true.
Proof.
  intro H. unfold connect in H.
  destruct (login device fuel (self s) w) as [[[[result | t] c] w1]|] eqn:Hl;
    [ | discriminate | discriminate].
  assert (Htok : has_token c = true).
  { apply login_with_inv in Hl.
    destruct Hl as (out & c1 & _ & [(response & data & _ & _ & _ & _ & ->)
                                   | (e & Habs & _)]);
      [reflexivity | discriminate]. }
  destruct (negb (Envelope.success result)); [discriminate|].
  destruct (has_token c && truthy_str (sessionId c));
    injection H as <- <-; exact Htok.
Qed.

(** X16: when the login reply carries no session id, or an empty one,
    [connect()] still returns normally and the aggregate holds the token,
    but nothing is shared: the five modules are left as they were, so a
    module that held no token still holds none. *)
Theorem connect_without_session_id_shares_nothing :
  forall (device : Device) (fuel : nat) (s : Sunapi) (w : World) s' w',
    connect device fuel s w = Some (Return tt, s', w') ->
    truthy_str (sessionId (self s')) = false ->
    has_token (self s') = true /\ modules s' = modules s.
Proof.
  intros device fuel s w s' w' H Hsid.
  pose proof (connect_aggregate_token _ _ _ _ _ _ H) as Htok.
  split; [exact Htok|].
  unfold connect in H.
  destruct (login device fuel (self s) w) as [[[[result | t] c] w1]|];
    [ | discriminate | discriminate].
  destruct (negb (Envelope.success result)); [discriminate|].
  destruct (has_token c && truthy_str (sessionId c)) eqn:Hshare;
    injection H as <- <-; simpl in *.
  - rewrite Hsid, andb_false_r in Hshare. discriminate.
  - reflexivity.
Qed.

Lemma connect_without_session_id_shares_nothing_witness :
  exists s' w',
    connect token_without_session 1 (new_Sunapi Demo.cfg) Demo.at_start
    = Some (Return tt, s', w')
    /\ has_token (self s') = true
    /\ modules s' = modules (new_Sunapi Demo.cfg).
Proof.
  eexists. eexists. split; [vm_compute; reflexivity|].
  exact (connect_without_session_id_shares_nothing token_without_session 1
           (new_Sunapi Demo.cfg) Demo.at_start _ _ eq_refl eq_refl).
Defined.



(** * Further properties of the endpoint builder *)

(** X18: [buildCgiEndpoint] always yields the path /stw-cgi/<module>.cgi,
    followed by a query string only when a sub-menu or an action is given.
    An empty string counts as not given, so the result never ends in a bare
    [?] and never has a dangling [&]. *)
Theorem buildCgiEndpoint_shapes :
  forall (module : string) (submenu action : option string),
    let path := ("/stw-cgi/" ++ module ++ ".cgi")%string in
    (truthy_str submenu = false -> truthy_str action = false ->
     buildCgiEndpoint module submenu action = path)
    /\ (forall s, submenu = Some s -> s <> ""%string ->
          truthy_str action = false ->
          buildCgiEndpoint module submenu action
          = (path ++ "?msubmenu=" ++ s)%string)
    /\ (forall a, truthy_str submenu = false ->
          action = Some a -> a <> ""%string ->
          buildCgiEndpoint module submenu action
          = (path ++ "?action=" ++ a)%string)
    /\ (forall s a, submenu = Some s -> s <> ""%string ->
          action = Some a -> a <> ""%string ->
          buildCgiEndpoint module submenu action
          = (path ++ "?msubmenu=" ++ s ++ "&action=" ++ a)%string).
Proof.
  intros module submenu action path. subst path. unfold buildCgiEndpoint.
  assert (Htruthy : forall s, s <> ""%string -> truthy_str (Some s) = true).
  { intros s Hs. simpl. apply String.eqb_neq in Hs. now rewrite Hs. }
  split; [|split; [|split]].
  - intros -> ->. reflexivity.
  - intros s -> Hs ->. rewrite (Htruthy _ Hs). reflexivity.
  - intros a -> -> Ha. rewrite (Htruthy _ Ha). reflexivity.
  - intros s a -> Hs -> Ha. rewrite (Htruthy _ Hs), (Htruthy _ Ha).
    reflexivity.
Qed.

Lemma buildCgiEndpoint_shapes_witness :
  buildCgiEndpoint "system" (Some "info") (Some "view")
  = "/stw-cgi/system.cgi?msubmenu=info&action=view"%string
  /\ buildCgiEndpoint "video" (Some ""%string) None
     = "/stw-cgi/video.cgi"%string.
Proof.
  split.
  - refine (proj2 (proj2 (proj2 (buildCgiEndpoint_shapes "system"
                                   (Some "info") (Some "view"))))
              "info" "view" eq_refl _ eq_refl _); discriminate.
  - exact (proj1 (buildCgiEndpoint_shapes "video" (Some ""%string) None)
             eq_refl eq_refl).
Defined.

(** * Further properties of the event module *)

Lemma member_nullish v k :
  Events.nullish v = true -> Events.member v k = None.
Proof. destruct v; simpl; intro H; try discriminate; reflexivity. Qed.

Lemma member_defined v k :
  Events.nullish v = false -> exists x, Events.member v k = Some x.
Proof. destruct v; simpl; intro H; try discriminate; eexists; reflexivity. Qed.

Lemma js_or_truthy a b :
  Events.truthy b = true -> Events.truthy (Events.js_or a b) = true.
Proof.
  intro H. unfold Events.js_or. destruct (Events.truthy a) eqn:Ha; assumption.
Qed.

Lemma js_or_default a s :
  Events.truthy (Events.js_or a (Events.JString s)) = true
  \/ Events.js_or a (Events.JString s) = Events.JString ""%string.
Proof.
  unfold Events.js_or. destruct (Events.truthy a) eqn:Ha; [left; exact Ha|].
  simpl. destruct (String.eqb_spec s ""%string) as [-> | Hs];
    [right | left]; reflexivity.
Qed.

Lemma map_conditions_nullish items :
  existsb Events.nullish items = true ->
  Events.map_conditions items = Events.TypeError.
Proof.
  induction items as [|item rest IH]; simpl; [discriminate|].
  destruct (Events.nullish item) eqn:Hn; simpl.
  - intros _. now rewrite (member_nullish _ "type" Hn).
  - intro H. rewrite (IH H).
    destruct (Events.member item "type"), (Events.member item "parameters");
      reflexivity.
Qed.

Lemma map_conditions_defined items :
  existsb Events.nullish items = false ->
  exists cs,
    Events.map_conditions items = Events.Value cs
    /\ List.length cs = List.length items
    /\ Forall (fun c =>
                 Events.truthy (Events.parameters c) = true
                 /\ (Events.truthy (Events.type c) = true
                     \/ Events.type c = Events.JString ""%string)) cs.
Proof.
  induction items as [|item rest IH]; simpl.
  - intros _. exists []. repeat split. constructor.
  - intro H. apply orb_false_iff in H. destruct H as [Hn Hrest].
    destruct (IH Hrest) as (cs & -> & Hlen & Hall).
    destruct (member_defined item "type" Hn) as [t ->].
    destruct (member_defined item "parameters" Hn) as [p ->].
    eexists. split; [reflexivity|]. split; [simpl; now rewrite Hlen|].
    constructor; [|exact Hall]. simpl. split.
    + now apply js_or_truthy.
    + apply js_or_default.
Qed.

(** Reads the member an [own_or] is about off a concrete element. *)
Ltac read_own :=
  match goal with
  | H : own_or _ _ _ _ |- _ =>
      let x := fresh "x" in
      let Hx := fresh "Hx" in
      destruct H as (x & Hx & ->); vm_compute in Hx; injection Hx as <-
  end.

Lemma own_or_intro item key default x :
  Events.member item key = Some x ->
  own_or item key default (Events.js_or x default).
Proof. intro H. exists x. split; [exact H | reflexivity]. Qed.

Lemma map_conditions_related items :
  existsb Events.nullish items = false ->
  exists cs,
    Events.map_conditions items = Events.Value cs
    /\ Forall2 condition_of items cs.
Proof.
  induction items as [|item rest IH]; simpl.
  - intros _. exists []. split; [reflexivity | constructor].
  - intro H. apply orb_false_iff in H. destruct H as [Hn Hrest].
    destruct (IH Hrest) as (cs & Hcs & Hall). rewrite Hcs.
    destruct (member_defined item "type" Hn) as [t Ht].
    destruct (member_defined item "parameters" Hn) as [p Hp].
    rewrite Ht, Hp.
    eexists. split; [reflexivity|].
    constructor; [|exact Hall].
    split; cbn [Events.type Events.parameters]; now apply own_or_intro.
Qed.

(** X19: when [conditions] is an array, or a string that parses to an array,
    [parseConditions] maps it element by element. It throws a TypeError when
    an element is null or undefined. Otherwise it returns one condition per
    element, in order: the type of a condition is the [type] of its element
    when that is truthy and the empty string when it is not, and its
    parameters are the [parameters] of its element when they are truthy and
    an empty object when they are not. The parameters are therefore never
    missing, and the type is a truthy value or the empty string. *)
Theorem parseConditions_maps_the_list :
  forall (JSON_parse : string -> option Events.JsVal)
         (conditions : Events.JsVal) (items : list Events.JsVal),
    listed JSON_parse conditions items ->
    (existsb Events.nullish items = true ->
     Events.parseConditions JSON_parse conditions = Events.TypeError)
    /\ (existsb Events.nullish items = false ->
        exists cs,
          Events.parseConditions JSON_parse conditions = Events.Value cs
          /\ List.length cs = List.length items
          /\ Forall2 condition_of items cs
          /\ Forall (fun c =>
                       Events.truthy (Events.parameters c) = true
                       /\ (Events.truthy (Events.type c) = true
                           \/ Events.type c = Events.JString ""%string)) cs).
Proof.
  intros JSON_parse conditions items Hl.
  assert (Heq : Events.parseConditions JSON_parse conditions
                = Events.map_conditions items).
  { unfold Events.parseConditions.
    destruct Hl as [-> | (s & -> & ->)]; reflexivity. }
  rewrite Heq. split.
  - apply map_conditions_nullish.
  - intro Hn.
    destruct (map_conditions_defined items Hn) as (cs & Hcs & Hlen & Hall).
    destruct (map_conditions_related items Hn) as (cs' & Hcs' & Hrel).
    assert (cs' = cs) by congruence. subst cs'.
    exists cs. repeat split; assumption.
Qed.

Lemma parseConditions_maps_the_list_witness :
  Events.parseConditions Events.read_json (Events.JString "[7, null]")
  = Events.TypeError
  /\ Events.parseConditions Events.read_json (Events.JArray sample_items)
     = Events.Value
         [{| Events.type := Events.JString "motion";
             Events.parameters :=
               Events.JObject [("level", Events.JNumber 5 0)] |};
          {| Events.type := Events.JString "";
             Events.parameters := Events.JObject [] |};
          {| Events.type := Events.JString "";
             Events.parameters := Events.JObject [] |}]
  /\ exists cs,
       Events.parseConditions Events.read_json (Events.JString "[7, [], {}]")
       = Events.Value cs
       /\ List.length cs = 3%nat.
Proof.
  split; [|split].
  - refine (proj1 (parseConditions_maps_the_list Events.read_json _
                     [Events.JNumber 7 0; Events.JNull] _) eq_refl).
    right. eexists. split; [reflexivity|]. vm_compute. reflexivity.
  - destruct (proj2 (parseConditions_maps_the_list Events.read_json
                       (Events.JArray sample_items) sample_items
                       (or_introl eq_refl))
                eq_refl) as (cs & Hcs & _ & Hrel & _).
    rewrite Hcs. f_equal. unfold sample_items in Hrel.
    inversion Hrel as [|i1 c1 r1 cs1 [Ht1 Hp1] Hrel1]; subst.
    inversion Hrel1 as [|i2 c2 r2 cs2 [Ht2 Hp2] Hrel2]; subst.
    inversion Hrel2 as [|i3 c3 r3 cs3 [Ht3 Hp3] Hrel3]; subst.
    inversion Hrel3; subst.
    destruct c1 as [t1 p1], c2 as [t2 p2], c3 as [t3 p3].
    cbn [Events.type Events.parameters] in *.
    repeat read_own.
    reflexivity.
  - destruct (proj2 (parseConditions_maps_the_list Events.read_json
                       (Events.JString "[7, [], {}]")
                       [Events.JNumber 7 0; Events.JArray [];
                        Events.JObject []]
                       (or_intror (ex_intro _ _ (conj eq_refl eq_refl))))
                eq_refl) as (cs & Hcs & Hlen & _).
    exists cs. split; assumption.
Defined.

(** X20: in every other case [parseConditions] returns the empty sequence
    and does not throw: when [conditions] is neither a string nor an array
    (a number, an object, null, undefined), when it is a string that does
    not parse, and when it is a string that parses to something that is no
    array. *)
Theorem parseConditions_without_list_is_empty :
  forall (JSON_parse : string -> option Events.JsVal)
         (conditions : Events.JsVal),
    (forall items, ~ listed JSON_parse conditions items) ->
    Events.parseConditions JSON_parse conditions = Events.Value [].
Proof.
  intros JSON_parse conditions Hno. unfold Events.parseConditions.
  destruct conditions as [ | | b | m e | s | items | members];
    try reflexivity.
  - destruct (JSON_parse s) as [[ | | b | m e | s' | items | members]|] eqn:Hp;
      try reflexivity.
    exfalso. apply (Hno items). right. exists s. split; [reflexivity | exact Hp].
  - exfalso. apply (Hno items). left. reflexivity.
Qed.

Lemma parseConditions_without_list_is_empty_witness :
  Events.parseConditions Events.read_json (Events.JString "{ }")
  = Events.Value [].
Proof.
  apply parseConditions_without_list_is_empty.
  intros items [H | (s & Hs & Hp)].
  - discriminate.
  - injection Hs as <-. vm_compute in Hp. discriminate.
Defined.

Lemma traverse_fails {A B} (f : A -> Events.Outcome B) items :
  (exists x, In x items /\ f x = Events.TypeError) ->
  Events.traverse f items = Events.TypeError.
Proof.
  induction items as [|item rest IH]; intros (x & Hin & Hx); [destruct Hin|].
  simpl. destruct Hin as [-> | Hin].
  - now rewrite Hx.
  - rewrite (IH (ex_intro _ x (conj Hin Hx))). destruct (f item); reflexivity.
Qed.

Lemma traverse_succeeds {A B} (f : A -> Events.Outcome B) (P : B -> Prop) items :
  (forall x, In x items -> exists b, f x = Events.Value b /\ P b) ->
  exists bs,
    Events.traverse f items = Events.Value bs
    /\ List.length bs = List.length items
    /\ Forall P bs.
Proof.
  induction items as [|item rest IH]; intro H.
  - exists []. repeat split. constructor.
  - destruct (H item (or_introl eq_refl)) as (b & Hb & HP).
    destruct (IH (fun x Hin => H x (or_intror Hin))) as (bs & Hbs & Hlen & Hall).
    exists (b :: bs). simpl. rewrite Hb, Hbs.
    split; [reflexivity|]. split; [now rewrite Hlen | now constructor].
Qed.

Lemma traverse_related {A B} (f : A -> Events.Outcome B) (R : A -> B -> Prop)
    items :
  (forall x, In x items -> exists b, f x = Events.Value b /\ R x b) ->
  exists bs, Events.traverse f items = Events.Value bs /\ Forall2 R items bs.
Proof.
  induction items as [|item rest IH]; intro H.
  - exists []. split; [reflexivity | constructor].
  - destruct (H item (or_introl eq_refl)) as (b & Hb & HR).
    destruct (IH (fun x Hin => H x (or_intror Hin))) as (bs & Hbs & Hall).
    exists (b :: bs). simpl. rewrite Hb, Hbs.
    split; [reflexivity | now constructor].
Qed.

Lemma existsb_nullish_true items :
  existsb Events.nullish items = true ->
  exists x, In x items /\ Events.nullish x = true.
Proof. intro H. apply existsb_exists in H. exact H. Qed.

Lemma existsb_nullish_false items x :
  existsb Events.nullish items = false -> In x items ->
  Events.nullish x = false.
Proof.
  intros H Hin. destruct (Events.nullish x) eqn:Hn; [|reflexivity].
  assert (existsb Events.nullish items = true); [|congruence].
  apply existsb_exists. exists x. split; assumption.
Qed.

(** X21: [parseActions] behaves like [parseConditions], with its own
    default. On an array, or a string that parses to one, it throws a
    TypeError when an element is null or undefined, and otherwise returns
    one action per element, in order: the type of an action is the [type] of
    its element when that is truthy and 'notification' when it is not, and
    its parameters are the [parameters] of its element when they are truthy
    and an empty object when they are not. Neither is therefore ever
    missing. On anything else, the strings that do not parse included, it
    returns the empty sequence. *)
Theorem parseActions_maps_the_list :
  forall (JSON_parse : string -> option Events.JsVal)
         (actions : Events.JsVal),
    (forall items, listed JSON_parse actions items ->
       (existsb Events.nullish items = true ->
        Events.parseActions JSON_parse actions = Events.TypeError)
       /\ (existsb Events.nullish items = false ->
           exists acts,
             Events.parseActions JSON_parse actions = Events.Value acts
             /\ List.length acts = List.length items
             /\ Forall2 action_of items acts
             /\ Forall (fun a =>
                          Events.truthy (Events.Action.type a) = true
                          /\ Events.truthy (Events.Action.parameters a) = true)
                  acts))
    /\ ((forall items, ~ listed JSON_parse actions items) ->
        Events.parseActions JSON_parse actions = Events.Value []).
Proof.
  intros JSON_parse actions. split.
  - intros items Hl.
    assert (Heq : Events.parseActions JSON_parse actions
                  = Events.traverse Events.normalise_action items).
    { unfold Events.parseActions.
      destruct Hl as [-> | (s & -> & ->)]; reflexivity. }
    rewrite Heq. split.
    + intro H. apply existsb_nullish_true in H. destruct H as (x & Hin & Hn).
      apply traverse_fails. exists x. split; [exact Hin|].
      unfold Events.normalise_action. now rewrite (member_nullish _ "type" Hn).
    + intro H.
      assert (Hone : forall x, In x items ->
                exists a, Events.normalise_action x = Events.Value a
                          /\ action_of x a
                          /\ Events.truthy (Events.Action.type a) = true
                          /\ Events.truthy (Events.Action.parameters a) = true).
      { intros x Hin.
        pose proof (existsb_nullish_false _ _ H Hin) as Hn.
        unfold Events.normalise_action.
        destruct (member_defined x "type" Hn) as [t Ht].
        destruct (member_defined x "parameters" Hn) as [p Hp].
        rewrite Ht, Hp.
        eexists. split; [reflexivity|].
        cbn [Events.Action.type Events.Action.parameters].
        split; [split; now apply own_or_intro|].
        split; now apply js_or_truthy. }
      destruct (traverse_succeeds Events.normalise_action
                  (fun a => Events.truthy (Events.Action.type a) = true
                            /\ Events.truthy (Events.Action.parameters a) = true)
                  items) as (acts & Hacts & Hlen & Hall).
      { intros x Hin. destruct (Hone x Hin) as (a & Ha & _ & Htruthy).
        exists a. split; assumption. }
      destruct (traverse_related Events.normalise_action action_of items)
        as (acts' & Hacts' & Hrel).
      { intros x Hin. destruct (Hone x Hin) as (a & Ha & Hof & _).
        exists a. split; assumption. }
      assert (acts' = acts) by congruence. subst acts'.
      exists acts. repeat split; assumption.
  - intro Hno. unfold Events.parseActions.
    destruct actions as [ | | b | m e | s | items | members];
      try reflexivity.
    + destruct (JSON_parse s) as [[ | | b | m e | s' | items | members]|] eqn:Hp;
        try reflexivity.
      exfalso. apply (Hno items). right. exists s.
      split; [reflexivity | exact Hp].
    + exfalso. apply (Hno items). left. reflexivity.
Qed.

Lemma parseActions_maps_the_list_witness :
  Events.parseActions Events.read_json (Events.JString "[null]")
  = Events.TypeError
  /\ Events.parseActions Events.read_json (Events.JArray sample_items)
     = Events.Value
         [{| Events.Action.type := Events.JString "motion";
             Events.Action.parameters :=
               Events.JObject [("level", Events.JNumber 5 0)] |};
          {| Events.Action.type := Events.JString "notification";
             Events.Action.parameters := Events.JObject [] |};
          {| Events.Action.type := Events.JString "notification";
             Events.Action.parameters := Events.JObject [] |}]
  /\ Events.parseActions Events.read_json (Events.JString "no json")
     = Events.Value [].
Proof.
  split; [|split].
  - refine (proj1 (proj1 (parseActions_maps_the_list Events.read_json
                            (Events.JString "[null]"))
                     [Events.JNull] _) eq_refl).
    right. eexists. split; [reflexivity|]. vm_compute. reflexivity.
  - destruct (proj2 (proj1 (parseActions_maps_the_list Events.read_json
                              (Events.JArray sample_items))
                       sample_items (or_introl eq_refl))
                eq_refl) as (acts & Hacts & _ & Hrel & _).
    rewrite Hacts. f_equal. unfold sample_items in Hrel.
    inversion Hrel as [|i1 a1 r1 as1 [Ht1 Hp1] Hrel1]; subst.
    inversion Hrel1 as [|i2 a2 r2 as2 [Ht2 Hp2] Hrel2]; subst.
    inversion Hrel2 as [|i3 a3 r3 as3 [Ht3 Hp3] Hrel3]; subst.
    inversion Hrel3; subst.
    destruct a1 as [t1 p1], a2 as [t2 p2], a3 as [t3 p3].
    cbn [Events.Action.type Events.Action.parameters] in *.
    repeat read_own.
    reflexivity.
  - apply (proj2 (parseActions_maps_the_list Events.read_json
                    (Events.JString "no json"))).
    intros items [H | (s & Hs & Hp)].
    + discriminate.
    + injection Hs as <-. vm_compute in Hp. discriminate.
Defined.

Section RuleProperties.

Variable JSON_parse : string -> option Events.JsVal.
Variable Num : Type.
Variable parseInt : Events.JsVal -> Num.
Variable num_truthy : Num -> bool.
Variable num_zero : Num.
Variable ToString : Events.JsVal -> string.

Lemma parseEventRule_unbound data :
  Events.parseEventRule JSON_parse Num parseInt num_truthy num_zero ToString
    false data = Events.TypeError.
Proof.
  unfold Events.parseEventRule.
  destruct (Events.member data "ruleId"), (Events.member data "rule"),
    (Events.member data "name"); try reflexivity.
  destruct (Events.member data "enabled"), (Events.member data "type"),
    (Events.member data "conditions"), (Events.member data "actions");
    reflexivity.
Qed.

End RuleProperties.




(** X23: [getEventRules] hands [parseEventRule] to [map] as a bare
    function, so inside it [this] is undefined and normalising the first
    rule throws a TypeError. The operation therefore returns normally in two
    cases only: when the envelope of its request is a failure or has no
    usable data, which it passes on, and when the data is the empty array,
    for which it returns no rules. For every other reply, a single rule
    object included, it throws. [getEventRule], which calls the method on
    the module, returns the rule in the same situation. *)
Theorem getEventRules_throws_on_any_rule :
  forall (JSON_parse : string -> option Events.JsVal) (Num : Type)
         (parseInt : Events.JsVal -> Num) (num_truthy : Num -> bool)
         (num_zero : Num) (ToString : Events.JsVal -> string)
         (response : SunapiResponse Events.JsVal),
    let getEventRules :=
      Events.getEventRules_result JSON_parse Num parseInt num_truthy
        num_zero ToString in
    (Events.usable_data response = None ->
     getEventRules response = Events.Value (Events.passed_on response))
    /\ (Events.usable_data response = Some (Events.JArray []) ->
        getEventRules response
        = Events.Value (Events.normalised response []))
    /\ (forall data,
          Events.usable_data response = Some data ->
          data <> Events.JArray [] ->
          getEventRules response = Events.TypeError)
    /\ (forall data rule,
          Events.usable_data response = Some data ->
          Events.parseEventRule JSON_parse Num parseInt num_truthy num_zero
            ToString true data = Events.Value rule ->
          Events.getEventRule_result JSON_parse Num parseInt num_truthy
            num_zero ToString response
          = Events.Value (Events.normalised response rule)).
Proof.
  intros JSON_parse Num parseInt num_truthy num_zero ToString response
    getEventRules.
  subst getEventRules.
  unfold Events.getEventRules_result, Events.getEventRule_result.
  split; [|split; [|split]].
  - intros ->. reflexivity.
  - intros ->. reflexivity.
  - intros data -> Hne.
    assert (Hitems : exists item rest, Events.as_array data = item :: rest).
    { destruct data as [ | | b | m e | s | [|item rest] | members];
        try (eexists; eexists; reflexivity).
      contradiction. }
    destruct Hitems as (item & rest & ->). simpl.
    now rewrite parseEventRule_unbound.
  - intros data rule -> ->. reflexivity.
Qed.

Lemma getEventRules_throws_on_any_rule_witness :
  Events.getEventRules_result Events.read_json Runtime.Num Runtime.parseInt
    Runtime.num_truthy Runtime.num_zero Runtime.ToString sample_rules_reply
  = Events.TypeError.
Proof.
  refine (proj1 (proj2 (proj2 (getEventRules_throws_on_any_rule
                                 Events.read_json Runtime.Num Runtime.parseInt
                                 Runtime.num_truthy Runtime.num_zero
                                 Runtime.ToString sample_rules_reply)))
            (Events.JArray [sample_rule]) eq_refl _).
  discriminate.
Defined.

(** * Further properties of the system module *)

Lemma truthy_not_nullish v :
  Events.truthy v = true -> Events.nullish v = false.
Proof. destruct v; simpl; intro H; try discriminate; reflexivity. Qed.

(** X24: [getDeviceInfo] never throws on the envelope of its request. It
    passes on a failure and an envelope without usable data. For every
    other reply it returns a success with the status code of the reply. Its
    device name, model, serial number, firmware version and MAC address are
    each the reply's field of that name when that is truthy, else the
    reply's alternate field ([name], [deviceModel], [serial], [version],
    [mac]) when that is truthy, else 'Unknown', so that none is ever missing
    or empty. Its uptime is the reply's when that is truthy and 0 otherwise,
    and its temperature and fan status are the reply's, possibly
    undefined. *)
Theorem getDeviceInfo_fills_the_gaps :
  forall (response : SunapiResponse Events.JsVal),
    (Events.usable_data response = None ->
     SystemModule.getDeviceInfo_result response
     = Events.Value (Events.passed_on response))
    /\ (forall data,
          Events.usable_data response = Some data ->
          exists info uptime temperature fanStatus,
            SystemModule.getDeviceInfo_result response
            = Events.Value (Events.normalised response info)
            /\ named info
            /\ named_after data info
            /\ Events.member data "uptime" = Some uptime
            /\ SystemModule.SystemInfo.uptime info
               = (if Events.truthy uptime then uptime else Events.JNumber 0 0)
            /\ Events.member data "temperature" = Some temperature
            /\ SystemModule.SystemInfo.temperature info = temperature
            /\ Events.member data "fanStatus" = Some fanStatus
            /\ SystemModule.SystemInfo.fanStatus info = fanStatus).
Proof.
  intro response. unfold SystemModule.getDeviceInfo_result. split.
  - intros ->. reflexivity.
  - intros data Hu. rewrite Hu.
    assert (Hn : Events.nullish data = false).
    { unfold Events.usable_data in Hu.
      destruct (Envelope.success response); [|discriminate].
      destruct (Envelope.data response) as [d|]; [|discriminate].
      destruct (Events.truthy d) eqn:Ht; [|discriminate].
      injection Hu as <-. now apply truthy_not_nullish. }
    unfold SystemModule.deviceInfo, named_after, first_named.
    destruct (member_defined data "deviceName" Hn) as [v1 ->].
    destruct (member_defined data "name" Hn) as [v2 ->].
    destruct (member_defined data "model" Hn) as [v3 ->].
    destruct (member_defined data "deviceModel" Hn) as [v4 ->].
    destruct (member_defined data "serialNumber" Hn) as [v5 ->].
    destruct (member_defined data "serial" Hn) as [v6 ->].
    destruct (member_defined data "firmwareVersion" Hn) as [v7 ->].
    destruct (member_defined data "version" Hn) as [v8 ->].
    destruct (member_defined data "macAddress" Hn) as [v9 ->].
    destruct (member_defined data "mac" Hn) as [v10 ->].
    destruct (member_defined data "uptime" Hn) as [v11 ->].
    destruct (member_defined data "temperature" Hn) as [v12 ->].
    destruct (member_defined data "fanStatus" Hn) as [v13 ->].
    eexists. exists v11, v12, v13. split; [reflexivity|].
    split; [|split; [|repeat split]].
    + unfold named. simpl. repeat split; apply js_or_truthy; reflexivity.
    + cbn [SystemModule.SystemInfo.deviceName SystemModule.SystemInfo.model
           SystemModule.SystemInfo.serialNumber
           SystemModule.SystemInfo.firmwareVersion
           SystemModule.SystemInfo.macAddress].
      unfold Events.js_or.
      repeat split.
      * destruct (Events.truthy v1) eqn:H1; [now rewrite H1|reflexivity].
      * destruct (Events.truthy v3) eqn:H1; [now rewrite H1|reflexivity].
      * destruct (Events.truthy v5) eqn:H1; [now rewrite H1|reflexivity].
      * destruct (Events.truthy v7) eqn:H1; [now rewrite H1|reflexivity].
      * destruct (Events.truthy v9) eqn:H1; [now rewrite H1|reflexivity].
Qed.

Lemma getDeviceInfo_fills_the_gaps_witness :
  exists info,
    SystemModule.getDeviceInfo_result sample_device_reply
    = Events.Value
        {| Envelope.success := true;
           Envelope.data := Some (inl info);
           Envelope.error := None;
           Envelope.statusCode := Some 200 |}
    /\ SystemModule.SystemInfo.deviceName info = Events.JString "Cam1"
    /\ SystemModule.SystemInfo.model info = Events.JString "X1"
    /\ SystemModule.SystemInfo.serialNumber info = Events.JString "Unknown"
    /\ SystemModule.SystemInfo.firmwareVersion info = Events.JString "Unknown"
    /\ SystemModule.SystemInfo.macAddress info = Events.JString "Unknown"
    /\ SystemModule.SystemInfo.uptime info = Events.JNumber 0 0.
Proof.
  destruct (proj2 (getDeviceInfo_fills_the_gaps sample_device_reply)
              _ eq_refl)
    as (info & uptime & temperature & fanStatus & Hr & _ & Hafter & Hu & Hup
        & _).
  destruct Hafter as (H1 & H2 & H3 & H4 & H5).
  exists info. split; [exact Hr|].
  vm_compute in H1, H2, H3, H4, H5.
  injection H1 as H1. injection H2 as H2. injection H3 as H3.
  injection H4 as H4. injection H5 as H5.
  repeat split; try (symmetry; assumption).
  rewrite Hup. simpl in Hu. injection Hu as <-. reflexivity.
Defined.

(** X25: [parseNetworkInfo] returns the empty sequence for anything that is
    no array. On an array it throws a TypeError when an element is null or
    undefined; otherwise it returns one interface per element, in order,
    whose name, addresses, speed and duplex are never missing or empty, and
    whose status is 'connected' exactly when the element has status 'up' or
    a truthy [connected], and 'disconnected' otherwise. *)
Theorem parseNetworkInfo_normalises :
  forall (networkData : Events.JsVal),
    ((forall items, networkData <> Events.JArray items) ->
     SystemModule.parseNetworkInfo networkData = Events.Value [])
    /\ (forall items,
          networkData = Events.JArray items ->
          (existsb Events.nullish items = true ->
           SystemModule.parseNetworkInfo networkData = Events.TypeError)
          /\ (existsb Events.nullish items = false ->
              exists infos,
                SystemModule.parseNetworkInfo networkData = Events.Value infos
                /\ Forall2 network_normalised items infos)).
Proof.
  intro networkData. split.
  - intro Hno. destruct networkData; try reflexivity.
    exfalso. eapply Hno. reflexivity.
  - intros items ->. simpl. split.
    + intro H. apply existsb_nullish_true in H. destruct H as (x & Hin & Hn).
      apply traverse_fails. exists x. split; [exact Hin|].
      unfold SystemModule.network_item.
      now rewrite (member_nullish _ "interface" Hn).
    + intro H. apply traverse_related. intros x Hin.
      pose proof (existsb_nullish_false _ _ H Hin) as Hn.
      unfold SystemModule.network_item.
      destruct (member_defined x "interface" Hn) as [v1 ->].
      destruct (member_defined x "name" Hn) as [v2 ->].
      destruct (member_defined x "ipAddress" Hn) as [v3 ->].
      destruct (member_defined x "ip" Hn) as [v4 ->].
      destruct (member_defined x "macAddress" Hn) as [v5 ->].
      destruct (member_defined x "mac" Hn) as [v6 ->].
      destruct (member_defined x "speed" Hn) as [v7 ->].
      destruct (member_defined x "duplex" Hn) as [v8 ->].
      destruct (member_defined x "status" Hn) as [v9 Hst].
      destruct (member_defined x "connected" Hn) as [v10 Hco].
      rewrite Hst, Hco.
      eexists. split; [reflexivity|]. unfold network_normalised. simpl.
      do 5 (split; [apply js_or_truthy; reflexivity|]).
      exists v9, v10. split; [exact Hst|]. split; [exact Hco | reflexivity].
Qed.

Lemma parseNetworkInfo_normalises_witness :
  exists infos,
    SystemModule.parseNetworkInfo (Events.JArray sample_interfaces)
    = Events.Value infos
    /\ map SystemModule.NetworkInfo.status infos
       = ["connected"%string; "disconnected"%string].
Proof.
  destruct (proj2 (proj2 (parseNetworkInfo_normalises
                            (Events.JArray sample_interfaces))
                     sample_interfaces eq_refl) eq_refl)
    as (infos & Hr & Hall).
  exists infos. split; [exact Hr|].
  inversion Hall as [|x1 i1 r1 l1 H1 Hrest]; subst.
  inversion Hrest as [|x2 i2 r2 l2 H2 Hnil]; subst.
  inversion Hnil; subst.
  destruct H1 as (_ & _ & _ & _ & _ & s1 & c1 & Hs1 & Hc1 & Hv1).
  destruct H2 as (_ & _ & _ & _ & _ & s2 & c2 & Hs2 & Hc2 & Hv2).
  simpl in Hs1, Hc1, Hs2, Hc2.
  injection Hs1 as <-. injection Hc1 as <-.
  injection Hs2 as <-. injection Hc2 as <-.
  simpl. rewrite Hv1, Hv2. reflexivity.
Defined.



(** * The recovery from a single 401 *)

(** X27: when a call is answered 401 while a token is held, the login that
    follows is answered with [status] OK, and the retry is answered with
    anything but a 401, then exactly three requests go on the wire: the
    call, the login and the retry. There is one re-login and one retry, the
    client ends with the session of the new login, and the outcome of the
    call is the outcome of the retry: its response, or its classified
    error. When the new session has a positive lifetime and its expiry is
    an instant a Date can hold, the retry carries the new token, not the old
    one; when the expiry is beyond the range of Date, the retry carries the
    credential the call carried. *)
Theorem single_401_is_recovered :
  forall (device : Device) (fuel : nat) (cfg : Request.t)
         (c : SunapiClient) (w : World)
         (r1 : AxiosResponse.t) (d : Payload.t),
    has_token c = true ->
    let sent := request_interceptor c (now w) cfg in
    let x0 := device (List.length (wire w)) sent in
    let w1 := note_relogin (transmit w sent x0) in
    let sent1 := request_interceptor c (now w1) (login_request (config c)) in
    let x1 := device (List.length (wire w1)) sent1 in
    let w2 := note_retry (transmit w1 sent1 x1) in
    let c2 := stored_session c (now w2) d in
    let sent2 := request_interceptor c2 (now w2) sent in
    let x2 := device (List.length (wire w2)) sent2 in
    answers_401 (settled x0) = true ->
    settled x1 = Fulfilled r1 ->
    AxiosResponse.data r1 = Some d ->
    status_OK d = true ->
    answers_401 (settled x2) = false ->
    axios_request device (S (S fuel)) cfg c w
    = Some (match settled x2 with
            | Fulfilled response => Return response
            | Rejected error =>
                Throw (ThrowSunapi (handleError (config c) error))
            end, c2, transmit w2 sent2 x2)
    /\ wire (transmit w2 sent2 x2)
       = (wire w ++ [(sent, settled x0); (sent1, settled x1);
                     (sent2, settled x2)])%list
    /\ relogins (transmit w2 sent2 x2) = S (relogins w)
    /\ retries (transmit w2 sent2 x2) = S (retries w)
    /\ (0 < session_lifetime d ->
        Z.abs (now w2 + session_lifetime d * 1000) <= max_time ->
        Headers.Authorization (Request.headers sent2)
        = Some ("Bearer "
                ++ interpolate (or_str (Payload.token d) (Payload.sessionId d)))
            %string)
    /\ (max_time < Z.abs (now w2 + session_lifetime d * 1000) ->
        Headers.Authorization (Request.headers sent2)
        = Headers.Authorization (Request.headers sent)).
Proof.
  intros device fuel cfg c w r1 d Htok sent x0 w1 sent1 x1 w2 c2 sent2 x2
    H0 H1 Hd Hok H2.
  assert (Hlogin : login device (S fuel) c w1
                   = Some (Return (login_envelope d),
                           stored_session c (now (transmit w1 sent1 x1)) d,
                           transmit w1 sent1 x1)).
  { unfold login.
    assert (Hpost : axios_request device (S fuel) (login_request (config c)) c w1
                    = Some (Return r1, c, transmit w1 sent1 x1)).
    { rewrite axios_request_step. cbv zeta. fold sent1 x1. now rewrite H1. }
    rewrite (login_with_settled _ _ _ _ _ _ Hpost), Hd, Hok. reflexivity. }
  split; [|split; [|split; [|split; [|split]]]].
  - rewrite axios_request_step. cbv zeta. fold sent x0.
    destruct (settled x0) as [r0 | e0] eqn:Hs0; [discriminate|].
    simpl in H0. rewrite H0, Htok. cbn [andb]. fold w1. rewrite Hlogin.
    fold w2. change (now (transmit w1 sent1 x1)) with (now w2). fold c2.
    rewrite axios_request_step. cbv zeta. fold sent2 x2.
    destruct (settled x2) as [r2 | e2]; [reflexivity|].
    simpl in H2. rewrite H2. reflexivity.
  - simpl. rewrite <- !app_assoc. reflexivity.
  - reflexivity.
  - reflexivity.
  - intros Hpos Hin.
    assert (Hlt : (now w2 <? now w2 + session_lifetime d * 1000) = true).
    { apply Z.ltb_lt. clear - Hpos. lia. }
    subst sent2. unfold request_interceptor at 1.
    cbn [Request.headers Headers.Authorization].
    subst c2. unfold stored_session.
    cbn [authToken AuthToken.expiresAt AuthToken.token].
    rewrite or_num_expires, (new_Date_in_range _ Hin). cbn [later_than].
    rewrite Hlt. reflexivity.
  - intros Hout.
    subst sent2. unfold request_interceptor at 1.
    cbn [Request.headers Headers.Authorization].
    subst c2. unfold stored_session.
    cbn [authToken AuthToken.expiresAt AuthToken.token].
    rewrite or_num_expires, (new_Date_out_of_range _ Hout). reflexivity.
Qed.

Lemma single_401_is_recovered_witness :
  exists c' w',
    axios_request Demo.once_unauthorized 2 Demo.probe
      (Demo.session 5000) Demo.at_start
    = Some (Return {| AxiosResponse.status := 200;
                      AxiosResponse.data := Some Payload.empty |}, c', w')
    /\ relogins w' = 1%nat /\ retries w' = 1%nat
    /\ List.length (wire w') = 3%nat
    /\ Headers.Authorization
         (Request.headers
            (request_interceptor
               (stored_session (Demo.session 5000) 1010 (Demo.login_ok None))
               1010
               (request_interceptor (Demo.session 5000) 1000 Demo.probe)))
       = Some "Bearer tok-1".
Proof.
  destruct (single_401_is_recovered Demo.once_unauthorized 0 Demo.probe
              (Demo.session 5000) Demo.at_start
              {| AxiosResponse.status := 200;
                 AxiosResponse.data := Some (Demo.login_ok None) |}
              (Demo.login_ok None)
              eq_refl eq_refl eq_refl eq_refl eq_refl eq_refl)
    as (Hrun & Hwire & Hrel & Hret & Hnew & _).
  eexists. eexists. split; [exact Hrun|].
  split; [exact Hrel|]. split; [exact Hret|].
  split; [rewrite Hwire; reflexivity|].
  apply Hnew; vm_compute; [reflexivity | discriminate].
Defined.
